(** * A shallow embedding of the session layer of libultrahdr
    ([lib/src/ultrahdr_api.cpp]).

    The encoder and decoder handles are records; every public entry point
    is a function from the handle to the new handle and the returned
    [uhdr_error_info_t].  The JPEG codec, the XMP parser, the pixel
    kernels of the effects ([apply_rotate], [apply_crop], ...), the colour
    conversion helper, [printf] of floats and the build constants live
    outside this file; they are gathered in the record [uhdr_env] and the
    development is parametric in it. *)

From Stdlib Require Import ZArith QArith List String Ascii Bool Lia.
Import ListNotations.

Local Open Scope Z_scope.
Local Open Scope string_scope.

(** ** Value domain *)

Inductive uhdr_codec_err_t :=
| UHDR_CODEC_OK
| UHDR_CODEC_UNKNOWN_ERROR
| UHDR_CODEC_INVALID_PARAM
| UHDR_CODEC_MEM_ERROR
| UHDR_CODEC_INVALID_OPERATION
| UHDR_CODEC_UNSUPPORTED_FEATURE.

Definition err_eqb (a b : uhdr_codec_err_t) : bool :=
  match a, b with
  | UHDR_CODEC_OK, UHDR_CODEC_OK
  | UHDR_CODEC_UNKNOWN_ERROR, UHDR_CODEC_UNKNOWN_ERROR
  | UHDR_CODEC_INVALID_PARAM, UHDR_CODEC_INVALID_PARAM
  | UHDR_CODEC_MEM_ERROR, UHDR_CODEC_MEM_ERROR
  | UHDR_CODEC_INVALID_OPERATION, UHDR_CODEC_INVALID_OPERATION
  | UHDR_CODEC_UNSUPPORTED_FEATURE, UHDR_CODEC_UNSUPPORTED_FEATURE => true
  | _, _ => false
  end.

(** [uhdr_error_info_t]: [detail] is a [char[256]] filled by [snprintf]. *)
Record uhdr_error_info_t := {
  error_code : uhdr_codec_err_t;
  has_detail : Z;
  detail : string
}.

Definition g_no_error : uhdr_error_info_t :=
  {| error_code := UHDR_CODEC_OK; has_detail := 0; detail := "" |}.

(** [snprintf(status.detail, sizeof status.detail, ...)] keeps at most 255
    characters. *)
Definition snprintf_detail (s : string) : string := substring 0 255 s.

Definition mk_error (code : uhdr_codec_err_t) (msg : string) : uhdr_error_info_t :=
  {| error_code := code; has_detail := 1; detail := snprintf_detail msg |}.

(** C enums can hold any int; the [_OTHER] constructors stand for values
    outside the named enumerators. *)
Inductive uhdr_img_label_t :=
| UHDR_HDR_IMG | UHDR_SDR_IMG | UHDR_BASE_IMG | UHDR_GAIN_MAP_IMG
| UHDR_IMG_LABEL_OTHER (v : Z).

Definition label_eqb (a b : uhdr_img_label_t) : bool :=
  match a, b with
  | UHDR_HDR_IMG, UHDR_HDR_IMG | UHDR_SDR_IMG, UHDR_SDR_IMG
  | UHDR_BASE_IMG, UHDR_BASE_IMG | UHDR_GAIN_MAP_IMG, UHDR_GAIN_MAP_IMG => true
  | UHDR_IMG_LABEL_OTHER x, UHDR_IMG_LABEL_OTHER y => Z.eqb x y
  | _, _ => false
  end.

Inductive uhdr_img_fmt_t :=
| UHDR_IMG_FMT_UNSPECIFIED
| UHDR_IMG_FMT_24bppYCbCrP010
| UHDR_IMG_FMT_12bppYCbCr420
| UHDR_IMG_FMT_8bppYCbCr400
| UHDR_IMG_FMT_32bppRGBA8888
| UHDR_IMG_FMT_64bppRGBAHalfFloat
| UHDR_IMG_FMT_32bppRGBA1010102
| UHDR_IMG_FMT_OTHER (v : Z).

Definition fmt_eqb (a b : uhdr_img_fmt_t) : bool :=
  match a, b with
  | UHDR_IMG_FMT_UNSPECIFIED, UHDR_IMG_FMT_UNSPECIFIED
  | UHDR_IMG_FMT_24bppYCbCrP010, UHDR_IMG_FMT_24bppYCbCrP010
  | UHDR_IMG_FMT_12bppYCbCr420, UHDR_IMG_FMT_12bppYCbCr420
  | UHDR_IMG_FMT_8bppYCbCr400, UHDR_IMG_FMT_8bppYCbCr400
  | UHDR_IMG_FMT_32bppRGBA8888, UHDR_IMG_FMT_32bppRGBA8888
  | UHDR_IMG_FMT_64bppRGBAHalfFloat, UHDR_IMG_FMT_64bppRGBAHalfFloat
  | UHDR_IMG_FMT_32bppRGBA1010102, UHDR_IMG_FMT_32bppRGBA1010102 => true
  | UHDR_IMG_FMT_OTHER x, UHDR_IMG_FMT_OTHER y => Z.eqb x y
  | _, _ => false
  end.

Inductive uhdr_color_gamut_t :=
| UHDR_CG_UNSPECIFIED | UHDR_CG_BT_709 | UHDR_CG_DISPLAY_P3 | UHDR_CG_BT_2100
| UHDR_CG_OTHER (v : Z).

Inductive uhdr_color_transfer_t :=
| UHDR_CT_UNSPECIFIED | UHDR_CT_LINEAR | UHDR_CT_HLG | UHDR_CT_PQ | UHDR_CT_SRGB
| UHDR_CT_OTHER (v : Z).

Definition ct_eqb (a b : uhdr_color_transfer_t) : bool :=
  match a, b with
  | UHDR_CT_UNSPECIFIED, UHDR_CT_UNSPECIFIED | UHDR_CT_LINEAR, UHDR_CT_LINEAR
  | UHDR_CT_HLG, UHDR_CT_HLG | UHDR_CT_PQ, UHDR_CT_PQ | UHDR_CT_SRGB, UHDR_CT_SRGB => true
  | UHDR_CT_OTHER x, UHDR_CT_OTHER y => Z.eqb x y
  | _, _ => false
  end.

Definition cg_eqb (a b : uhdr_color_gamut_t) : bool :=
  match a, b with
  | UHDR_CG_UNSPECIFIED, UHDR_CG_UNSPECIFIED | UHDR_CG_BT_709, UHDR_CG_BT_709
  | UHDR_CG_DISPLAY_P3, UHDR_CG_DISPLAY_P3 | UHDR_CG_BT_2100, UHDR_CG_BT_2100 => true
  | UHDR_CG_OTHER x, UHDR_CG_OTHER y => Z.eqb x y
  | _, _ => false
  end.

Inductive uhdr_color_range_t :=
| UHDR_CR_UNSPECIFIED | UHDR_CR_LIMITED_RANGE | UHDR_CR_FULL_RANGE.

Inductive uhdr_codec_t := UHDR_CODEC_JPG | UHDR_CODEC_OTHER (v : Z).

Inductive uhdr_mirror_direction_t :=
| UHDR_MIRROR_VERTICAL | UHDR_MIRROR_HORIZONTAL | UHDR_MIRROR_OTHER (v : Z).

(** The library-internal enums of [jpegr.h] and [ultrahdr.h]. *)
Inductive ultrahdr_color_gamut :=
| ULTRAHDR_COLORGAMUT_UNSPECIFIED | ULTRAHDR_COLORGAMUT_BT709
| ULTRAHDR_COLORGAMUT_P3 | ULTRAHDR_COLORGAMUT_BT2100.

Inductive ultrahdr_transfer_function :=
| ULTRAHDR_TF_UNSPECIFIED | ULTRAHDR_TF_LINEAR | ULTRAHDR_TF_HLG
| ULTRAHDR_TF_PQ | ULTRAHDR_TF_SRGB.

Inductive ultrahdr_output_format :=
| ULTRAHDR_OUTPUT_UNSPECIFIED | ULTRAHDR_OUTPUT_SDR | ULTRAHDR_OUTPUT_HDR_LINEAR
| ULTRAHDR_OUTPUT_HDR_PQ | ULTRAHDR_OUTPUT_HDR_HLG.

Inductive status_t :=
| JPEGR_NO_ERROR
| ERROR_JPEGR_RESOLUTION_MISMATCH
| ERROR_JPEGR_ENCODE_ERROR
| ERROR_JPEGR_DECODE_ERROR
| ERROR_JPEGR_NO_IMAGES_FOUND
| ERROR_JPEGR_GAIN_MAP_IMAGE_NOT_FOUND
| ERROR_JPEGR_BUFFER_TOO_SMALL
| ERROR_JPEGR_MULTIPLE_EXIFS_RECEIVED
| ERROR_JPEGR_UNSUPPORTED_MAP_SCALE_FACTOR
| ERROR_JPEGR_OTHER (v : Z).

(** C [float] as far as this layer uses it: values are only stored and
    compared.  Every IEEE value is a finite rational, an infinity or NaN;
    comparisons follow IEEE 754 (every ordered comparison with NaN is
    false). *)
Inductive cfloat := CFin (q : Q) | CInf | CNegInf | CNaN.

Definition fle (x y : cfloat) : bool :=
  match x, y with
  | CNaN, _ | _, CNaN => false
  | CNegInf, _ => true
  | _, CInf => true
  | CInf, _ => false
  | _, CNegInf => false
  | CFin a, CFin b => match Qcompare a b with Gt => false | _ => true end
  end.

Definition flt (x y : cfloat) : bool :=
  match x, y with
  | CNaN, _ | _, CNaN => false
  | CNegInf, CNegInf => false
  | CNegInf, _ => true
  | CInf, _ => false
  | CFin _, CInf => true
  | CFin _, CNegInf => false
  | CFin a, CFin b => match Qcompare a b with Lt => true | _ => false end
  end.

Definition is_nan (x : cfloat) : bool := match x with CNaN => true | _ => false end.

(** [FLT_MAX] = (2 - 2^-23) * 2^127. *)
Definition FLT_MAX : cfloat := CFin (inject_Z ((2 ^ 24 - 1) * 2 ^ 104)).

(** [uhdr_gainmap_metadata_t] *)
Record uhdr_gainmap_metadata_t := {
  max_content_boost : cfloat;
  min_content_boost : cfloat;
  gamma : cfloat;
  offset_sdr : cfloat;
  offset_hdr : cfloat;
  hdr_capacity_min : cfloat;
  hdr_capacity_max : cfloat
}.

Definition zero_metadata : uhdr_gainmap_metadata_t :=
  {| max_content_boost := CFin 0; min_content_boost := CFin 0; gamma := CFin 0;
     offset_sdr := CFin 0; offset_hdr := CFin 0; hdr_capacity_min := CFin 0;
     hdr_capacity_max := CFin 0 |}.

(** [uhdr_compressed_image_t]; [ci_data = None] is a null [data] pointer.
    The session-owned [uhdr_compressed_image_ext_t] uses the same shape. *)
Record uhdr_compressed_image_t := {
  ci_data : option (list Z);
  ci_data_sz : Z;
  ci_capacity : Z;
  ci_cg : uhdr_color_gamut_t;
  ci_ct : uhdr_color_transfer_t;
  ci_range : uhdr_color_range_t
}.

(** [uhdr_mem_block_t] *)
Record uhdr_mem_block_t := {
  mb_data : option (list Z);
  mb_data_sz : Z;
  mb_capacity : Z
}.

(** [uhdr_raw_image_t]: plane pointers ([None] = null) and strides,
    indexed by [UHDR_PLANE_Y] = [UHDR_PLANE_PACKED] = 0,
    [UHDR_PLANE_U] = [UHDR_PLANE_UV] = 1, [UHDR_PLANE_V] = 2. *)
Record uhdr_raw_image_t := {
  ri_fmt : uhdr_img_fmt_t;
  ri_cg : uhdr_color_gamut_t;
  ri_ct : uhdr_color_transfer_t;
  ri_range : uhdr_color_range_t;
  ri_w : Z;
  ri_h : Z;
  ri_planes : list (option Z);
  ri_stride : list Z
}.

Definition UHDR_PLANE_Y : nat := 0.
Definition UHDR_PLANE_U : nat := 1.
Definition UHDR_PLANE_UV : nat := 1.
Definition UHDR_PLANE_V : nat := 2.

Definition plane (img : uhdr_raw_image_t) (i : nat) : option Z := nth i (ri_planes img) None.
Definition stride (img : uhdr_raw_image_t) (i : nat) : Z := nth i (ri_stride img) 0.

(** Effect records ([editorhelper.h]): the source dispatches on them with
    [dynamic_cast]. *)
Inductive uhdr_effect_desc_t :=
| uhdr_rotate_effect (m_degree : Z)
| uhdr_mirror_effect (m_direction : uhdr_mirror_direction_t)
| uhdr_crop_effect (m_left m_right m_top m_bottom : Z)
| uhdr_resize_effect (m_width m_height : Z).

(** A [std::map] keyed by image intent, as an association list. *)
Fixpoint map_find {V} (k : uhdr_img_label_t) (m : list (uhdr_img_label_t * V)) : option V :=
  match m with
  | [] => None
  | (k', v) :: t => if label_eqb k k' then Some v else map_find k t
  end.

Fixpoint insert_or_assign {V} (k : uhdr_img_label_t) (v : V)
    (m : list (uhdr_img_label_t * V)) : list (uhdr_img_label_t * V) :=
  match m with
  | [] => [(k, v)]
  | (k', v') :: t => if label_eqb k k' then (k, v) :: t else (k', v') :: insert_or_assign k v t
  end.

Definition map_mem {V} (k : uhdr_img_label_t) (m : list (uhdr_img_label_t * V)) : bool :=
  match map_find k m with Some _ => true | None => false end.

(** ** printf *)

Fixpoint digits_of (fuel : nat) (base n : Z) (acc : string) : string :=
  match fuel with
  | O => acc
  | S f =>
    let d := Z.to_nat (n mod base) in
    let c := if Nat.ltb d 10 then ascii_of_nat (48 + d)%nat else ascii_of_nat (87 + d)%nat in
    let acc' := String c acc in
    if Z.ltb n base then acc' else digits_of f base (n / base) acc'
  end.

(** ["%d"] *)
Definition fmt_int (z : Z) : string :=
  if Z.ltb z 0 then "-" ++ digits_of 40 10 (- z) "" else digits_of 40 10 z "".

(** ["%p"] as glibc prints it. *)
Definition fmt_ptr (p : option Z) : string :=
  match p with None => "(nil)" | Some a => "0x" ++ digits_of 40 16 a "" end.

(** [int] arithmetic: two's-complement wrap-around of a 32-bit value. *)
Definition wrap32 (z : Z) : Z := ((z + 2 ^ 31) mod 2 ^ 32) - 2 ^ 31.
Definition INT_MIN : Z := - 2 ^ 31.
Definition INT_MAX : Z := 2 ^ 31 - 1.

(** [unsigned] arithmetic. *)
Definition wrapu32 (z : Z) : Z := z mod 2 ^ 32.

(** ** Collaborators *)

(** [ultrahdr_metadata_struct] of [ultrahdr.h]. *)
Record ultrahdr_metadata_struct := {
  version : string;
  maxContentBoost : cfloat;
  minContentBoost : cfloat;
  gammaM : cfloat;
  offsetSdr : cfloat;
  offsetHdr : cfloat;
  hdrCapacityMin : cfloat;
  hdrCapacityMax : cfloat
}.

(** [jpeg_info_struct] filled by [JpegR::getJPEGRInfo]. *)
Record jpeg_info_struct := {
  ji_width : Z;
  ji_height : Z;
  exifData : list Z;
  iccData : list Z;
  xmpData : list Z
}.

(** The three constructor arguments of [ultrahdr::JpegR] used by the encoder. *)
Record jpegr_config := {
  mapDimensionScaleFactor : Z;
  mapCompressQuality : Z;
  useMultiChannelGainMap : bool
}.

(** The five [JpegR::encodeJPEGR] overloads ("api - 0" ... "api - 4"). *)
Inductive jpegr_encode_call :=
| encodeJPEGR_api0 (p010 : uhdr_raw_image_t) (hdr_tf : ultrahdr_transfer_function)
    (quality : Z) (exif : option (list Z))
| encodeJPEGR_api1 (p010 yuv420 : uhdr_raw_image_t) (hdr_tf : ultrahdr_transfer_function)
    (quality : Z) (exif : option (list Z))
| encodeJPEGR_api2 (p010 yuv420 : uhdr_raw_image_t) (sdr : uhdr_compressed_image_t)
    (hdr_tf : ultrahdr_transfer_function)
| encodeJPEGR_api3 (p010 : uhdr_raw_image_t) (sdr : uhdr_compressed_image_t)
    (hdr_tf : ultrahdr_transfer_function)
| encodeJPEGR_api4 (primary gainmap : uhdr_compressed_image_t)
    (metadata : ultrahdr_metadata_struct).

(** What the session layer calls and does not define: build constants,
    [printf("%f")], the effect helpers of [editorhelper.cpp], the colour
    conversion helper, the JPEG/R codec and the XMP parser.  For the
    decoder's gain-map crop and resize, [f32_div_ratio v a b] is the
    [float] expression [(int)(v / ((float)a / b))] of the source. *)
Record uhdr_env := {
  kMinWidth : Z;
  kMinHeight : Z;
  kMaxWidth : Z;
  kMaxHeight : Z;
  kMapCompressQualityDefault : Z;
  kMapDimensionScaleFactorDefault : Z;
  kUseMultiChannelGainMapDefault : bool;
  kJpegrVersion : string;
  fmt_float : cfloat -> string;
  effect_to_string : uhdr_effect_desc_t -> string;
  convert_raw_input_to_ycbcr : uhdr_raw_image_t -> option uhdr_raw_image_t;
  apply_rotate : Z -> uhdr_raw_image_t -> option uhdr_raw_image_t;
  apply_mirror : uhdr_mirror_direction_t -> uhdr_raw_image_t -> option uhdr_raw_image_t;
  apply_crop : uhdr_raw_image_t -> Z -> Z -> Z -> Z -> uhdr_raw_image_t;
  apply_resize : uhdr_raw_image_t -> Z -> Z -> option uhdr_raw_image_t;
  encodeJPEGR : jpegr_config -> jpegr_encode_call -> Z ->
                status_t * list Z * ultrahdr_color_gamut;
  getJPEGRInfo : uhdr_compressed_image_t -> status_t * jpeg_info_struct * jpeg_info_struct;
  getMetadataFromXMP : list Z -> option ultrahdr_metadata_struct;
  decodeJPEGR : uhdr_compressed_image_t -> cfloat -> ultrahdr_output_format ->
                status_t * ultrahdr_color_gamut;
  f32_div_ratio : Z -> Z -> Z -> Z
}.

(** ** Session handles *)

(** [uhdr_encoder_private]; raw entries are [unique_ptr]s ([None] = null). *)
Record uhdr_encoder_private := {
  m_raw_images : list (uhdr_img_label_t * option uhdr_raw_image_t);
  m_compressed_images : list (uhdr_img_label_t * uhdr_compressed_image_t);
  m_quality : list (uhdr_img_label_t * Z);
  m_exif : list Z;
  m_output_format : uhdr_codec_t;
  m_gainmap_scale_factor : Z;
  m_use_multi_channel_gainmap : bool;
  m_metadata : uhdr_gainmap_metadata_t;
  m_sailed : bool;
  m_compressed_output_buffer : option uhdr_compressed_image_t;
  m_encode_call_status : uhdr_error_info_t
}.

Definition set_m_raw_images (e : uhdr_encoder_private) v : uhdr_encoder_private :=
  {| m_raw_images := v; m_compressed_images := m_compressed_images e; m_quality := m_quality
  e; m_exif := m_exif e; m_output_format := m_output_format e; m_gainmap_scale_factor :=
  m_gainmap_scale_factor e; m_use_multi_channel_gainmap := m_use_multi_channel_gainmap e;
  m_metadata := m_metadata e; m_sailed := m_sailed e; m_compressed_output_buffer :=
  m_compressed_output_buffer e; m_encode_call_status := m_encode_call_status e |}.

Definition set_m_compressed_images (e : uhdr_encoder_private) v : uhdr_encoder_private :=
  {| m_raw_images := m_raw_images e; m_compressed_images := v; m_quality := m_quality e;
  m_exif := m_exif e; m_output_format := m_output_format e; m_gainmap_scale_factor :=
  m_gainmap_scale_factor e; m_use_multi_channel_gainmap := m_use_multi_channel_gainmap e;
  m_metadata := m_metadata e; m_sailed := m_sailed e; m_compressed_output_buffer :=
  m_compressed_output_buffer e; m_encode_call_status := m_encode_call_status e |}.

Definition set_m_quality (e : uhdr_encoder_private) v : uhdr_encoder_private :=
  {| m_raw_images := m_raw_images e; m_compressed_images := m_compressed_images e; m_quality
  := v; m_exif := m_exif e; m_output_format := m_output_format e; m_gainmap_scale_factor :=
  m_gainmap_scale_factor e; m_use_multi_channel_gainmap := m_use_multi_channel_gainmap e;
  m_metadata := m_metadata e; m_sailed := m_sailed e; m_compressed_output_buffer :=
  m_compressed_output_buffer e; m_encode_call_status := m_encode_call_status e |}.

Definition set_m_exif (e : uhdr_encoder_private) v : uhdr_encoder_private :=
  {| m_raw_images := m_raw_images e; m_compressed_images := m_compressed_images e; m_quality
  := m_quality e; m_exif := v; m_output_format := m_output_format e; m_gainmap_scale_factor
  := m_gainmap_scale_factor e; m_use_multi_channel_gainmap := m_use_multi_channel_gainmap e;
  m_metadata := m_metadata e; m_sailed := m_sailed e; m_compressed_output_buffer :=
  m_compressed_output_buffer e; m_encode_call_status := m_encode_call_status e |}.

Definition set_m_output_format (e : uhdr_encoder_private) v : uhdr_encoder_private :=
  {| m_raw_images := m_raw_images e; m_compressed_images := m_compressed_images e; m_quality
  := m_quality e; m_exif := m_exif e; m_output_format := v; m_gainmap_scale_factor :=
  m_gainmap_scale_factor e; m_use_multi_channel_gainmap := m_use_multi_channel_gainmap e;
  m_metadata := m_metadata e; m_sailed := m_sailed e; m_compressed_output_buffer :=
  m_compressed_output_buffer e; m_encode_call_status := m_encode_call_status e |}.

Definition set_m_gainmap_scale_factor (e : uhdr_encoder_private) v : uhdr_encoder_private :=
  {| m_raw_images := m_raw_images e; m_compressed_images := m_compressed_images e; m_quality
  := m_quality e; m_exif := m_exif e; m_output_format := m_output_format e;
  m_gainmap_scale_factor := v; m_use_multi_channel_gainmap := m_use_multi_channel_gainmap e;
  m_metadata := m_metadata e; m_sailed := m_sailed e; m_compressed_output_buffer :=
  m_compressed_output_buffer e; m_encode_call_status := m_encode_call_status e |}.

Definition set_m_use_multi_channel_gainmap (e : uhdr_encoder_private) v : uhdr_encoder_private :=
  {| m_raw_images := m_raw_images e; m_compressed_images := m_compressed_images e; m_quality
  := m_quality e; m_exif := m_exif e; m_output_format := m_output_format e;
  m_gainmap_scale_factor := m_gainmap_scale_factor e; m_use_multi_channel_gainmap := v;
  m_metadata := m_metadata e; m_sailed := m_sailed e; m_compressed_output_buffer :=
  m_compressed_output_buffer e; m_encode_call_status := m_encode_call_status e |}.

Definition set_m_metadata (e : uhdr_encoder_private) v : uhdr_encoder_private :=
  {| m_raw_images := m_raw_images e; m_compressed_images := m_compressed_images e; m_quality
  := m_quality e; m_exif := m_exif e; m_output_format := m_output_format e;
  m_gainmap_scale_factor := m_gainmap_scale_factor e; m_use_multi_channel_gainmap :=
  m_use_multi_channel_gainmap e; m_metadata := v; m_sailed := m_sailed e;
  m_compressed_output_buffer := m_compressed_output_buffer e; m_encode_call_status :=
  m_encode_call_status e |}.

Definition set_m_sailed (e : uhdr_encoder_private) v : uhdr_encoder_private :=
  {| m_raw_images := m_raw_images e; m_compressed_images := m_compressed_images e; m_quality
  := m_quality e; m_exif := m_exif e; m_output_format := m_output_format e;
  m_gainmap_scale_factor := m_gainmap_scale_factor e; m_use_multi_channel_gainmap :=
  m_use_multi_channel_gainmap e; m_metadata := m_metadata e; m_sailed := v;
  m_compressed_output_buffer := m_compressed_output_buffer e; m_encode_call_status :=
  m_encode_call_status e |}.

Definition set_m_compressed_output_buffer (e : uhdr_encoder_private) v : uhdr_encoder_private :=
  {| m_raw_images := m_raw_images e; m_compressed_images := m_compressed_images e; m_quality
  := m_quality e; m_exif := m_exif e; m_output_format := m_output_format e;
  m_gainmap_scale_factor := m_gainmap_scale_factor e; m_use_multi_channel_gainmap :=
  m_use_multi_channel_gainmap e; m_metadata := m_metadata e; m_sailed := m_sailed e;
  m_compressed_output_buffer := v; m_encode_call_status := m_encode_call_status e |}.

Definition set_m_encode_call_status (e : uhdr_encoder_private) v : uhdr_encoder_private :=
  {| m_raw_images := m_raw_images e; m_compressed_images := m_compressed_images e; m_quality
  := m_quality e; m_exif := m_exif e; m_output_format := m_output_format e;
  m_gainmap_scale_factor := m_gainmap_scale_factor e; m_use_multi_channel_gainmap :=
  m_use_multi_channel_gainmap e; m_metadata := m_metadata e; m_sailed := m_sailed e;
  m_compressed_output_buffer := m_compressed_output_buffer e; m_encode_call_status := v |}.

(** [uhdr_decoder_private]; fields whose name the encoder already uses carry
    a [dec] infix. *)
Record uhdr_decoder_private := {
  m_uhdr_compressed_img : option uhdr_compressed_image_t;
  m_output_fmt : uhdr_img_fmt_t;
  m_output_ct : uhdr_color_transfer_t;
  m_output_max_disp_boost : cfloat;
  m_probed : bool;
  m_dec_sailed : bool;
  m_decoded_img_buffer : option uhdr_raw_image_t;
  m_gainmap_img_buffer : option uhdr_raw_image_t;
  m_img_wd : Z;
  m_img_ht : Z;
  m_gainmap_wd : Z;
  m_gainmap_ht : Z;
  m_dec_exif : list Z;
  m_exif_block : uhdr_mem_block_t;
  m_icc : list Z;
  m_icc_block : uhdr_mem_block_t;
  m_base_xmp : list Z;
  m_gainmap_xmp : list Z;
  m_dec_metadata : uhdr_gainmap_metadata_t;
  m_probe_call_status : uhdr_error_info_t;
  m_decode_call_status : uhdr_error_info_t
}.

Definition set_m_uhdr_compressed_img (d : uhdr_decoder_private) v : uhdr_decoder_private :=
  {| m_uhdr_compressed_img := v; m_output_fmt := m_output_fmt d; m_output_ct := m_output_ct
  d; m_output_max_disp_boost := m_output_max_disp_boost d; m_probed := m_probed d;
  m_dec_sailed := m_dec_sailed d; m_decoded_img_buffer := m_decoded_img_buffer d;
  m_gainmap_img_buffer := m_gainmap_img_buffer d; m_img_wd := m_img_wd d; m_img_ht :=
  m_img_ht d; m_gainmap_wd := m_gainmap_wd d; m_gainmap_ht := m_gainmap_ht d; m_dec_exif :=
  m_dec_exif d; m_exif_block := m_exif_block d; m_icc := m_icc d; m_icc_block := m_icc_block
  d; m_base_xmp := m_base_xmp d; m_gainmap_xmp := m_gainmap_xmp d; m_dec_metadata :=
  m_dec_metadata d; m_probe_call_status := m_probe_call_status d; m_decode_call_status :=
  m_decode_call_status d |}.

Definition set_m_output_fmt (d : uhdr_decoder_private) v : uhdr_decoder_private :=
  {| m_uhdr_compressed_img := m_uhdr_compressed_img d; m_output_fmt := v; m_output_ct :=
  m_output_ct d; m_output_max_disp_boost := m_output_max_disp_boost d; m_probed := m_probed
  d; m_dec_sailed := m_dec_sailed d; m_decoded_img_buffer := m_decoded_img_buffer d;
  m_gainmap_img_buffer := m_gainmap_img_buffer d; m_img_wd := m_img_wd d; m_img_ht :=
  m_img_ht d; m_gainmap_wd := m_gainmap_wd d; m_gainmap_ht := m_gainmap_ht d; m_dec_exif :=
  m_dec_exif d; m_exif_block := m_exif_block d; m_icc := m_icc d; m_icc_block := m_icc_block
  d; m_base_xmp := m_base_xmp d; m_gainmap_xmp := m_gainmap_xmp d; m_dec_metadata :=
  m_dec_metadata d; m_probe_call_status := m_probe_call_status d; m_decode_call_status :=
  m_decode_call_status d |}.

Definition set_m_output_ct (d : uhdr_decoder_private) v : uhdr_decoder_private :=
  {| m_uhdr_compressed_img := m_uhdr_compressed_img d; m_output_fmt := m_output_fmt d;
  m_output_ct := v; m_output_max_disp_boost := m_output_max_disp_boost d; m_probed :=
  m_probed d; m_dec_sailed := m_dec_sailed d; m_decoded_img_buffer := m_decoded_img_buffer
  d; m_gainmap_img_buffer := m_gainmap_img_buffer d; m_img_wd := m_img_wd d; m_img_ht :=
  m_img_ht d; m_gainmap_wd := m_gainmap_wd d; m_gainmap_ht := m_gainmap_ht d; m_dec_exif :=
  m_dec_exif d; m_exif_block := m_exif_block d; m_icc := m_icc d; m_icc_block := m_icc_block
  d; m_base_xmp := m_base_xmp d; m_gainmap_xmp := m_gainmap_xmp d; m_dec_metadata :=
  m_dec_metadata d; m_probe_call_status := m_probe_call_status d; m_decode_call_status :=
  m_decode_call_status d |}.

Definition set_m_output_max_disp_boost (d : uhdr_decoder_private) v : uhdr_decoder_private :=
  {| m_uhdr_compressed_img := m_uhdr_compressed_img d; m_output_fmt := m_output_fmt d;
  m_output_ct := m_output_ct d; m_output_max_disp_boost := v; m_probed := m_probed d;
  m_dec_sailed := m_dec_sailed d; m_decoded_img_buffer := m_decoded_img_buffer d;
  m_gainmap_img_buffer := m_gainmap_img_buffer d; m_img_wd := m_img_wd d; m_img_ht :=
  m_img_ht d; m_gainmap_wd := m_gainmap_wd d; m_gainmap_ht := m_gainmap_ht d; m_dec_exif :=
  m_dec_exif d; m_exif_block := m_exif_block d; m_icc := m_icc d; m_icc_block := m_icc_block
  d; m_base_xmp := m_base_xmp d; m_gainmap_xmp := m_gainmap_xmp d; m_dec_metadata :=
  m_dec_metadata d; m_probe_call_status := m_probe_call_status d; m_decode_call_status :=
  m_decode_call_status d |}.

Definition set_m_probed (d : uhdr_decoder_private) v : uhdr_decoder_private :=
  {| m_uhdr_compressed_img := m_uhdr_compressed_img d; m_output_fmt := m_output_fmt d;
  m_output_ct := m_output_ct d; m_output_max_disp_boost := m_output_max_disp_boost d;
  m_probed := v; m_dec_sailed := m_dec_sailed d; m_decoded_img_buffer :=
  m_decoded_img_buffer d; m_gainmap_img_buffer := m_gainmap_img_buffer d; m_img_wd :=
  m_img_wd d; m_img_ht := m_img_ht d; m_gainmap_wd := m_gainmap_wd d; m_gainmap_ht :=
  m_gainmap_ht d; m_dec_exif := m_dec_exif d; m_exif_block := m_exif_block d; m_icc := m_icc
  d; m_icc_block := m_icc_block d; m_base_xmp := m_base_xmp d; m_gainmap_xmp :=
  m_gainmap_xmp d; m_dec_metadata := m_dec_metadata d; m_probe_call_status :=
  m_probe_call_status d; m_decode_call_status := m_decode_call_status d |}.

Definition set_m_dec_sailed (d : uhdr_decoder_private) v : uhdr_decoder_private :=
  {| m_uhdr_compressed_img := m_uhdr_compressed_img d; m_output_fmt := m_output_fmt d;
  m_output_ct := m_output_ct d; m_output_max_disp_boost := m_output_max_disp_boost d;
  m_probed := m_probed d; m_dec_sailed := v; m_decoded_img_buffer := m_decoded_img_buffer d;
  m_gainmap_img_buffer := m_gainmap_img_buffer d; m_img_wd := m_img_wd d; m_img_ht :=
  m_img_ht d; m_gainmap_wd := m_gainmap_wd d; m_gainmap_ht := m_gainmap_ht d; m_dec_exif :=
  m_dec_exif d; m_exif_block := m_exif_block d; m_icc := m_icc d; m_icc_block := m_icc_block
  d; m_base_xmp := m_base_xmp d; m_gainmap_xmp := m_gainmap_xmp d; m_dec_metadata :=
  m_dec_metadata d; m_probe_call_status := m_probe_call_status d; m_decode_call_status :=
  m_decode_call_status d |}.

Definition set_m_decoded_img_buffer (d : uhdr_decoder_private) v : uhdr_decoder_private :=
  {| m_uhdr_compressed_img := m_uhdr_compressed_img d; m_output_fmt := m_output_fmt d;
  m_output_ct := m_output_ct d; m_output_max_disp_boost := m_output_max_disp_boost d;
  m_probed := m_probed d; m_dec_sailed := m_dec_sailed d; m_decoded_img_buffer := v;
  m_gainmap_img_buffer := m_gainmap_img_buffer d; m_img_wd := m_img_wd d; m_img_ht :=
  m_img_ht d; m_gainmap_wd := m_gainmap_wd d; m_gainmap_ht := m_gainmap_ht d; m_dec_exif :=
  m_dec_exif d; m_exif_block := m_exif_block d; m_icc := m_icc d; m_icc_block := m_icc_block
  d; m_base_xmp := m_base_xmp d; m_gainmap_xmp := m_gainmap_xmp d; m_dec_metadata :=
  m_dec_metadata d; m_probe_call_status := m_probe_call_status d; m_decode_call_status :=
  m_decode_call_status d |}.

Definition set_m_gainmap_img_buffer (d : uhdr_decoder_private) v : uhdr_decoder_private :=
  {| m_uhdr_compressed_img := m_uhdr_compressed_img d; m_output_fmt := m_output_fmt d;
  m_output_ct := m_output_ct d; m_output_max_disp_boost := m_output_max_disp_boost d;
  m_probed := m_probed d; m_dec_sailed := m_dec_sailed d; m_decoded_img_buffer :=
  m_decoded_img_buffer d; m_gainmap_img_buffer := v; m_img_wd := m_img_wd d; m_img_ht :=
  m_img_ht d; m_gainmap_wd := m_gainmap_wd d; m_gainmap_ht := m_gainmap_ht d; m_dec_exif :=
  m_dec_exif d; m_exif_block := m_exif_block d; m_icc := m_icc d; m_icc_block := m_icc_block
  d; m_base_xmp := m_base_xmp d; m_gainmap_xmp := m_gainmap_xmp d; m_dec_metadata :=
  m_dec_metadata d; m_probe_call_status := m_probe_call_status d; m_decode_call_status :=
  m_decode_call_status d |}.

Definition set_m_img_wd (d : uhdr_decoder_private) v : uhdr_decoder_private :=
  {| m_uhdr_compressed_img := m_uhdr_compressed_img d; m_output_fmt := m_output_fmt d;
  m_output_ct := m_output_ct d; m_output_max_disp_boost := m_output_max_disp_boost d;
  m_probed := m_probed d; m_dec_sailed := m_dec_sailed d; m_decoded_img_buffer :=
  m_decoded_img_buffer d; m_gainmap_img_buffer := m_gainmap_img_buffer d; m_img_wd := v;
  m_img_ht := m_img_ht d; m_gainmap_wd := m_gainmap_wd d; m_gainmap_ht := m_gainmap_ht d;
  m_dec_exif := m_dec_exif d; m_exif_block := m_exif_block d; m_icc := m_icc d; m_icc_block
  := m_icc_block d; m_base_xmp := m_base_xmp d; m_gainmap_xmp := m_gainmap_xmp d;
  m_dec_metadata := m_dec_metadata d; m_probe_call_status := m_probe_call_status d;
  m_decode_call_status := m_decode_call_status d |}.

Definition set_m_img_ht (d : uhdr_decoder_private) v : uhdr_decoder_private :=
  {| m_uhdr_compressed_img := m_uhdr_compressed_img d; m_output_fmt := m_output_fmt d;
  m_output_ct := m_output_ct d; m_output_max_disp_boost := m_output_max_disp_boost d;
  m_probed := m_probed d; m_dec_sailed := m_dec_sailed d; m_decoded_img_buffer :=
  m_decoded_img_buffer d; m_gainmap_img_buffer := m_gainmap_img_buffer d; m_img_wd :=
  m_img_wd d; m_img_ht := v; m_gainmap_wd := m_gainmap_wd d; m_gainmap_ht := m_gainmap_ht d;
  m_dec_exif := m_dec_exif d; m_exif_block := m_exif_block d; m_icc := m_icc d; m_icc_block
  := m_icc_block d; m_base_xmp := m_base_xmp d; m_gainmap_xmp := m_gainmap_xmp d;
  m_dec_metadata := m_dec_metadata d; m_probe_call_status := m_probe_call_status d;
  m_decode_call_status := m_decode_call_status d |}.

Definition set_m_gainmap_wd (d : uhdr_decoder_private) v : uhdr_decoder_private :=
  {| m_uhdr_compressed_img := m_uhdr_compressed_img d; m_output_fmt := m_output_fmt d;
  m_output_ct := m_output_ct d; m_output_max_disp_boost := m_output_max_disp_boost d;
  m_probed := m_probed d; m_dec_sailed := m_dec_sailed d; m_decoded_img_buffer :=
  m_decoded_img_buffer d; m_gainmap_img_buffer := m_gainmap_img_buffer d; m_img_wd :=
  m_img_wd d; m_img_ht := m_img_ht d; m_gainmap_wd := v; m_gainmap_ht := m_gainmap_ht d;
  m_dec_exif := m_dec_exif d; m_exif_block := m_exif_block d; m_icc := m_icc d; m_icc_block
  := m_icc_block d; m_base_xmp := m_base_xmp d; m_gainmap_xmp := m_gainmap_xmp d;
  m_dec_metadata := m_dec_metadata d; m_probe_call_status := m_probe_call_status d;
  m_decode_call_status := m_decode_call_status d |}.

Definition set_m_gainmap_ht (d : uhdr_decoder_private) v : uhdr_decoder_private :=
  {| m_uhdr_compressed_img := m_uhdr_compressed_img d; m_output_fmt := m_output_fmt d;
  m_output_ct := m_output_ct d; m_output_max_disp_boost := m_output_max_disp_boost d;
  m_probed := m_probed d; m_dec_sailed := m_dec_sailed d; m_decoded_img_buffer :=
  m_decoded_img_buffer d; m_gainmap_img_buffer := m_gainmap_img_buffer d; m_img_wd :=
  m_img_wd d; m_img_ht := m_img_ht d; m_gainmap_wd := m_gainmap_wd d; m_gainmap_ht := v;
  m_dec_exif := m_dec_exif d; m_exif_block := m_exif_block d; m_icc := m_icc d; m_icc_block
  := m_icc_block d; m_base_xmp := m_base_xmp d; m_gainmap_xmp := m_gainmap_xmp d;
  m_dec_metadata := m_dec_metadata d; m_probe_call_status := m_probe_call_status d;
  m_decode_call_status := m_decode_call_status d |}.

Definition set_m_dec_exif (d : uhdr_decoder_private) v : uhdr_decoder_private :=
  {| m_uhdr_compressed_img := m_uhdr_compressed_img d; m_output_fmt := m_output_fmt d;
  m_output_ct := m_output_ct d; m_output_max_disp_boost := m_output_max_disp_boost d;
  m_probed := m_probed d; m_dec_sailed := m_dec_sailed d; m_decoded_img_buffer :=
  m_decoded_img_buffer d; m_gainmap_img_buffer := m_gainmap_img_buffer d; m_img_wd :=
  m_img_wd d; m_img_ht := m_img_ht d; m_gainmap_wd := m_gainmap_wd d; m_gainmap_ht :=
  m_gainmap_ht d; m_dec_exif := v; m_exif_block := m_exif_block d; m_icc := m_icc d;
  m_icc_block := m_icc_block d; m_base_xmp := m_base_xmp d; m_gainmap_xmp := m_gainmap_xmp
  d; m_dec_metadata := m_dec_metadata d; m_probe_call_status := m_probe_call_status d;
  m_decode_call_status := m_decode_call_status d |}.

Definition set_m_exif_block (d : uhdr_decoder_private) v : uhdr_decoder_private :=
  {| m_uhdr_compressed_img := m_uhdr_compressed_img d; m_output_fmt := m_output_fmt d;
  m_output_ct := m_output_ct d; m_output_max_disp_boost := m_output_max_disp_boost d;
  m_probed := m_probed d; m_dec_sailed := m_dec_sailed d; m_decoded_img_buffer :=
  m_decoded_img_buffer d; m_gainmap_img_buffer := m_gainmap_img_buffer d; m_img_wd :=
  m_img_wd d; m_img_ht := m_img_ht d; m_gainmap_wd := m_gainmap_wd d; m_gainmap_ht :=
  m_gainmap_ht d; m_dec_exif := m_dec_exif d; m_exif_block := v; m_icc := m_icc d;
  m_icc_block := m_icc_block d; m_base_xmp := m_base_xmp d; m_gainmap_xmp := m_gainmap_xmp
  d; m_dec_metadata := m_dec_metadata d; m_probe_call_status := m_probe_call_status d;
  m_decode_call_status := m_decode_call_status d |}.

Definition set_m_icc (d : uhdr_decoder_private) v : uhdr_decoder_private :=
  {| m_uhdr_compressed_img := m_uhdr_compressed_img d; m_output_fmt := m_output_fmt d;
  m_output_ct := m_output_ct d; m_output_max_disp_boost := m_output_max_disp_boost d;
  m_probed := m_probed d; m_dec_sailed := m_dec_sailed d; m_decoded_img_buffer :=
  m_decoded_img_buffer d; m_gainmap_img_buffer := m_gainmap_img_buffer d; m_img_wd :=
  m_img_wd d; m_img_ht := m_img_ht d; m_gainmap_wd := m_gainmap_wd d; m_gainmap_ht :=
  m_gainmap_ht d; m_dec_exif := m_dec_exif d; m_exif_block := m_exif_block d; m_icc := v;
  m_icc_block := m_icc_block d; m_base_xmp := m_base_xmp d; m_gainmap_xmp := m_gainmap_xmp
  d; m_dec_metadata := m_dec_metadata d; m_probe_call_status := m_probe_call_status d;
  m_decode_call_status := m_decode_call_status d |}.

Definition set_m_icc_block (d : uhdr_decoder_private) v : uhdr_decoder_private :=
  {| m_uhdr_compressed_img := m_uhdr_compressed_img d; m_output_fmt := m_output_fmt d;
  m_output_ct := m_output_ct d; m_output_max_disp_boost := m_output_max_disp_boost d;
  m_probed := m_probed d; m_dec_sailed := m_dec_sailed d; m_decoded_img_buffer :=
  m_decoded_img_buffer d; m_gainmap_img_buffer := m_gainmap_img_buffer d; m_img_wd :=
  m_img_wd d; m_img_ht := m_img_ht d; m_gainmap_wd := m_gainmap_wd d; m_gainmap_ht :=
  m_gainmap_ht d; m_dec_exif := m_dec_exif d; m_exif_block := m_exif_block d; m_icc := m_icc
  d; m_icc_block := v; m_base_xmp := m_base_xmp d; m_gainmap_xmp := m_gainmap_xmp d;
  m_dec_metadata := m_dec_metadata d; m_probe_call_status := m_probe_call_status d;
  m_decode_call_status := m_decode_call_status d |}.

Definition set_m_base_xmp (d : uhdr_decoder_private) v : uhdr_decoder_private :=
  {| m_uhdr_compressed_img := m_uhdr_compressed_img d; m_output_fmt := m_output_fmt d;
  m_output_ct := m_output_ct d; m_output_max_disp_boost := m_output_max_disp_boost d;
  m_probed := m_probed d; m_dec_sailed := m_dec_sailed d; m_decoded_img_buffer :=
  m_decoded_img_buffer d; m_gainmap_img_buffer := m_gainmap_img_buffer d; m_img_wd :=
  m_img_wd d; m_img_ht := m_img_ht d; m_gainmap_wd := m_gainmap_wd d; m_gainmap_ht :=
  m_gainmap_ht d; m_dec_exif := m_dec_exif d; m_exif_block := m_exif_block d; m_icc := m_icc
  d; m_icc_block := m_icc_block d; m_base_xmp := v; m_gainmap_xmp := m_gainmap_xmp d;
  m_dec_metadata := m_dec_metadata d; m_probe_call_status := m_probe_call_status d;
  m_decode_call_status := m_decode_call_status d |}.

Definition set_m_gainmap_xmp (d : uhdr_decoder_private) v : uhdr_decoder_private :=
  {| m_uhdr_compressed_img := m_uhdr_compressed_img d; m_output_fmt := m_output_fmt d;
  m_output_ct := m_output_ct d; m_output_max_disp_boost := m_output_max_disp_boost d;
  m_probed := m_probed d; m_dec_sailed := m_dec_sailed d; m_decoded_img_buffer :=
  m_decoded_img_buffer d; m_gainmap_img_buffer := m_gainmap_img_buffer d; m_img_wd :=
  m_img_wd d; m_img_ht := m_img_ht d; m_gainmap_wd := m_gainmap_wd d; m_gainmap_ht :=
  m_gainmap_ht d; m_dec_exif := m_dec_exif d; m_exif_block := m_exif_block d; m_icc := m_icc
  d; m_icc_block := m_icc_block d; m_base_xmp := m_base_xmp d; m_gainmap_xmp := v;
  m_dec_metadata := m_dec_metadata d; m_probe_call_status := m_probe_call_status d;
  m_decode_call_status := m_decode_call_status d |}.

Definition set_m_dec_metadata (d : uhdr_decoder_private) v : uhdr_decoder_private :=
  {| m_uhdr_compressed_img := m_uhdr_compressed_img d; m_output_fmt := m_output_fmt d;
  m_output_ct := m_output_ct d; m_output_max_disp_boost := m_output_max_disp_boost d;
  m_probed := m_probed d; m_dec_sailed := m_dec_sailed d; m_decoded_img_buffer :=
  m_decoded_img_buffer d; m_gainmap_img_buffer := m_gainmap_img_buffer d; m_img_wd :=
  m_img_wd d; m_img_ht := m_img_ht d; m_gainmap_wd := m_gainmap_wd d; m_gainmap_ht :=
  m_gainmap_ht d; m_dec_exif := m_dec_exif d; m_exif_block := m_exif_block d; m_icc := m_icc
  d; m_icc_block := m_icc_block d; m_base_xmp := m_base_xmp d; m_gainmap_xmp :=
  m_gainmap_xmp d; m_dec_metadata := v; m_probe_call_status := m_probe_call_status d;
  m_decode_call_status := m_decode_call_status d |}.

Definition set_m_probe_call_status (d : uhdr_decoder_private) v : uhdr_decoder_private :=
  {| m_uhdr_compressed_img := m_uhdr_compressed_img d; m_output_fmt := m_output_fmt d;
  m_output_ct := m_output_ct d; m_output_max_disp_boost := m_output_max_disp_boost d;
  m_probed := m_probed d; m_dec_sailed := m_dec_sailed d; m_decoded_img_buffer :=
  m_decoded_img_buffer d; m_gainmap_img_buffer := m_gainmap_img_buffer d; m_img_wd :=
  m_img_wd d; m_img_ht := m_img_ht d; m_gainmap_wd := m_gainmap_wd d; m_gainmap_ht :=
  m_gainmap_ht d; m_dec_exif := m_dec_exif d; m_exif_block := m_exif_block d; m_icc := m_icc
  d; m_icc_block := m_icc_block d; m_base_xmp := m_base_xmp d; m_gainmap_xmp :=
  m_gainmap_xmp d; m_dec_metadata := m_dec_metadata d; m_probe_call_status := v;
  m_decode_call_status := m_decode_call_status d |}.

Definition set_m_decode_call_status (d : uhdr_decoder_private) v : uhdr_decoder_private :=
  {| m_uhdr_compressed_img := m_uhdr_compressed_img d; m_output_fmt := m_output_fmt d;
  m_output_ct := m_output_ct d; m_output_max_disp_boost := m_output_max_disp_boost d;
  m_probed := m_probed d; m_dec_sailed := m_dec_sailed d; m_decoded_img_buffer :=
  m_decoded_img_buffer d; m_gainmap_img_buffer := m_gainmap_img_buffer d; m_img_wd :=
  m_img_wd d; m_img_ht := m_img_ht d; m_gainmap_wd := m_gainmap_wd d; m_gainmap_ht :=
  m_gainmap_ht d; m_dec_exif := m_dec_exif d; m_exif_block := m_exif_block d; m_icc := m_icc
  d; m_icc_block := m_icc_block d; m_base_xmp := m_base_xmp d; m_gainmap_xmp :=
  m_gainmap_xmp d; m_dec_metadata := m_dec_metadata d; m_probe_call_status :=
  m_probe_call_status d; m_decode_call_status := v |}.

(** [uhdr_codec_private] holds the effect list; the dynamic type is the
    encoder or the decoder subclass ([dynamic_cast] inspects it). *)
Inductive uhdr_codec_kind :=
| Encoder (e : uhdr_encoder_private)
| Decoder (d : uhdr_decoder_private).

Record uhdr_codec_private_t := {
  m_effects : list uhdr_effect_desc_t;
  m_kind : uhdr_codec_kind
}.

Definition with_kind (c : uhdr_codec_private_t) (k : uhdr_codec_kind) : uhdr_codec_private_t :=
  {| m_effects := m_effects c; m_kind := k |}.

(** ** Enumerator values of [ultrahdr_api.h], for ["%d"] *)

Definition label_to_int (l : uhdr_img_label_t) : Z :=
  match l with
  | UHDR_HDR_IMG => 0 | UHDR_SDR_IMG => 1 | UHDR_BASE_IMG => 2 | UHDR_GAIN_MAP_IMG => 3
  | UHDR_IMG_LABEL_OTHER v => v
  end.

Definition fmt_to_int (f : uhdr_img_fmt_t) : Z :=
  match f with
  | UHDR_IMG_FMT_UNSPECIFIED => -1 | UHDR_IMG_FMT_24bppYCbCrP010 => 0
  | UHDR_IMG_FMT_12bppYCbCr420 => 1 | UHDR_IMG_FMT_8bppYCbCr400 => 2
  | UHDR_IMG_FMT_32bppRGBA8888 => 3 | UHDR_IMG_FMT_64bppRGBAHalfFloat => 4
  | UHDR_IMG_FMT_32bppRGBA1010102 => 5 | UHDR_IMG_FMT_OTHER v => v
  end.

Definition cg_to_int (c : uhdr_color_gamut_t) : Z :=
  match c with
  | UHDR_CG_UNSPECIFIED => -1 | UHDR_CG_BT_709 => 0 | UHDR_CG_DISPLAY_P3 => 1
  | UHDR_CG_BT_2100 => 2 | UHDR_CG_OTHER v => v
  end.

Definition ct_to_int (c : uhdr_color_transfer_t) : Z :=
  match c with
  | UHDR_CT_UNSPECIFIED => -1 | UHDR_CT_LINEAR => 0 | UHDR_CT_HLG => 1
  | UHDR_CT_PQ => 2 | UHDR_CT_SRGB => 3 | UHDR_CT_OTHER v => v
  end.

Definition codec_to_int (c : uhdr_codec_t) : Z :=
  match c with UHDR_CODEC_JPG => 0 | UHDR_CODEC_OTHER v => v end.

(** ** Encoder configuration *)

Section Api.

Variable env : uhdr_env.

Definition err_null_codec : uhdr_error_info_t :=
  mk_error UHDR_CODEC_INVALID_PARAM "received nullptr for uhdr codec instance".

Definition err_enc_sealed : uhdr_error_info_t :=
  mk_error UHDR_CODEC_INVALID_OPERATION
    ("An earlier call to uhdr_encode() has switched the context from configurable state to " ++
     "end state. The context is no longer configurable. To reuse, call reset()").

Definition update_encoder (c : uhdr_codec_private_t) (e : uhdr_encoder_private)
  : uhdr_codec_private_t := with_kind c (Encoder e).

Definition uhdr_enc_validate_and_set_compressed_img (c : uhdr_codec_private_t)
    (img : option uhdr_compressed_image_t) (intent : uhdr_img_label_t)
  : uhdr_codec_private_t * uhdr_error_info_t :=
  match m_kind c with
  | Decoder _ => (c, err_null_codec)
  | Encoder e =>
    match img with
    | None => (c, mk_error UHDR_CODEC_INVALID_PARAM "received nullptr for compressed image handle")
    | Some img =>
      match ci_data img with
      | None =>
        (c, mk_error UHDR_CODEC_INVALID_PARAM "received nullptr for compressed img->data field")
      | Some bytes =>
        if Z.ltb (ci_capacity img) (ci_data_sz img) then
          (c, mk_error UHDR_CODEC_INVALID_PARAM
                ("img->capacity " ++ fmt_int (ci_capacity img) ++ " is less than img->data_sz " ++
                 fmt_int (ci_data_sz img)))
        else if m_sailed e then (c, err_enc_sealed)
        else
          let entry := {| ci_data := Some (firstn (Z.to_nat (ci_data_sz img)) bytes);
                          ci_data_sz := ci_data_sz img; ci_capacity := ci_data_sz img;
                          ci_cg := ci_cg img; ci_ct := ci_ct img; ci_range := ci_range img |} in
          (update_encoder c
             (set_m_compressed_images e (insert_or_assign intent entry (m_compressed_images e))),
           g_no_error)
      end
    end
  end.

Definition uhdr_enc_set_using_multi_channel_gainmap (c : uhdr_codec_private_t) (b : bool)
  : uhdr_codec_private_t * uhdr_error_info_t :=
  match m_kind c with
  | Decoder _ => (c, err_null_codec)
  | Encoder e => (update_encoder c (set_m_use_multi_channel_gainmap e b), g_no_error)
  end.

Definition uhdr_enc_set_gainmap_scale_factor (c : uhdr_codec_private_t) (f : Z)
  : uhdr_codec_private_t * uhdr_error_info_t :=
  match m_kind c with
  | Decoder _ => (c, err_null_codec)
  | Encoder e => (update_encoder c (set_m_gainmap_scale_factor e f), g_no_error)
  end.

(** The argument checks of [uhdr_enc_set_raw_image], in source order. *)
Definition raw_image_check (img : uhdr_raw_image_t) (intent : uhdr_img_label_t)
  : option uhdr_error_info_t :=
  let ip := mk_error UHDR_CODEC_INVALID_PARAM in
  let w := ri_w img in
  let h := ri_h img in
  let dims := fmt_int w ++ "x" ++ fmt_int h in
  let fmt := ri_fmt img in
  let ct := ri_ct img in
  if negb (label_eqb intent UHDR_HDR_IMG || label_eqb intent UHDR_SDR_IMG) then
    Some (ip ("invalid intent " ++ fmt_int (label_to_int intent) ++
              ", expects one of {UHDR_HDR_IMG, UHDR_SDR_IMG}"))
  else if label_eqb intent UHDR_HDR_IMG &&
          negb (fmt_eqb fmt UHDR_IMG_FMT_24bppYCbCrP010 ||
                fmt_eqb fmt UHDR_IMG_FMT_32bppRGBA1010102) then
    Some (ip ("unsupported input pixel format for hdr intent " ++ fmt_int (fmt_to_int fmt) ++
              ", expects one of {UHDR_IMG_FMT_24bppYCbCrP010, UHDR_IMG_FMT_32bppRGBA1010102}"))
  else if label_eqb intent UHDR_SDR_IMG &&
          negb (fmt_eqb fmt UHDR_IMG_FMT_12bppYCbCr420 ||
                fmt_eqb fmt UHDR_IMG_FMT_32bppRGBA8888) then
    Some (ip ("unsupported input pixel format for sdr intent " ++ fmt_int (fmt_to_int fmt) ++
              ", expects one of {UHDR_IMG_FMT_12bppYCbCr420, UHDR_IMG_FMT_32bppRGBA8888}"))
  else if negb (cg_eqb (ri_cg img) UHDR_CG_BT_2100 || cg_eqb (ri_cg img) UHDR_CG_DISPLAY_P3 ||
                cg_eqb (ri_cg img) UHDR_CG_BT_709) then
    Some (ip ("invalid input color gamut " ++ fmt_int (cg_to_int (ri_cg img)) ++
              ", expects one of {UHDR_CG_BT_2100, UHDR_CG_DISPLAY_P3, UHDR_CG_BT_709}"))
  else if fmt_eqb fmt UHDR_IMG_FMT_12bppYCbCr420 && negb (ct_eqb ct UHDR_CT_SRGB) then
    Some (ip ("invalid input color transfer for sdr intent image " ++ fmt_int (ct_to_int ct) ++
              ", expects UHDR_CT_SRGB"))
  else if fmt_eqb fmt UHDR_IMG_FMT_24bppYCbCrP010 &&
          negb (ct_eqb ct UHDR_CT_HLG || ct_eqb ct UHDR_CT_LINEAR || ct_eqb ct UHDR_CT_PQ) then
    Some (ip ("invalid input color transfer for hdr intent image " ++ fmt_int (ct_to_int ct) ++
              ", expects one of {UHDR_CT_HLG, UHDR_CT_LINEAR, UHDR_CT_PQ}"))
  else if negb (Z.eqb (w mod 2) 0) || negb (Z.eqb (h mod 2) 0) then
    Some (ip ("image dimensions cannot be odd, received image dimensions " ++ dims))
  else if Z.ltb w (kMinWidth env) || Z.ltb h (kMinHeight env) then
    Some (ip ("image dimensions cannot be less than " ++ fmt_int (kMinWidth env) ++ "x" ++
              fmt_int (kMinHeight env) ++ ", received image dimensions " ++ dims))
  else if Z.ltb (kMaxWidth env) w || Z.ltb (kMaxHeight env) h then
    Some (ip ("image dimensions cannot be larger than " ++ fmt_int (kMaxWidth env) ++ "x" ++
              fmt_int (kMaxHeight env) ++ ", received image dimensions " ++ dims))
  else if fmt_eqb fmt UHDR_IMG_FMT_24bppYCbCrP010 then
    match plane img UHDR_PLANE_Y, plane img UHDR_PLANE_UV with
    | Some _, Some _ =>
      if Z.ltb (stride img UHDR_PLANE_Y) w then
        Some (ip ("luma stride must not be smaller than width, stride=" ++
                  fmt_int (stride img UHDR_PLANE_Y) ++ ", width=" ++ fmt_int w))
      else if Z.ltb (stride img UHDR_PLANE_UV) w then
        Some (ip ("chroma_uv stride must not be smaller than width, stride=" ++
                  fmt_int (stride img UHDR_PLANE_UV) ++ ", width=" ++ fmt_int w))
      else None
    | py, puv =>
      Some (ip ("received nullptr for data field(s), luma ptr " ++ fmt_ptr py ++
                ", chroma_uv ptr " ++ fmt_ptr puv))
    end
  else if fmt_eqb fmt UHDR_IMG_FMT_12bppYCbCr420 then
    match plane img UHDR_PLANE_Y, plane img UHDR_PLANE_U, plane img UHDR_PLANE_V with
    | Some _, Some _, Some _ =>
      if Z.ltb (stride img UHDR_PLANE_Y) w then
        Some (ip ("luma stride must not be smaller than width, stride=" ++
                  fmt_int (stride img UHDR_PLANE_Y) ++ ", width=" ++ fmt_int w))
      else if Z.ltb (stride img UHDR_PLANE_U) (w / 2) then
        Some (ip ("chroma_u stride must not be smaller than width / 2, stride=" ++
                  fmt_int (stride img UHDR_PLANE_U) ++ ", width=" ++ fmt_int w))
      else if Z.ltb (stride img UHDR_PLANE_V) (w / 2) then
        Some (ip ("chroma_v stride must not be smaller than width / 2, stride=" ++
                  fmt_int (stride img UHDR_PLANE_V) ++ ", width=" ++ fmt_int w))
      else None
    | py, pu, pv =>
      Some (ip ("received nullptr for data field(s) luma ptr " ++ fmt_ptr py ++
                ", chroma_u ptr " ++ fmt_ptr pu ++ ", chroma_v ptr " ++ fmt_ptr pv))
    end
  else None.

(** The resolution check against the other raw intent; a stored entry is
    never null here (set_raw_image stores only non-null conversions). *)
Definition raw_resolution_check (e : uhdr_encoder_private) (img : uhdr_raw_image_t)
    (intent : uhdr_img_label_t) : option uhdr_error_info_t :=
  let mism (this other : string) (r : uhdr_raw_image_t) :=
    if negb (Z.eqb (ri_w img) (ri_w r)) || negb (Z.eqb (ri_h img) (ri_h r)) then
      Some (mk_error UHDR_CODEC_INVALID_PARAM
              ("image resolutions mismatch: " ++ this ++ " intent: " ++ fmt_int (ri_w img) ++
               "x" ++ fmt_int (ri_h img) ++ ", " ++ other ++ " intent: " ++ fmt_int (ri_w r) ++
               "x" ++ fmt_int (ri_h r)))
    else None in
  let from_hdr :=
    if label_eqb intent UHDR_HDR_IMG then
      match map_find UHDR_SDR_IMG (m_raw_images e) with
      | Some (Some r) => mism "hdr" "sdr" r
      | _ => None
      end
    else None in
  match from_hdr with
  | Some s => Some s
  | None =>
    if label_eqb intent UHDR_SDR_IMG then
      match map_find UHDR_HDR_IMG (m_raw_images e) with
      | Some (Some r) => mism "sdr" "hdr" r
      | _ => None
      end
    else None
  end.

Definition uhdr_enc_set_raw_image (c : uhdr_codec_private_t) (img : option uhdr_raw_image_t)
    (intent : uhdr_img_label_t) : uhdr_codec_private_t * uhdr_error_info_t :=
  match m_kind c with
  | Decoder _ => (c, err_null_codec)
  | Encoder e =>
    match img with
    | None => (c, mk_error UHDR_CODEC_INVALID_PARAM "received nullptr for raw image handle")
    | Some img =>
      match raw_image_check img intent with
      | Some s => (c, s)
      | None =>
        match raw_resolution_check e img intent with
        | Some s => (c, s)
        | None =>
          if m_sailed e then (c, err_enc_sealed)
          else
            match convert_raw_input_to_ycbcr env img with
            | None =>
              (c, mk_error UHDR_CODEC_UNKNOWN_ERROR
                    "encountered unknown error during color space conversion")
            | Some entry =>
              (update_encoder c
                 (set_m_raw_images e (insert_or_assign intent (Some entry) (m_raw_images e))),
               g_no_error)
            end
        end
      end
    end
  end.

(** The invalid-intent status computed by the source is overwritten by the
    return value of the helper, so any intent reaches it. *)
Definition uhdr_enc_set_compressed_image (c : uhdr_codec_private_t)
    (img : option uhdr_compressed_image_t) (intent : uhdr_img_label_t)
  : uhdr_codec_private_t * uhdr_error_info_t :=
  uhdr_enc_validate_and_set_compressed_img c img intent.

(** The metadata checks of [uhdr_enc_set_gainmap_image], in source order;
    [None] when all pass. *)
Definition gainmap_metadata_check (md : option uhdr_gainmap_metadata_t)
  : option uhdr_error_info_t :=
  let ip := mk_error UHDR_CODEC_INVALID_PARAM in
  let ff := fmt_float env in
  match md with
  | None => Some (ip "received nullptr for gainmap metadata descriptor")
  | Some m =>
    if flt (max_content_boost m) (min_content_boost m) then
      Some (ip ("received bad value for content boost min " ++ ff (min_content_boost m) ++
                " > max " ++ ff (max_content_boost m)))
    else if fle (gamma m) (CFin 0) then
      Some (ip ("received bad value for gamma " ++ ff (gamma m) ++ ", expects > 0.0f"))
    else if flt (offset_sdr m) (CFin 0) then
      Some (ip ("received bad value for offset sdr " ++ ff (offset_sdr m) ++
                ", expects to be >= 0.0f"))
    else if flt (offset_hdr m) (CFin 0) then
      Some (ip ("received bad value for offset hdr " ++ ff (offset_hdr m) ++
                ", expects to be >= 0.0f"))
    else if flt (hdr_capacity_max m) (hdr_capacity_min m) then
      Some (ip ("received bad value for hdr capacity min " ++ ff (hdr_capacity_min m) ++
                " > max " ++ ff (hdr_capacity_max m)))
    else if flt (hdr_capacity_min m) (CFin 1) then
      Some (ip ("received bad value for hdr capacity min " ++ ff (hdr_capacity_min m) ++
                ", expects to be >= 1.0f"))
    else None
  end.

Definition uhdr_enc_set_gainmap_image (c : uhdr_codec_private_t)
    (img : option uhdr_compressed_image_t) (md : option uhdr_gainmap_metadata_t)
  : uhdr_codec_private_t * uhdr_error_info_t :=
  match gainmap_metadata_check md with
  | Some s => (c, s)
  | None =>
    let (c', s) := uhdr_enc_validate_and_set_compressed_img c img UHDR_GAIN_MAP_IMG in
    if negb (err_eqb (error_code s) UHDR_CODEC_OK) then (c', s)
    else
      match m_kind c', md with
      | Encoder e, Some m => (update_encoder c' (set_m_metadata e m), s)
      | _, _ => (c', s)
      end
  end.

Definition uhdr_enc_set_quality (c : uhdr_codec_private_t) (quality : Z)
    (intent : uhdr_img_label_t) : uhdr_codec_private_t * uhdr_error_info_t :=
  match m_kind c with
  | Decoder _ => (c, err_null_codec)
  | Encoder e =>
    if Z.ltb quality 0 || Z.ltb 100 quality then
      (c, mk_error UHDR_CODEC_INVALID_PARAM
            ("invalid quality factor " ++ fmt_int quality ++ ", expects in range [0-100]"))
    else if negb (label_eqb intent UHDR_HDR_IMG || label_eqb intent UHDR_SDR_IMG ||
                  label_eqb intent UHDR_BASE_IMG || label_eqb intent UHDR_GAIN_MAP_IMG) then
      (c, mk_error UHDR_CODEC_INVALID_PARAM
            ("invalid intent " ++ fmt_int (label_to_int intent) ++
             ", expects one of {UHDR_HDR_IMG, UHDR_SDR_IMG, UHDR_BASE_IMG, UHDR_GAIN_MAP_IMG}"))
    else if m_sailed e then (c, err_enc_sealed)
    else (update_encoder c (set_m_quality e (insert_or_assign intent quality (m_quality e))),
          g_no_error)
  end.

Definition uhdr_enc_set_exif_data (c : uhdr_codec_private_t) (exif : option uhdr_mem_block_t)
  : uhdr_codec_private_t * uhdr_error_info_t :=
  match m_kind c with
  | Decoder _ => (c, err_null_codec)
  | Encoder e =>
    match exif with
    | None => (c, mk_error UHDR_CODEC_INVALID_PARAM "received nullptr for exif image handle")
    | Some x =>
      match mb_data x with
      | None => (c, mk_error UHDR_CODEC_INVALID_PARAM "received nullptr for exif->data field")
      | Some bytes =>
        if Z.ltb (mb_capacity x) (mb_data_sz x) then
          (c, mk_error UHDR_CODEC_INVALID_PARAM
                ("exif->capacity " ++ fmt_int (mb_capacity x) ++ " is less than exif->data_sz " ++
                 fmt_int (mb_data_sz x)))
        else if m_sailed e then (c, err_enc_sealed)
        else (update_encoder c (set_m_exif e (firstn (Z.to_nat (mb_data_sz x)) bytes)),
              g_no_error)
      end
    end
  end.

Definition uhdr_enc_set_output_format (c : uhdr_codec_private_t) (media_type : uhdr_codec_t)
  : uhdr_codec_private_t * uhdr_error_info_t :=
  match m_kind c with
  | Decoder _ => (c, err_null_codec)
  | Encoder e =>
    match media_type with
    | UHDR_CODEC_OTHER _ =>
      (c, mk_error UHDR_CODEC_UNSUPPORTED_FEATURE
            ("invalid output format " ++ fmt_int (codec_to_int media_type) ++
             ", expects {UHDR_CODEC_JPG}"))
    | UHDR_CODEC_JPG =>
      if m_sailed e then (c, err_enc_sealed)
      else (update_encoder c (set_m_output_format e media_type), g_no_error)
    end
  end.

(** ** Effects attachment (encoder and decoder alike) *)

Definition push_effect (c : uhdr_codec_private_t) (it : uhdr_effect_desc_t)
  : uhdr_codec_private_t :=
  {| m_effects := app (m_effects c) [it]; m_kind := m_kind c |}.

Definition uhdr_add_effect_mirror (c : uhdr_codec_private_t)
    (direction : uhdr_mirror_direction_t) : uhdr_codec_private_t * uhdr_error_info_t :=
  match direction with
  | UHDR_MIRROR_OTHER _ =>
    (c, mk_error UHDR_CODEC_INVALID_PARAM
          "unsupported direction, expects one of {UHDR_MIRROR_HORIZONTAL, UHDR_MIRROR_VERTICAL}")
  | _ => (push_effect c (uhdr_mirror_effect direction), g_no_error)
  end.

Definition uhdr_add_effect_rotate (c : uhdr_codec_private_t) (degrees : Z)
  : uhdr_codec_private_t * uhdr_error_info_t :=
  if negb (Z.eqb degrees 90 || Z.eqb degrees 180 || Z.eqb degrees 270) then
    (c, mk_error UHDR_CODEC_INVALID_PARAM "unsupported degrees, expects one of {90, 180, 270}")
  else (push_effect c (uhdr_rotate_effect degrees), g_no_error).

Definition uhdr_add_effect_crop (c : uhdr_codec_private_t) (left right top bottom : Z)
  : uhdr_codec_private_t * uhdr_error_info_t :=
  (push_effect c (uhdr_crop_effect left right top bottom), g_no_error).

Definition uhdr_add_effect_resize (c : uhdr_codec_private_t) (width height : Z)
  : uhdr_codec_private_t * uhdr_error_info_t :=
  (push_effect c (uhdr_resize_effect width height), g_no_error).

(** Every configuration entry point of the encoder. *)
Inductive enc_call :=
| call_set_raw_image (img : option uhdr_raw_image_t) (intent : uhdr_img_label_t)
| call_set_compressed_image (img : option uhdr_compressed_image_t) (intent : uhdr_img_label_t)
| call_set_gainmap_image (img : option uhdr_compressed_image_t)
    (md : option uhdr_gainmap_metadata_t)
| call_set_quality (quality : Z) (intent : uhdr_img_label_t)
| call_set_exif_data (exif : option uhdr_mem_block_t)
| call_set_output_format (media_type : uhdr_codec_t)
| call_set_using_multi_channel_gainmap (b : bool)
| call_set_gainmap_scale_factor (f : Z)
| call_add_effect_mirror (d : uhdr_mirror_direction_t)
| call_add_effect_rotate (degrees : Z)
| call_add_effect_crop (left right top bottom : Z)
| call_add_effect_resize (width height : Z).

Definition run_enc_call (c : uhdr_codec_private_t) (k : enc_call)
  : uhdr_codec_private_t * uhdr_error_info_t :=
  match k with
  | call_set_raw_image img intent => uhdr_enc_set_raw_image c img intent
  | call_set_compressed_image img intent => uhdr_enc_set_compressed_image c img intent
  | call_set_gainmap_image img md => uhdr_enc_set_gainmap_image c img md
  | call_set_quality q intent => uhdr_enc_set_quality c q intent
  | call_set_exif_data x => uhdr_enc_set_exif_data c x
  | call_set_output_format m => uhdr_enc_set_output_format c m
  | call_set_using_multi_channel_gainmap b => uhdr_enc_set_using_multi_channel_gainmap c b
  | call_set_gainmap_scale_factor f => uhdr_enc_set_gainmap_scale_factor c f
  | call_add_effect_mirror d => uhdr_add_effect_mirror c d
  | call_add_effect_rotate d => uhdr_add_effect_rotate c d
  | call_add_effect_crop l r t b => uhdr_add_effect_crop c l r t b
  | call_add_effect_resize w h => uhdr_add_effect_resize c w h
  end.

Fixpoint run_enc_calls (c : uhdr_codec_private_t) (ks : list enc_call) : uhdr_codec_private_t :=
  match ks with
  | [] => c
  | k :: ks' => run_enc_calls (fst (run_enc_call c k)) ks'
  end.

(** ** Status and enum mappings *)

Definition map_cg_to_internal_cg (cg : uhdr_color_gamut_t) : ultrahdr_color_gamut :=
  match cg with
  | UHDR_CG_BT_2100 => ULTRAHDR_COLORGAMUT_BT2100
  | UHDR_CG_BT_709 => ULTRAHDR_COLORGAMUT_BT709
  | UHDR_CG_DISPLAY_P3 => ULTRAHDR_COLORGAMUT_P3
  | _ => ULTRAHDR_COLORGAMUT_UNSPECIFIED
  end.

Definition map_internal_cg_to_cg (cg : ultrahdr_color_gamut) : uhdr_color_gamut_t :=
  match cg with
  | ULTRAHDR_COLORGAMUT_BT2100 => UHDR_CG_BT_2100
  | ULTRAHDR_COLORGAMUT_BT709 => UHDR_CG_BT_709
  | ULTRAHDR_COLORGAMUT_P3 => UHDR_CG_DISPLAY_P3
  | ULTRAHDR_COLORGAMUT_UNSPECIFIED => UHDR_CG_UNSPECIFIED
  end.

Definition map_ct_to_internal_ct (ct : uhdr_color_transfer_t) : ultrahdr_transfer_function :=
  match ct with
  | UHDR_CT_HLG => ULTRAHDR_TF_HLG
  | UHDR_CT_PQ => ULTRAHDR_TF_PQ
  | UHDR_CT_LINEAR => ULTRAHDR_TF_LINEAR
  | UHDR_CT_SRGB => ULTRAHDR_TF_SRGB
  | _ => ULTRAHDR_TF_UNSPECIFIED
  end.

Definition map_ct_fmt_to_internal_output_fmt (ct : uhdr_color_transfer_t)
    (fmt : uhdr_img_fmt_t) : ultrahdr_output_format :=
  if ct_eqb ct UHDR_CT_HLG && fmt_eqb fmt UHDR_IMG_FMT_32bppRGBA1010102 then
    ULTRAHDR_OUTPUT_HDR_HLG
  else if ct_eqb ct UHDR_CT_PQ && fmt_eqb fmt UHDR_IMG_FMT_32bppRGBA1010102 then
    ULTRAHDR_OUTPUT_HDR_PQ
  else if ct_eqb ct UHDR_CT_LINEAR && fmt_eqb fmt UHDR_IMG_FMT_64bppRGBAHalfFloat then
    ULTRAHDR_OUTPUT_HDR_LINEAR
  else if ct_eqb ct UHDR_CT_SRGB && fmt_eqb fmt UHDR_IMG_FMT_32bppRGBA8888 then
    ULTRAHDR_OUTPUT_SDR
  else ULTRAHDR_OUTPUT_UNSPECIFIED.

(** [status] is the stored status the source writes through; its detail is
    kept when the internal code is not one of the listed ones. *)
Definition map_internal_error_status_to_error_info (internal_status : status_t)
    (status : uhdr_error_info_t) : uhdr_error_info_t :=
  match internal_status with
  | JPEGR_NO_ERROR => g_no_error
  | ERROR_JPEGR_RESOLUTION_MISMATCH =>
    mk_error UHDR_CODEC_INVALID_PARAM "dimensions of sdr intent and hdr intent do not match"
  | ERROR_JPEGR_ENCODE_ERROR =>
    mk_error UHDR_CODEC_UNKNOWN_ERROR "encountered unknown error during encoding"
  | ERROR_JPEGR_DECODE_ERROR =>
    mk_error UHDR_CODEC_UNKNOWN_ERROR "encountered unknown error during decoding"
  | ERROR_JPEGR_NO_IMAGES_FOUND =>
    mk_error UHDR_CODEC_UNKNOWN_ERROR "input uhdr image does not any valid images"
  | ERROR_JPEGR_GAIN_MAP_IMAGE_NOT_FOUND =>
    mk_error UHDR_CODEC_UNKNOWN_ERROR "input uhdr image does not contain gainmap image"
  | ERROR_JPEGR_BUFFER_TOO_SMALL =>
    mk_error UHDR_CODEC_MEM_ERROR "output buffer to store compressed data is too small"
  | ERROR_JPEGR_MULTIPLE_EXIFS_RECEIVED =>
    mk_error UHDR_CODEC_INVALID_OPERATION
      ("received exif from uhdr_enc_set_exif_data() while the base image intent already " ++
       "contains exif, unsure which one to use")
  | ERROR_JPEGR_UNSUPPORTED_MAP_SCALE_FACTOR =>
    mk_error UHDR_CODEC_UNSUPPORTED_FEATURE
      ("say base image wd to gain map image wd ratio is 'k1' and base image ht to gain map " ++
       "image ht ratio is 'k2', we found k1 != k2.")
  | ERROR_JPEGR_OTHER _ =>
    {| error_code := UHDR_CODEC_UNKNOWN_ERROR; has_detail := 0; detail := detail status |}
  end.

(** [uhdr_compressed_image_ext_t(cg, ct, range, size)]: a block of [size]
    bytes, none of them valid yet ([data_sz = 0]); the bytes themselves are
    recorded once the codec writes them. *)
Definition uhdr_compressed_image_ext (cg : uhdr_color_gamut_t) (ct : uhdr_color_transfer_t)
    (range : uhdr_color_range_t) (size : Z) : uhdr_compressed_image_t :=
  {| ci_data := Some []; ci_data_sz := 0; ci_capacity := size;
     ci_cg := cg; ci_ct := ct; ci_range := range |}.

(** ** Encoder effects pipeline ([apply_effects] on an encoder) *)

Definition unknown_effect_error (it : uhdr_effect_desc_t) : uhdr_error_info_t :=
  mk_error UHDR_CODEC_UNKNOWN_ERROR
    ("encountered unknown error while applying effect " ++ effect_to_string env it).

Definition raw_entry (l : uhdr_img_label_t) (raws : list (uhdr_img_label_t * option uhdr_raw_image_t))
  : option uhdr_raw_image_t :=
  match map_find l raws with Some (Some r) => Some r | _ => None end.

Definition obind {A B} (o : option A) (f : A -> option B) : option B :=
  match o with Some a => f a | None => None end.

Definition crop_width_error (crop_width : Z) : uhdr_error_info_t :=
  mk_error UHDR_CODEC_INVALID_PARAM
    ("unexpected crop dimensions. crop width is expected to be > 0 and even, crop " ++
     "width is " ++ fmt_int crop_width).

Definition crop_height_error (crop_height : Z) : uhdr_error_info_t :=
  mk_error UHDR_CODEC_INVALID_PARAM
    ("unexpected crop dimensions. crop height is expected to be > 0 and even, crop " ++
     "height is " ++ fmt_int crop_height).

(** One iteration of the loop: [inl] the raw images to continue with,
    [inr] the images at the early return and the returned status.  A null
    HDR entry cannot occur (uhdr_encode runs the pipeline only with an HDR
    intent, and entries are stored non-null); it is reported as the
    unknown-effect error. *)
Definition apply_effect_enc (it : uhdr_effect_desc_t)
    (raws : list (uhdr_img_label_t * option uhdr_raw_image_t))
  : list (uhdr_img_label_t * option uhdr_raw_image_t) +
    (list (uhdr_img_label_t * option uhdr_raw_image_t) * uhdr_error_info_t) :=
  let has_sdr := map_mem UHDR_SDR_IMG raws in
  let hdr := raw_entry UHDR_HDR_IMG raws in
  let sdr := raw_entry UHDR_SDR_IMG raws in
  let finish (hdr_img sdr_img : option uhdr_raw_image_t) :=
    match hdr_img with
    | None => inr (raws, unknown_effect_error it)
    | Some _ =>
      if has_sdr && match sdr_img with None => true | Some _ => false end then
        inr (raws, unknown_effect_error it)
      else
        let raws1 := insert_or_assign UHDR_HDR_IMG hdr_img raws in
        inl (match sdr_img with
             | Some _ => insert_or_assign UHDR_SDR_IMG sdr_img raws1
             | None => raws1
             end)
    end in
  match it with
  | uhdr_rotate_effect d =>
    finish (obind hdr (apply_rotate env d))
           (if has_sdr then obind sdr (apply_rotate env d) else None)
  | uhdr_mirror_effect d =>
    finish (obind hdr (apply_mirror env d))
           (if has_sdr then obind sdr (apply_mirror env d) else None)
  | uhdr_crop_effect m_left m_right m_top m_bottom =>
    match hdr with
    | None => inr (raws, unknown_effect_error it)
    | Some h =>
      let left := Z.max 0 m_left in
      let right := Z.min (ri_w h) m_right in
      let crop_width := wrap32 (right - left) in
      if Z.leb crop_width 0 || negb (Z.eqb (Z.rem crop_width 2) 0) then
        inr (raws, crop_width_error crop_width)
      else
        let top := Z.max 0 m_top in
        let bottom := Z.min (ri_h h) m_bottom in
        let crop_height := wrap32 (bottom - top) in
        if Z.leb crop_height 0 || negb (Z.eqb (Z.rem crop_height 2) 0) then
          inr (raws, crop_height_error crop_height)
        else
          let raws1 := insert_or_assign UHDR_HDR_IMG
                         (Some (apply_crop env h left top crop_width crop_height)) raws in
          inl (if has_sdr then
                 insert_or_assign UHDR_SDR_IMG
                   (option_map (fun s => apply_crop env s left top crop_width crop_height) sdr)
                   raws1
               else raws1)
    end
  | uhdr_resize_effect dst_w dst_h =>
    if Z.eqb dst_w 0 || Z.eqb dst_h 0 || negb (Z.eqb (Z.rem dst_w 2) 0) ||
       negb (Z.eqb (Z.rem dst_h 2) 0) then
      (* [has_detail] is left uninitialised by the source *)
      inr (raws, {| error_code := UHDR_CODEC_INVALID_PARAM; has_detail := 0;
                    detail := snprintf_detail
                      ("destination dimension cannot be zero or odd. dest image width is " ++
                       fmt_int dst_w ++ ", dest image height is " ++ fmt_int dst_h) |})
    else
      finish (obind hdr (fun x => apply_resize env x dst_w dst_h))
             (if has_sdr then obind sdr (fun x => apply_resize env x dst_w dst_h) else None)
  end.

Fixpoint apply_effects_enc_loop (effs : list uhdr_effect_desc_t)
    (raws : list (uhdr_img_label_t * option uhdr_raw_image_t))
  : list (uhdr_img_label_t * option uhdr_raw_image_t) * option uhdr_error_info_t :=
  match effs with
  | [] => (raws, None)
  | it :: rest =>
    match apply_effect_enc it raws with
    | inl raws' => apply_effects_enc_loop rest raws'
    | inr (raws', st) => (raws', Some st)
    end
  end.

Definition last_effect (effs : list uhdr_effect_desc_t) : option uhdr_effect_desc_t :=
  match rev effs with [] => None | it :: _ => Some it end.

Definition apply_effects_enc (effs : list uhdr_effect_desc_t)
    (raws : list (uhdr_img_label_t * option uhdr_raw_image_t))
  : list (uhdr_img_label_t * option uhdr_raw_image_t) * uhdr_error_info_t :=
  match apply_effects_enc_loop effs raws with
  | (raws', Some st) => (raws', st)
  | (raws', None) =>
    match last_effect effs with
    | Some (uhdr_crop_effect _ _ _ _) =>
      if map_mem UHDR_SDR_IMG raws' then
        (insert_or_assign UHDR_SDR_IMG
           (obind (raw_entry UHDR_SDR_IMG raws') (convert_raw_input_to_ycbcr env)) raws',
         g_no_error)
      else (raws', g_no_error)
    | _ => (raws', g_no_error)
    end
  end.

(** ** [uhdr_encode] *)

Definition err_effects_not_enabled : uhdr_error_info_t :=
  mk_error UHDR_CODEC_INVALID_OPERATION
    "image effects are not enabled for inputs with compressed intent".

(** [m_quality.find(intent)->second]; every intent is present since reset. *)
Definition quality_of (e : uhdr_encoder_private) (l : uhdr_img_label_t) : Z :=
  match map_find l (m_quality e) with Some q => q | None => 0 end.

(** The effect gate at the top of [uhdr_encode]: the encoder after it
    (sealed, effects possibly applied, stored status possibly written) and
    whether the function returns there. *)
Definition encode_effects_stage (effs : list uhdr_effect_desc_t) (e : uhdr_encoder_private)
  : uhdr_encoder_private * bool :=
  let has_effects := negb (Nat.eqb (List.length effs) 0) in
  let hc l := map_mem l (m_compressed_images e) in
  let hr l := map_mem l (m_raw_images e) in
  let reject := (set_m_encode_call_status e err_effects_not_enabled, true) in
  let run_fx :=
    let (raws, st) := apply_effects_enc effs (m_raw_images e) in
    (set_m_encode_call_status (set_m_raw_images e raws) st,
     negb (err_eqb (error_code st) UHDR_CODEC_OK)) in
  if hc UHDR_BASE_IMG && hc UHDR_GAIN_MAP_IMG then
    if has_effects then reject else (e, false)
  else if hr UHDR_HDR_IMG then
    if negb (hc UHDR_SDR_IMG) && negb (hr UHDR_SDR_IMG) then
      (* api - 0 *)
      if has_effects then run_fx else (e, false)
    else if hc UHDR_SDR_IMG && negb (hr UHDR_SDR_IMG) then
      if has_effects then reject else (e, false)
    else if hr UHDR_SDR_IMG then
      if negb (hc UHDR_SDR_IMG) then
        if has_effects then run_fx else (e, false)
      else if has_effects then reject else (e, false)
    else (e, false)
  else (e, false).

(** Store the codec's result: on success the output buffer takes the
    stream length and the gamut the codec reports. *)
Definition finish_encode (e : uhdr_encoder_private) (buf : uhdr_compressed_image_t)
    (st : uhdr_error_info_t) (out : list Z) (cg : ultrahdr_color_gamut)
  : uhdr_encoder_private :=
  let buf' :=
    if err_eqb (error_code st) UHDR_CODEC_OK then
      {| ci_data := Some out; ci_data_sz := Z.of_nat (List.length out);
         ci_capacity := ci_capacity buf; ci_cg := map_internal_cg_to_cg cg;
         ci_ct := ci_ct buf; ci_range := ci_range buf |}
    else buf in
  set_m_encode_call_status (set_m_compressed_output_buffer e (Some buf')) st.

(** The codec stage of [uhdr_encode]; the third component lists the
    [encodeJPEGR] calls made. *)
Definition encode_codec_stage (e : uhdr_encoder_private)
  : uhdr_encoder_private * list jpegr_encode_call :=
  match m_output_format e with
  | UHDR_CODEC_OTHER _ => (e, [])
  | UHDR_CODEC_JPG =>
    let exif := if Nat.ltb 0 (List.length (m_exif e)) then Some (m_exif e) else None in
    let jpegr := {| mapDimensionScaleFactor := m_gainmap_scale_factor e;
                    mapCompressQuality := quality_of e UHDR_GAIN_MAP_IMG;
                    useMultiChannelGainMap := m_use_multi_channel_gainmap e |} in
    let run (size : Z) (call : jpegr_encode_call) :=
      let buf := uhdr_compressed_image_ext UHDR_CG_UNSPECIFIED UHDR_CT_UNSPECIFIED
                   UHDR_CR_UNSPECIFIED size in
      let '(internal_status, out, out_cg) := encodeJPEGR env jpegr call size in
      let st := map_internal_error_status_to_error_info internal_status
                  (m_encode_call_status e) in
      (finish_encode e buf st out out_cg, [call]) in
    match map_find UHDR_BASE_IMG (m_compressed_images e),
          map_find UHDR_GAIN_MAP_IMG (m_compressed_images e) with
    | Some base_entry, Some gainmap_entry =>
      let md := m_metadata e in
      let metadata := {| version := kJpegrVersion env;
                         maxContentBoost := max_content_boost md;
                         minContentBoost := min_content_boost md;
                         gammaM := gamma md;
                         offsetSdr := offset_sdr md;
                         offsetHdr := offset_hdr md;
                         hdrCapacityMin := hdr_capacity_min md;
                         hdrCapacityMax := hdr_capacity_max md |} in
      let size := Z.max (8 * 1024) (2 * (ci_data_sz base_entry + ci_data_sz gainmap_entry)) in
      (* api - 4 *)
      run size (encodeJPEGR_api4 base_entry gainmap_entry metadata)
    | _, _ =>
      match raw_entry UHDR_HDR_IMG (m_raw_images e) with
      | Some hdr_raw_entry =>
        let size := Z.max (8 * 1024) (wrapu32 (ri_w hdr_raw_entry * ri_h hdr_raw_entry * 3 * 2)) in
        let tf := map_ct_to_internal_ct (ri_ct hdr_raw_entry) in
        match map_find UHDR_SDR_IMG (m_compressed_images e),
              raw_entry UHDR_SDR_IMG (m_raw_images e) with
        | None, None =>
          (* api - 0 *)
          run size (encodeJPEGR_api0 hdr_raw_entry tf (quality_of e UHDR_BASE_IMG) exif)
        | Some sdr_compressed_entry, None =>
          (* api - 3 *)
          run size (encodeJPEGR_api3 hdr_raw_entry sdr_compressed_entry tf)
        | None, Some sdr_raw_entry =>
          (* api - 1 *)
          run size (encodeJPEGR_api1 hdr_raw_entry sdr_raw_entry tf
                      (quality_of e UHDR_BASE_IMG) exif)
        | Some sdr_compressed_entry, Some sdr_raw_entry =>
          (* api - 2 *)
          run size (encodeJPEGR_api2 hdr_raw_entry sdr_raw_entry sdr_compressed_entry tf)
        end
      | None =>
        (set_m_encode_call_status e
           (mk_error UHDR_CODEC_INVALID_OPERATION
              "resources required for uhdr_encode() operation are not present"), [])
      end
    end
  end.

Definition uhdr_encode (c : uhdr_codec_private_t)
  : uhdr_codec_private_t * uhdr_error_info_t * list jpegr_encode_call :=
  match m_kind c with
  | Decoder _ => (c, err_null_codec, [])
  | Encoder e0 =>
    if m_sailed e0 then (c, m_encode_call_status e0, [])
    else
      let (e1, stop) := encode_effects_stage (m_effects c) (set_m_sailed e0 true) in
      if stop then (update_encoder c e1, m_encode_call_status e1, [])
      else
        let (e2, calls) := encode_codec_stage e1 in
        (update_encoder c e2, m_encode_call_status e2, calls)
  end.

Definition uhdr_get_encoded_stream (c : uhdr_codec_private_t) : option uhdr_compressed_image_t :=
  match m_kind c with
  | Decoder _ => None
  | Encoder e =>
    if negb (m_sailed e) || negb (err_eqb (error_code (m_encode_call_status e)) UHDR_CODEC_OK)
    then None
    else m_compressed_output_buffer e
  end.

Definition default_encoder : uhdr_encoder_private :=
  {| m_raw_images := []; m_compressed_images := [];
     m_quality := [(UHDR_HDR_IMG, 95); (UHDR_SDR_IMG, 95); (UHDR_BASE_IMG, 95);
                   (UHDR_GAIN_MAP_IMG, kMapCompressQualityDefault env)];
     m_exif := []; m_output_format := UHDR_CODEC_JPG;
     m_gainmap_scale_factor := kMapDimensionScaleFactorDefault env;
     m_use_multi_channel_gainmap := kUseMultiChannelGainMapDefault env;
     m_metadata := zero_metadata; m_sailed := false; m_compressed_output_buffer := None;
     m_encode_call_status := g_no_error |}.

(** [uhdr_reset_encoder]; [m_metadata] is not touched by the source. *)
Definition uhdr_reset_encoder (c : uhdr_codec_private_t) : uhdr_codec_private_t :=
  match m_kind c with
  | Decoder _ => c
  | Encoder e =>
    {| m_effects := [];
       m_kind := Encoder (set_m_metadata default_encoder (m_metadata e)) |}
  end.

(** [uhdr_create_encoder]: a fresh handle, then reset. *)
Definition uhdr_create_encoder : uhdr_codec_private_t :=
  uhdr_reset_encoder {| m_effects := []; m_kind := Encoder default_encoder |}.

(** ** Decoder *)

Definition ALIGNM (x a : Z) : Z := ((x + a - 1) / a) * a.

(** [uhdr_raw_image_ext_t(fmt, cg, ct, range, w, h, align_stride_to)]:
    plane pointers as offsets into the freshly allocated block. *)
Definition uhdr_raw_image_ext (fmt : uhdr_img_fmt_t) (cg : uhdr_color_gamut_t)
    (ct : uhdr_color_transfer_t) (range : uhdr_color_range_t) (w h align : Z)
  : uhdr_raw_image_t :=
  let aligned_width := ALIGNM w align in
  let bpp := match fmt with
             | UHDR_IMG_FMT_24bppYCbCrP010 => 2
             | UHDR_IMG_FMT_32bppRGBA8888 | UHDR_IMG_FMT_32bppRGBA1010102 => 4
             | UHDR_IMG_FMT_64bppRGBAHalfFloat => 8
             | _ => 1
             end in
  let plane_1_sz := bpp * aligned_width * h in
  let plane_2_sz := match fmt with
                    | UHDR_IMG_FMT_24bppYCbCrP010 => 2 * ((aligned_width / 2) * (h / 2) * bpp)
                    | UHDR_IMG_FMT_12bppYCbCr420 => (aligned_width / 2) * (h / 2) * bpp
                    | _ => 0
                    end in
  let '(planes, strides) :=
    match fmt with
    | UHDR_IMG_FMT_24bppYCbCrP010 =>
      ([Some 0; Some plane_1_sz; None], [aligned_width; aligned_width; 0])
    | UHDR_IMG_FMT_12bppYCbCr420 =>
      ([Some 0; Some plane_1_sz; Some (plane_1_sz + plane_2_sz)],
       [aligned_width; aligned_width / 2; aligned_width / 2])
    | _ => ([Some 0; None; None], [aligned_width; 0; 0])
    end in
  {| ri_fmt := fmt; ri_cg := cg; ri_ct := ct; ri_range := range; ri_w := w; ri_h := h;
     ri_planes := planes; ri_stride := strides |}.

Definition set_ri_cg (r : uhdr_raw_image_t) (cg : uhdr_color_gamut_t) : uhdr_raw_image_t :=
  {| ri_fmt := ri_fmt r; ri_cg := cg; ri_ct := ri_ct r; ri_range := ri_range r;
     ri_w := ri_w r; ri_h := ri_h r; ri_planes := ri_planes r; ri_stride := ri_stride r |}.

Definition update_decoder (c : uhdr_codec_private_t) (d : uhdr_decoder_private)
  : uhdr_codec_private_t := with_kind c (Decoder d).

Definition err_dec_sealed : uhdr_error_info_t :=
  mk_error UHDR_CODEC_INVALID_OPERATION
    ("An earlier call to uhdr_decode() has switched the context from configurable state to " ++
     "end state. The context is no longer configurable. To reuse, call reset()").

Definition uhdr_dec_set_image (c : uhdr_codec_private_t) (img : option uhdr_compressed_image_t)
  : uhdr_codec_private_t * uhdr_error_info_t :=
  match m_kind c with
  | Encoder _ => (c, err_null_codec)
  | Decoder d =>
    match img with
    | None => (c, mk_error UHDR_CODEC_INVALID_PARAM "received nullptr for compressed image handle")
    | Some img =>
      match ci_data img with
      | None =>
        (c, mk_error UHDR_CODEC_INVALID_PARAM "received nullptr for compressed img->data field")
      | Some bytes =>
        if Z.ltb (ci_capacity img) (ci_data_sz img) then
          (c, mk_error UHDR_CODEC_INVALID_PARAM
                ("img->capacity " ++ fmt_int (ci_capacity img) ++ " is less than img->data_sz " ++
                 fmt_int (ci_data_sz img)))
        else if m_probed d then (c, err_dec_sealed)
        else
          let entry := {| ci_data := Some (firstn (Z.to_nat (ci_data_sz img)) bytes);
                          ci_data_sz := ci_data_sz img; ci_capacity := ci_data_sz img;
                          ci_cg := ci_cg img; ci_ct := ci_ct img; ci_range := ci_range img |} in
          (update_decoder c (set_m_uhdr_compressed_img d (Some entry)), g_no_error)
      end
    end
  end.

Definition uhdr_dec_set_out_img_format (c : uhdr_codec_private_t) (fmt : uhdr_img_fmt_t)
  : uhdr_codec_private_t * uhdr_error_info_t :=
  match m_kind c with
  | Encoder _ => (c, err_null_codec)
  | Decoder d =>
    if negb (fmt_eqb fmt UHDR_IMG_FMT_32bppRGBA8888 || fmt_eqb fmt UHDR_IMG_FMT_64bppRGBAHalfFloat ||
             fmt_eqb fmt UHDR_IMG_FMT_32bppRGBA1010102) then
      (c, mk_error UHDR_CODEC_INVALID_PARAM
            ("invalid output format " ++ fmt_int (fmt_to_int fmt) ++
             ", expects one of {UHDR_IMG_FMT_32bppRGBA8888,  " ++
             "UHDR_IMG_FMT_64bppRGBAHalfFloat, UHDR_IMG_FMT_32bppRGBA1010102}"))
    else if m_probed d then (c, err_dec_sealed)
    else (update_decoder c (set_m_output_fmt d fmt), g_no_error)
  end.

Definition uhdr_dec_set_out_color_transfer (c : uhdr_codec_private_t)
    (ct : uhdr_color_transfer_t) : uhdr_codec_private_t * uhdr_error_info_t :=
  match m_kind c with
  | Encoder _ => (c, err_null_codec)
  | Decoder d =>
    if negb (ct_eqb ct UHDR_CT_HLG || ct_eqb ct UHDR_CT_PQ || ct_eqb ct UHDR_CT_LINEAR ||
             ct_eqb ct UHDR_CT_SRGB) then
      (c, mk_error UHDR_CODEC_INVALID_PARAM
            ("invalid output color transfer " ++ fmt_int (ct_to_int ct) ++
             ", expects one of {UHDR_CT_HLG, UHDR_CT_PQ, UHDR_CT_LINEAR, UHDR_CT_SRGB}"))
    else if m_probed d then (c, err_dec_sealed)
    else (update_decoder c (set_m_output_ct d ct), g_no_error)
  end.

Definition uhdr_dec_set_out_max_display_boost (c : uhdr_codec_private_t)
    (display_boost : cfloat) : uhdr_codec_private_t * uhdr_error_info_t :=
  match m_kind c with
  | Encoder _ => (c, err_null_codec)
  | Decoder d =>
    if flt display_boost (CFin 1) then
      (c, mk_error UHDR_CODEC_INVALID_PARAM
            ("invalid display boost " ++ fmt_float env display_boost ++
             ", expects to be >= 1.0f}"))
    else if m_probed d then (c, err_dec_sealed)
    else (update_decoder c (set_m_output_max_disp_boost d display_boost), g_no_error)
  end.

Definition mem_block_of (v : list Z) : uhdr_mem_block_t :=
  {| mb_data := Some v; mb_data_sz := Z.of_nat (List.length v);
     mb_capacity := Z.of_nat (List.length v) |}.

(** [uhdr_dec_probe] on the decoder object; [m_probe_call_status] is the
    status the source writes through. *)
Definition dec_probe (d0 : uhdr_decoder_private)
  : uhdr_decoder_private * uhdr_error_info_t :=
  if m_probed d0 then (d0, m_probe_call_status d0)
  else
    let d := set_m_probed d0 true in
    match m_uhdr_compressed_img d with
    | None =>
      let st := mk_error UHDR_CODEC_INVALID_OPERATION "did not receive any image for decoding" in
      (set_m_probe_call_status d st, st)
    | Some uhdr_image =>
      let '(internal_status, primary_image, gainmap_image) := getJPEGRInfo env uhdr_image in
      let st := map_internal_error_status_to_error_info internal_status
                  (m_probe_call_status d) in
      let d := set_m_probe_call_status d st in
      if negb (err_eqb (error_code st) UHDR_CODEC_OK) then (d, st)
      else
        match getMetadataFromXMP env (xmpData gainmap_image) with
        | None =>
          let st := mk_error UHDR_CODEC_UNKNOWN_ERROR "encountered error while parsing metadata" in
          (set_m_probe_call_status d st, st)
        | Some metadata =>
          let md := {| max_content_boost := maxContentBoost metadata;
                       min_content_boost := minContentBoost metadata;
                       gamma := gammaM metadata;
                       offset_sdr := offsetSdr metadata;
                       offset_hdr := offsetHdr metadata;
                       hdr_capacity_min := hdrCapacityMin metadata;
                       hdr_capacity_max := hdrCapacityMax metadata |} in
          let d := set_m_dec_metadata d md in
          let d := set_m_img_wd d (ji_width primary_image) in
          let d := set_m_img_ht d (ji_height primary_image) in
          let d := set_m_gainmap_wd d (ji_width gainmap_image) in
          let d := set_m_gainmap_ht d (ji_height gainmap_image) in
          let d := set_m_dec_exif d (exifData primary_image) in
          let d := set_m_exif_block d (mem_block_of (exifData primary_image)) in
          let d := set_m_icc d (iccData primary_image) in
          let d := set_m_icc_block d (mem_block_of (iccData primary_image)) in
          let d := set_m_base_xmp d (xmpData primary_image) in
          let d := set_m_gainmap_xmp d (xmpData gainmap_image) in
          (d, st)
        end
    end.

Definition uhdr_dec_probe (c : uhdr_codec_private_t) : uhdr_codec_private_t * uhdr_error_info_t :=
  match m_kind c with
  | Encoder _ => (c, err_null_codec)
  | Decoder d => let (d', st) := dec_probe d in (update_decoder c d', st)
  end.

(** The four dimension queries share their guard. *)
Definition dec_query (c : uhdr_codec_private_t) (field : uhdr_decoder_private -> Z) : Z :=
  match m_kind c with
  | Encoder _ => -1
  | Decoder d =>
    if negb (m_probed d) || negb (err_eqb (error_code (m_probe_call_status d)) UHDR_CODEC_OK)
    then -1
    else field d
  end.

Definition uhdr_dec_get_image_width (c : uhdr_codec_private_t) : Z := dec_query c m_img_wd.
Definition uhdr_dec_get_image_height (c : uhdr_codec_private_t) : Z := dec_query c m_img_ht.
Definition uhdr_dec_get_gainmap_width (c : uhdr_codec_private_t) : Z := dec_query c m_gainmap_wd.
Definition uhdr_dec_get_gainmap_height (c : uhdr_codec_private_t) : Z :=
  dec_query c m_gainmap_ht.

(** [uhdr_dec_get_exif], [uhdr_dec_get_icc], [uhdr_dec_get_gain_map_metadata]:
    pointers into the handle, null unless a probe succeeded. *)
Definition uhdr_dec_get_exif (c : uhdr_codec_private_t) : option uhdr_mem_block_t :=
  match m_kind c with
  | Encoder _ => None
  | Decoder d =>
    if negb (m_probed d) || negb (err_eqb (error_code (m_probe_call_status d)) UHDR_CODEC_OK)
    then None
    else Some (m_exif_block d)
  end.

Definition uhdr_dec_get_icc (c : uhdr_codec_private_t) : option uhdr_mem_block_t :=
  match m_kind c with
  | Encoder _ => None
  | Decoder d =>
    if negb (m_probed d) || negb (err_eqb (error_code (m_probe_call_status d)) UHDR_CODEC_OK)
    then None
    else Some (m_icc_block d)
  end.

Definition uhdr_dec_get_gain_map_metadata (c : uhdr_codec_private_t)
  : option uhdr_gainmap_metadata_t :=
  match m_kind c with
  | Encoder _ => None
  | Decoder d =>
    if negb (m_probed d) || negb (err_eqb (error_code (m_probe_call_status d)) UHDR_CODEC_OK)
    then None
    else Some (m_dec_metadata d)
  end.

(** ** Decoder effects pipeline ([apply_effects] on a decoder) *)

Definition dec_crop_error (what : string) (v : Z) : uhdr_error_info_t :=
  mk_error UHDR_CODEC_INVALID_PARAM ("unexpected crop dimensions. " ++ what ++ fmt_int v).

(** One iteration over (decoded image, gain map); both buffers are
    allocated by [uhdr_decode] before the pipeline runs, a missing one is
    reported as the unknown-effect error. *)
Definition apply_effect_dec (it : uhdr_effect_desc_t)
    (disp gm : option uhdr_raw_image_t)
  : (option uhdr_raw_image_t * option uhdr_raw_image_t) +
    (option uhdr_raw_image_t * option uhdr_raw_image_t * uhdr_error_info_t) :=
  let finish (disp_img gm_img : option uhdr_raw_image_t) :=
    match disp_img, gm_img with
    | Some _, Some _ => inl (disp_img, gm_img)
    | _, _ => inr (disp, gm, unknown_effect_error it)
    end in
  match it with
  | uhdr_rotate_effect d => finish (obind disp (apply_rotate env d)) (obind gm (apply_rotate env d))
  | uhdr_mirror_effect d => finish (obind disp (apply_mirror env d)) (obind gm (apply_mirror env d))
  | uhdr_crop_effect m_left m_right m_top m_bottom =>
    match disp, gm with
    | Some dsp, Some g =>
      let left := Z.max 0 m_left in
      let right := Z.min (ri_w dsp) m_right in
      if Z.leb right left then
        inr (disp, gm, dec_crop_error
               "crop right is <= crop left, after crop image width is " (wrap32 (right - left)))
      else
        let top := Z.max 0 m_top in
        let bottom := Z.min (ri_h dsp) m_bottom in
        if Z.leb bottom top then
          inr (disp, gm, dec_crop_error
                 "crop bottom is <= crop top, after crop image height is " (wrap32 (bottom - top)))
        else
          let gm_left := f32_div_ratio env left (ri_w dsp) (ri_w g) in
          let gm_right := f32_div_ratio env right (ri_w dsp) (ri_w g) in
          if Z.leb gm_right gm_left then
            inr (disp, gm, dec_crop_error
                   ("crop right is <= crop left for gainmap image, after " ++
                    "crop gainmap image width is ") (wrap32 (gm_right - gm_left)))
          else
            let gm_top := f32_div_ratio env top (ri_h dsp) (ri_h g) in
            let gm_bottom := f32_div_ratio env bottom (ri_h dsp) (ri_h g) in
            if Z.leb gm_bottom gm_top then
              inr (disp, gm, dec_crop_error
                     ("crop bottom is <= crop top for gainmap image, after " ++
                      "crop gainmap image height is ") (wrap32 (gm_bottom - gm_top)))
            else
              inl (Some (apply_crop env dsp left top (right - left) (bottom - top)),
                   Some (apply_crop env g gm_left gm_top (gm_right - gm_left)
                           (gm_bottom - gm_top)))
    | _, _ => inr (disp, gm, unknown_effect_error it)
    end
  | uhdr_resize_effect dst_w dst_h =>
    match disp, gm with
    | Some dsp, Some g =>
      let dst_gm_w := f32_div_ratio env dst_w (ri_w dsp) (ri_w g) in
      let dst_gm_h := f32_div_ratio env dst_h (ri_h dsp) (ri_h g) in
      if Z.eqb dst_w 0 || Z.eqb dst_h 0 || Z.eqb dst_gm_w 0 || Z.eqb dst_gm_h 0 then
        (* [has_detail] is left uninitialised by the source *)
        inr (disp, gm,
             {| error_code := UHDR_CODEC_INVALID_PARAM; has_detail := 0;
                detail := snprintf_detail
                  ("destination dimension cannot be zero. dest image width is " ++
                   fmt_int dst_w ++ ", dest image height is " ++ fmt_int dst_h ++
                   ", dest gainmap width is " ++ fmt_int dst_gm_w ++
                   ", dest gainmap height is " ++ fmt_int dst_gm_h) |})
      else finish (apply_resize env dsp dst_w dst_h) (apply_resize env g dst_gm_w dst_gm_h)
    | _, _ => inr (disp, gm, unknown_effect_error it)
    end
  end.

Fixpoint apply_effects_dec (effs : list uhdr_effect_desc_t) (disp gm : option uhdr_raw_image_t)
  : option uhdr_raw_image_t * option uhdr_raw_image_t * uhdr_error_info_t :=
  match effs with
  | [] => (disp, gm, g_no_error)
  | it :: rest =>
    match apply_effect_dec it disp gm with
    | inl (disp', gm') => apply_effects_dec rest disp' gm'
    | inr r => r
    end
  end.

(** ** [uhdr_decode] *)

Definition uhdr_decode (c : uhdr_codec_private_t) : uhdr_codec_private_t * uhdr_error_info_t :=
  match m_kind c with
  | Encoder _ => (c, err_null_codec)
  | Decoder d0 =>
    if m_dec_sailed d0 then (c, m_decode_call_status d0)
    else
      let (d1, probe_status) := dec_probe d0 in
      let d1 := set_m_decode_call_status d1 probe_status in
      if negb (err_eqb (error_code probe_status) UHDR_CODEC_OK) then
        (update_decoder c d1, probe_status)
      else
        let d2 := set_m_dec_sailed d1 true in
        let outputFormat := map_ct_fmt_to_internal_output_fmt (m_output_ct d2) (m_output_fmt d2) in
        match outputFormat with
        | ULTRAHDR_OUTPUT_UNSPECIFIED =>
          let st := mk_error UHDR_CODEC_INVALID_PARAM
                      "unsupported output pixel format and output color transfer pair" in
          (update_decoder c (set_m_decode_call_status d2 st), st)
        | _ =>
          match m_uhdr_compressed_img d2 with
          | None =>
            (* unreachable: a successful probe had an input image *)
            (update_decoder c d2, m_decode_call_status d2)
          | Some uhdr_image =>
            let disp := uhdr_raw_image_ext (m_output_fmt d2) UHDR_CG_UNSPECIFIED (m_output_ct d2)
                          UHDR_CR_UNSPECIFIED (m_img_wd d2) (m_img_ht d2) 1 in
            let gmb := uhdr_raw_image_ext UHDR_IMG_FMT_8bppYCbCr400 UHDR_CG_UNSPECIFIED
                         UHDR_CT_UNSPECIFIED UHDR_CR_UNSPECIFIED (m_gainmap_wd d2)
                         (m_gainmap_ht d2) 1 in
            let '(internal_status, dest_cg) :=
              decodeJPEGR env uhdr_image (m_output_max_disp_boost d2) outputFormat in
            let st := map_internal_error_status_to_error_info internal_status
                        (m_decode_call_status d2) in
            let ok := err_eqb (error_code st) UHDR_CODEC_OK in
            let disp := if ok then set_ri_cg disp (map_internal_cg_to_cg dest_cg) else disp in
            let d3 := set_m_decode_call_status
                        (set_m_gainmap_img_buffer (set_m_decoded_img_buffer d2 (Some disp))
                           (Some gmb)) st in
            if ok && negb (Nat.eqb (List.length (m_effects c)) 0) then
              let '(disp', gm', st') := apply_effects_dec (m_effects c) (Some disp) (Some gmb) in
              let d4 := set_m_decode_call_status
                          (set_m_gainmap_img_buffer (set_m_decoded_img_buffer d3 disp') gm') st' in
              (update_decoder c d4, st')
            else (update_decoder c d3, st)
          end
        end
  end.

Definition uhdr_get_decoded_image (c : uhdr_codec_private_t) : option uhdr_raw_image_t :=
  match m_kind c with
  | Encoder _ => None
  | Decoder d =>
    if negb (m_dec_sailed d) || negb (err_eqb (error_code (m_decode_call_status d)) UHDR_CODEC_OK)
    then None
    else m_decoded_img_buffer d
  end.

Definition uhdr_get_gain_map_image (c : uhdr_codec_private_t) : option uhdr_raw_image_t :=
  match m_kind c with
  | Encoder _ => None
  | Decoder d =>
    if negb (m_dec_sailed d) || negb (err_eqb (error_code (m_decode_call_status d)) UHDR_CODEC_OK)
    then None
    else m_gainmap_img_buffer d
  end.

Definition empty_mem_block : uhdr_mem_block_t :=
  {| mb_data := None; mb_data_sz := 0; mb_capacity := 0 |}.

(** [uhdr_reset_decoder] / [uhdr_create_decoder]. *)
Definition default_decoder : uhdr_decoder_private :=
  {| m_uhdr_compressed_img := None; m_output_fmt := UHDR_IMG_FMT_64bppRGBAHalfFloat;
     m_output_ct := UHDR_CT_LINEAR; m_output_max_disp_boost := FLT_MAX;
     m_probed := false; m_dec_sailed := false;
     m_decoded_img_buffer := None; m_gainmap_img_buffer := None;
     m_img_wd := 0; m_img_ht := 0; m_gainmap_wd := 0; m_gainmap_ht := 0;
     m_dec_exif := []; m_exif_block := empty_mem_block; m_icc := [];
     m_icc_block := empty_mem_block; m_base_xmp := []; m_gainmap_xmp := [];
     m_dec_metadata := zero_metadata; m_probe_call_status := g_no_error;
     m_decode_call_status := g_no_error |}.

Definition uhdr_reset_decoder (c : uhdr_codec_private_t) : uhdr_codec_private_t :=
  match m_kind c with
  | Encoder _ => c
  | Decoder _ => {| m_effects := []; m_kind := Decoder default_decoder |}
  end.

Definition uhdr_create_decoder : uhdr_codec_private_t :=
  uhdr_reset_decoder {| m_effects := []; m_kind := Decoder default_decoder |}.

(** [size_t] on a 64-bit target: [uhdr_image.data_sz = size] converts the
    [int] argument. *)
Definition wrapu64 (z : Z) : Z := z mod 2 ^ 64.

(** [is_uhdr_image(data, size)]: a fresh decoder, the buffer as its input,
    then a probe; [uhdr_release_decoder] has no observable effect here. *)
Definition is_uhdr_image (data : option (list Z)) (size : Z) : Z :=
  let obj := uhdr_create_decoder in
  let uhdr_image := {| ci_data := data; ci_data_sz := wrapu64 size; ci_capacity := wrapu64 size;
                       ci_cg := UHDR_CG_UNSPECIFIED; ci_ct := UHDR_CT_UNSPECIFIED;
                       ci_range := UHDR_CR_UNSPECIFIED |} in
  let (obj, status) := uhdr_dec_set_image obj (Some uhdr_image) in
  if negb (err_eqb (error_code status) UHDR_CODEC_OK) then 0
  else
    let (_, status) := uhdr_dec_probe obj in
    if negb (err_eqb (error_code status) UHDR_CODEC_OK) then 0
    else 1.

End Api.

(** ** Vocabulary of the properties *)

(** [pat] occurs in [s]. *)
Fixpoint str_contains (s pat : string) : bool :=
  prefix pat s || match s with EmptyString => false | String _ s' => str_contains s' pat end.

(** The (transfer, format) table of the decoder's output selection. *)
Definition decode_output_table : list (uhdr_color_transfer_t * uhdr_img_fmt_t) :=
  [(UHDR_CT_HLG, UHDR_IMG_FMT_32bppRGBA1010102);
   (UHDR_CT_PQ, UHDR_IMG_FMT_32bppRGBA1010102);
   (UHDR_CT_LINEAR, UHDR_IMG_FMT_64bppRGBAHalfFloat);
   (UHDR_CT_SRGB, UHDR_IMG_FMT_32bppRGBA8888)].

(** The bounds of a gain-map metadata record, with the comparisons of C
    [float]; a NaN field satisfies none of them. *)
Definition metadata_within_bounds (m : uhdr_gainmap_metadata_t) : Prop :=
  fle (min_content_boost m) (max_content_boost m) = true /\
  flt (CFin 0) (gamma m) = true /\
  fle (CFin 0) (offset_sdr m) = true /\
  fle (CFin 0) (offset_hdr m) = true /\
  fle (CFin 1) (hdr_capacity_min m) = true /\
  fle (hdr_capacity_min m) (hdr_capacity_max m) = true.

Definition metadata_has_nan (m : uhdr_gainmap_metadata_t) : bool :=
  is_nan (max_content_boost m) || is_nan (min_content_boost m) || is_nan (gamma m) ||
  is_nan (offset_sdr m) || is_nan (offset_hdr m) || is_nan (hdr_capacity_min m) ||
  is_nan (hdr_capacity_max m).

(** The setters that consult the sealed flag of the encoder. *)
Definition checks_sealed (k : enc_call) : bool :=
  match k with
  | call_set_raw_image _ _ | call_set_compressed_image _ _ | call_set_gainmap_image _ _
  | call_set_quality _ _ | call_set_exif_data _ | call_set_output_format _ => true
  | _ => false
  end.

(** Argument-validation failures of the setters. *)
Definition is_validation_error (e : uhdr_codec_err_t) : bool :=
  err_eqb e UHDR_CODEC_INVALID_PARAM || err_eqb e UHDR_CODEC_UNSUPPORTED_FEATURE.

(** The same encoder session with its sealed flag cleared. *)
Definition unseal (c : uhdr_codec_private_t) : uhdr_codec_private_t :=
  match m_kind c with
  | Encoder e => update_encoder c (set_m_sailed e false)
  | Decoder _ => c
  end.

(** The states in which the retrievers can answer. *)
Definition dec_can_answer (c : uhdr_codec_private_t) : Prop :=
  match m_kind c with
  | Decoder d => m_probed d = true /\ error_code (m_probe_call_status d) = UHDR_CODEC_OK
  | Encoder _ => False
  end.

Definition enc_can_answer (c : uhdr_codec_private_t) : Prop :=
  match m_kind c with
  | Encoder e => m_sailed e = true /\ error_code (m_encode_call_status e) = UHDR_CODEC_OK
  | Decoder _ => False
  end.

(** The state an encoder session is left in by its first [uhdr_encode]
    call returning [r]: sealed with [r] stored (for a decoder handle,
    [uhdr_encode] fails the cast and returns [r] every time). *)
Definition frozen (r : uhdr_error_info_t) (c : uhdr_codec_private_t) : Prop :=
  match m_kind c with
  | Encoder e => m_sailed e = true /\ m_encode_call_status e = r
  | Decoder _ => r = err_null_codec
  end.

(** The state a decoder session is left in by a [uhdr_decode] call
    returning [r]: sealed with [r] stored, or, when the probe failed,
    probed and not sealed with [r] stored as both the probe and the decode
    status (for an encoder handle, [uhdr_decode] fails the cast and
    returns [r] every time). *)
Definition dec_frozen (r : uhdr_error_info_t) (c : uhdr_codec_private_t) : Prop :=
  match m_kind c with
  | Decoder d =>
    (m_dec_sailed d = true /\ m_decode_call_status d = r) \/
    (m_dec_sailed d = false /\ m_probed d = true /\ m_probe_call_status d = r /\
     m_decode_call_status d = r /\ error_code r <> UHDR_CODEC_OK)
  | Encoder _ => r = err_null_codec
  end.

(** ** A concrete collaborator set, to run the model on examples *)

Definition set_ri_dims (r : uhdr_raw_image_t) (w h : Z) : uhdr_raw_image_t :=
  {| ri_fmt := ri_fmt r; ri_cg := ri_cg r; ri_ct := ri_ct r; ri_range := ri_range r;
     ri_w := w; ri_h := h; ri_planes := ri_planes r; ri_stride := ri_stride r |}.

Definition ex_metadata : uhdr_gainmap_metadata_t :=
  {| max_content_boost := CFin 4; min_content_boost := CFin 1; gamma := CFin 1;
     offset_sdr := CFin (1 # 64); offset_hdr := CFin (1 # 64); hdr_capacity_min := CFin 1;
     hdr_capacity_max := CFin 4 |}.

Definition ex_env : uhdr_env :=
  {| kMinWidth := 8; kMinHeight := 8; kMaxWidth := 8192; kMaxHeight := 8192;
     kMapCompressQualityDefault := 85; kMapDimensionScaleFactorDefault := 1;
     kUseMultiChannelGainMapDefault := false; kJpegrVersion := "1.0";
     fmt_float := fun _ => "1.000000";
     effect_to_string := fun _ => "effect";
     convert_raw_input_to_ycbcr := fun r => Some r;
     apply_rotate := fun d r => if Z.eqb d 180 then Some r else Some (set_ri_dims r (ri_h r) (ri_w r));
     apply_mirror := fun _ r => Some r;
     apply_crop := fun r _ _ w h => set_ri_dims r w h;
     apply_resize := fun r w h => Some (set_ri_dims r w h);
     encodeJPEGR := fun _ _ _ => (JPEGR_NO_ERROR, [255; 216; 255; 217], ULTRAHDR_COLORGAMUT_BT709);
     getJPEGRInfo := fun _ =>
       (JPEGR_NO_ERROR,
        {| ji_width := 32; ji_height := 16; exifData := []; iccData := []; xmpData := [] |},
        {| ji_width := 8; ji_height := 4; exifData := []; iccData := []; xmpData := [1] |});
     getMetadataFromXMP := fun _ =>
       Some {| version := "1.0"; maxContentBoost := CFin 4; minContentBoost := CFin 1;
               gammaM := CFin 1; offsetSdr := CFin 0; offsetHdr := CFin 0;
               hdrCapacityMin := CFin 1; hdrCapacityMax := CFin 4 |};
     decodeJPEGR := fun _ _ _ => (JPEGR_NO_ERROR, ULTRAHDR_COLORGAMUT_BT709);
     f32_div_ratio := fun v a b => v * b / a |}.

(** A 16x16 P010 HDR frame and a 16x16 YUV420 SDR frame. *)
Definition ex_p010 : uhdr_raw_image_t :=
  {| ri_fmt := UHDR_IMG_FMT_24bppYCbCrP010; ri_cg := UHDR_CG_BT_2100; ri_ct := UHDR_CT_HLG;
     ri_range := UHDR_CR_FULL_RANGE; ri_w := 16; ri_h := 16;
     ri_planes := [Some 4096; Some 8192; None]; ri_stride := [16; 16; 0] |}.

Definition ex_jpeg : uhdr_compressed_image_t :=
  {| ci_data := Some [255; 216; 255; 217]; ci_data_sz := 4; ci_capacity := 4;
     ci_cg := UHDR_CG_BT_709; ci_ct := UHDR_CT_SRGB; ci_range := UHDR_CR_FULL_RANGE |}.

(** An encoder sealed by a first [uhdr_encode] call on an HDR input. *)
Definition ex_sealed_encoder : uhdr_codec_private_t :=
  let c := fst (uhdr_enc_set_raw_image ex_env (uhdr_create_encoder ex_env) (Some ex_p010)
                  UHDR_HDR_IMG) in
  fst (fst (uhdr_encode ex_env c)).

(** An encoder holding a compressed base image, a gain map and an effect. *)
Definition ex_api4_encoder : uhdr_codec_private_t :=
  let c := uhdr_create_encoder ex_env in
  let c := fst (uhdr_enc_set_compressed_image c (Some ex_jpeg) UHDR_BASE_IMG) in
  let c := fst (uhdr_enc_set_gainmap_image ex_env c (Some ex_jpeg) (Some ex_metadata)) in
  fst (uhdr_add_effect_rotate c 90).

(** A decoder holding an input, with output format [fmt] and transfer [ct]
    and the effects [effs]. *)
Definition ex_decoder (fmt : uhdr_img_fmt_t) (ct : uhdr_color_transfer_t)
    (effs : list uhdr_effect_desc_t) : uhdr_codec_private_t :=
  let c := uhdr_create_decoder in
  let c := fst (uhdr_dec_set_image c (Some ex_jpeg)) in
  let c := fst (uhdr_dec_set_out_img_format c fmt) in
  let c := fst (uhdr_dec_set_out_color_transfer c ct) in
  {| m_effects := effs; m_kind := m_kind c |}.

(** The private objects behind the example handles. *)
Definition encoder_of (c : uhdr_codec_private_t) : uhdr_encoder_private :=
  match m_kind c with Encoder e => e | Decoder _ => default_encoder ex_env end.

Definition decoder_of (c : uhdr_codec_private_t) : uhdr_decoder_private :=
  match m_kind c with Decoder d => d | Encoder _ => default_decoder end.

(** Metadata with hdr_capacity_min = 0.5, and metadata with a NaN gamma. *)
Definition ex_metadata_low_capacity : uhdr_gainmap_metadata_t :=
  {| max_content_boost := CFin 4; min_content_boost := CFin 1; gamma := CFin 1;
     offset_sdr := CFin (1 # 64); offset_hdr := CFin (1 # 64);
     hdr_capacity_min := CFin (1 # 2); hdr_capacity_max := CFin 4 |}.

Definition ex_metadata_nan_gamma : uhdr_gainmap_metadata_t :=
  {| max_content_boost := CFin 4; min_content_boost := CFin 1; gamma := CNaN;
     offset_sdr := CFin (1 # 64); offset_hdr := CFin (1 # 64);
     hdr_capacity_min := CFin 1; hdr_capacity_max := CFin 4 |}.

(** An 8x8 YUV420 SDR frame. *)
Definition ex_yuv420 : uhdr_raw_image_t :=
  {| ri_fmt := UHDR_IMG_FMT_12bppYCbCr420; ri_cg := UHDR_CG_BT_709; ri_ct := UHDR_CT_SRGB;
     ri_range := UHDR_CR_FULL_RANGE; ri_w := 8; ri_h := 8;
     ri_planes := [Some 0; Some 64; Some 80]; ri_stride := [8; 4; 4] |}.

(** An unsealed encoder holding the HDR frame. *)
Definition ex_hdr_encoder : uhdr_codec_private_t :=
  fst (uhdr_enc_set_raw_image ex_env (uhdr_create_encoder ex_env) (Some ex_p010) UHDR_HDR_IMG).

(** The same encoder with a compressed SDR image and a rotation. *)
Definition ex_api3_encoder : uhdr_codec_private_t :=
  let c := fst (uhdr_enc_set_compressed_image ex_hdr_encoder (Some ex_jpeg) UHDR_SDR_IMG) in
  fst (uhdr_add_effect_rotate c 90).

(** * Properties *)

Section Claims.

Variable env : uhdr_env.

(** Case on a [match] of the goal whose scrutinee holds no [match]. *)
Ltac destruct_goal_match :=
  match goal with
  | |- context [match ?x with _ => _ end] =>
    lazymatch x with context [match _ with _ => _ end] => fail | _ => destruct x eqn:? end
  end.

Lemma err_eqb_true (a b : uhdr_codec_err_t) : err_eqb a b = true -> a = b.
Proof. destruct a, b; simpl; congruence. Qed.

Lemma err_eqb_refl (a : uhdr_codec_err_t) : err_eqb a a = true.
Proof. destruct a; reflexivity. Qed.

Lemma dec_query_sentinel (c : uhdr_codec_private_t) (f : uhdr_decoder_private -> Z) :
  ~ dec_can_answer c -> dec_query c f = -1.
Proof.
  unfold dec_can_answer, dec_query. destruct (m_kind c) as [e | d]; [reflexivity |].
  intros Hn. destruct (m_probed d) eqn:Hp; [| reflexivity].
  destruct (err_eqb (error_code (m_probe_call_status d)) UHDR_CODEC_OK) eqn:Ho;
    [| reflexivity].
  exfalso. apply Hn. split; [reflexivity | apply err_eqb_true; exact Ho].
Qed.

Lemma map_ct_fmt_unlisted (ct : uhdr_color_transfer_t) (fmt : uhdr_img_fmt_t) :
  ~ In (ct, fmt) decode_output_table ->
  map_ct_fmt_to_internal_output_fmt ct fmt = ULTRAHDR_OUTPUT_UNSPECIFIED.
Proof.
  intros Hn. destruct ct, fmt; simpl; try reflexivity;
    exfalso; apply Hn; simpl; tauto.
Qed.

Lemma dec_probe_keeps_output (d : uhdr_decoder_private) :
  m_output_ct (fst (dec_probe env d)) = m_output_ct d /\
  m_output_fmt (fst (dec_probe env d)) = m_output_fmt d.
Proof.
  unfold dec_probe. destruct (m_probed d); [split; reflexivity |].
  simpl. destruct (m_uhdr_compressed_img d) as [img |]; [| split; reflexivity].
  destruct (getJPEGRInfo env img) as [[ist pri] gm].
  destruct (negb _); [split; reflexivity |].
  destruct (getMetadataFromXMP env (xmpData gm)); split; reflexivity.
Qed.

Lemma encode_effects_stage_sailed (effs : list uhdr_effect_desc_t) (e : uhdr_encoder_private) :
  m_sailed (fst (encode_effects_stage env effs e)) = m_sailed e.
Proof.
  unfold encode_effects_stage.
  destruct (apply_effects_enc env effs (m_raw_images e)) as [raws st].
  repeat (destruct_goal_match; simpl); reflexivity.
Qed.

Lemma encode_codec_stage_sailed (e : uhdr_encoder_private) :
  m_sailed (fst (encode_codec_stage env e)) = m_sailed e.
Proof.
  unfold encode_codec_stage.
  repeat (destruct_goal_match; simpl); reflexivity.
Qed.

Lemma frozen_encode (r : uhdr_error_info_t) (c : uhdr_codec_private_t) :
  frozen r c -> uhdr_encode env c = (c, r, []).
Proof.
  unfold frozen, uhdr_encode. destruct (m_kind c) as [e | d].
  - intros [Hs Hr]. rewrite Hs, Hr. reflexivity.
  - intros ->. reflexivity.
Qed.

Lemma frozen_after_encode (c : uhdr_codec_private_t) :
  let '(c1, r1, _) := uhdr_encode env c in frozen r1 c1.
Proof.
  unfold uhdr_encode. destruct (m_kind c) as [e0 | d] eqn:Hk.
  - destruct (m_sailed e0) eqn:Hs.
    + unfold frozen. rewrite Hk. split; [exact Hs | reflexivity].
    + pose proof (encode_effects_stage_sailed (m_effects c) (set_m_sailed e0 true)) as He.
      destruct (encode_effects_stage env (m_effects c) (set_m_sailed e0 true)) as [e1 stop].
      simpl in He.
      destruct stop.
      * unfold frozen. simpl. split; [exact He | reflexivity].
      * pose proof (encode_codec_stage_sailed e1) as Hc.
        destruct (encode_codec_stage env e1) as [e2 calls]. simpl in Hc.
        unfold frozen. simpl. split; [congruence | reflexivity].
  - unfold frozen. rewrite Hk. reflexivity.
Qed.

Lemma frozen_run_enc_call (r : uhdr_error_info_t) (c : uhdr_codec_private_t) (k : enc_call) :
  frozen r c -> frozen r (fst (run_enc_call env c k)).
Proof.
  destruct c as [effs [e | d]]; unfold frozen; simpl.
  - intros [Hs Hr].
    destruct k; simpl;
      unfold uhdr_enc_set_raw_image, uhdr_enc_set_compressed_image,
        uhdr_enc_set_gainmap_image, uhdr_enc_validate_and_set_compressed_img,
        uhdr_enc_set_quality, uhdr_enc_set_exif_data, uhdr_enc_set_output_format,
        uhdr_enc_set_using_multi_channel_gainmap, uhdr_enc_set_gainmap_scale_factor,
        uhdr_add_effect_mirror, uhdr_add_effect_rotate, uhdr_add_effect_crop,
        uhdr_add_effect_resize, push_effect; simpl; rewrite ?Hs;
      repeat (destruct_goal_match; simpl; rewrite ?Hs); simpl in *;
      try (split; [reflexivity || assumption | assumption]); try congruence.
  - intros Hr.
    destruct k; simpl;
      unfold uhdr_enc_set_raw_image, uhdr_enc_set_compressed_image,
        uhdr_enc_set_gainmap_image, uhdr_enc_validate_and_set_compressed_img,
        uhdr_enc_set_quality, uhdr_enc_set_exif_data, uhdr_enc_set_output_format,
        uhdr_enc_set_using_multi_channel_gainmap, uhdr_enc_set_gainmap_scale_factor,
        uhdr_add_effect_mirror, uhdr_add_effect_rotate, uhdr_add_effect_crop,
        uhdr_add_effect_resize, push_effect; simpl;
      repeat (destruct_goal_match; simpl); simpl in *; try assumption; try congruence.
Qed.

(** C9: attaching a crop or a resize effect to a codec handle always
    succeeds, whatever the integer arguments: the status is [g_no_error],
    the effect is appended to the effect list and nothing else changes. *)
Theorem add_crop_resize_always_succeed :
  forall (c : uhdr_codec_private_t) (left right top bottom width height : Z),
    uhdr_add_effect_crop c left right top bottom =
      ({| m_effects := app (m_effects c) [uhdr_crop_effect left right top bottom];
          m_kind := m_kind c |}, g_no_error) /\
    uhdr_add_effect_resize c width height =
      ({| m_effects := app (m_effects c) [uhdr_resize_effect width height];
          m_kind := m_kind c |}, g_no_error) /\
    error_code g_no_error = UHDR_CODEC_OK.
Proof. intros. repeat split. Qed.

(** C8: the four decoder dimension queries return -1 unless the handle is a
    decoder that has been probed with a stored probe status of OK, and
    [uhdr_get_encoded_stream] returns null unless the handle is an encoder
    that is sealed with a stored encode status of OK. *)
Theorem retrievers_return_sentinels :
  (forall c : uhdr_codec_private_t, ~ dec_can_answer c ->
     uhdr_dec_get_image_width c = -1 /\ uhdr_dec_get_image_height c = -1 /\
     uhdr_dec_get_gainmap_width c = -1 /\ uhdr_dec_get_gainmap_height c = -1) /\
  (forall c : uhdr_codec_private_t, ~ enc_can_answer c -> uhdr_get_encoded_stream c = None).
Proof.
  split.
  - intros c Hn. unfold uhdr_dec_get_image_width, uhdr_dec_get_image_height,
      uhdr_dec_get_gainmap_width, uhdr_dec_get_gainmap_height.
    rewrite !dec_query_sentinel by exact Hn. repeat split.
  - intros c Hn. unfold enc_can_answer in Hn. unfold uhdr_get_encoded_stream.
    destruct (m_kind c) as [e | d]; [| reflexivity].
    destruct (m_sailed e) eqn:Hs; [| reflexivity].
    destruct (err_eqb (error_code (m_encode_call_status e)) UHDR_CODEC_OK) eqn:Ho;
      [| reflexivity].
    exfalso. apply Hn. split; [reflexivity | apply err_eqb_true; exact Ho].
Qed.

(** C2: on the first [uhdr_encode] call of an encoder session holding a
    compressed base image and a compressed gain map, with at least one
    effect attached, the call returns InvalidOperation with the detail
    "image effects are not enabled for inputs with compressed intent"; no
    encode path runs (no [encodeJPEGR] call) and the session is only sealed
    with that status stored. *)
Theorem encode_rejects_effects_on_compressed_inputs :
  forall (c : uhdr_codec_private_t) (e : uhdr_encoder_private),
    m_kind c = Encoder e -> m_sailed e = false ->
    map_mem UHDR_BASE_IMG (m_compressed_images e) = true ->
    map_mem UHDR_GAIN_MAP_IMG (m_compressed_images e) = true ->
    m_effects c <> [] ->
    let '(c', st, calls) := uhdr_encode env c in
    error_code st = UHDR_CODEC_INVALID_OPERATION /\
    str_contains (detail st) "image effects are not enabled" = true /\
    calls = [] /\
    c' = update_encoder c (set_m_encode_call_status (set_m_sailed e true) st).
Proof.
  intros c e Hk Hs Hb Hg He. unfold uhdr_encode. rewrite Hk, Hs.
  unfold encode_effects_stage. simpl m_compressed_images. rewrite Hb, Hg. simpl.
  destruct (m_effects c) as [| it rest]; [congruence |]. simpl.
  repeat split.
Qed.

(** C3: after the first [uhdr_encode] call of a session, whatever
    configuration calls follow, [uhdr_encode] returns the status of the
    first call, leaves the session unchanged and calls no encode path. *)
Theorem encode_idempotent_after_first_call :
  forall (c : uhdr_codec_private_t) (ks : list enc_call),
    let '(c1, r1, _) := uhdr_encode env c in
    uhdr_encode env (run_enc_calls env c1 ks) = (run_enc_calls env c1 ks, r1, []).
Proof.
  intros c ks. pose proof (frozen_after_encode c) as Hf.
  destruct (uhdr_encode env c) as [[c1 r1] calls].
  apply frozen_encode. revert c1 Hf. induction ks as [| k ks IH]; simpl; intros c1 Hf.
  - exact Hf.
  - apply IH. apply frozen_run_enc_call. exact Hf.
Qed.

(** C4: when the output (transfer, pixel format) pair of a decoder is not
    one of (HLG, RGBA1010102), (PQ, RGBA1010102), (LINEAR, RGBA half
    float), (SRGB, RGBA8888), a first [uhdr_decode] call whose probe
    succeeds returns InvalidParam. *)
Theorem decode_rejects_unlisted_output_pair :
  forall (c : uhdr_codec_private_t) (d : uhdr_decoder_private),
    m_kind c = Decoder d -> m_dec_sailed d = false ->
    error_code (snd (uhdr_dec_probe env c)) = UHDR_CODEC_OK ->
    ~ In (m_output_ct d, m_output_fmt d) decode_output_table ->
    error_code (snd (uhdr_decode env c)) = UHDR_CODEC_INVALID_PARAM.
Proof.
  intros c d Hk Hs Hp Hn. unfold uhdr_dec_probe in Hp. rewrite Hk in Hp.
  unfold uhdr_decode. rewrite Hk, Hs.
  pose proof (dec_probe_keeps_output d) as [Hct Hfmt].
  destruct (dec_probe env d) as [d1 pst]. simpl in Hp, Hct, Hfmt |- *.
  rewrite Hp. simpl. rewrite Hct, Hfmt, map_ct_fmt_unlisted by exact Hn.
  reflexivity.
Qed.

(** C10: a first [uhdr_decode] call on a decoder leaves the probe-time
    dimensions alone, whatever its effects do to the decoded buffers: the
    four dimension queries answer on the decoded session exactly as they
    do on the session after [uhdr_dec_probe]. *)
Theorem decode_keeps_probe_dimensions :
  forall (c : uhdr_codec_private_t) (d : uhdr_decoder_private),
    m_kind c = Decoder d -> m_dec_sailed d = false ->
    let c' := fst (uhdr_decode env c) in
    let p := fst (uhdr_dec_probe env c) in
    uhdr_dec_get_image_width c' = uhdr_dec_get_image_width p /\
    uhdr_dec_get_image_height c' = uhdr_dec_get_image_height p /\
    uhdr_dec_get_gainmap_width c' = uhdr_dec_get_gainmap_width p /\
    uhdr_dec_get_gainmap_height c' = uhdr_dec_get_gainmap_height p.
Proof.
  intros c d Hk Hs. unfold uhdr_decode, uhdr_dec_probe. rewrite Hk, Hs.
  destruct (dec_probe env d) as [d1 pst].
  unfold uhdr_dec_get_image_width, uhdr_dec_get_image_height,
    uhdr_dec_get_gainmap_width, uhdr_dec_get_gainmap_height.
  repeat (destruct_goal_match; simpl); repeat split.
Qed.

Ltac destruct_match_in H :=
  match type of H with
  | context [match ?x with _ => _ end] =>
    lazymatch x with context [match _ with _ => _ end] => fail | _ => destruct x eqn:? end
  end.

Lemma Some_inj {A} (a b : A) : Some a = Some b -> a = b.
Proof. congruence. Qed.

Lemma None_Some {A} (b : A) : None = Some b -> False.
Proof. discriminate. Qed.

(** The last step of a check's case analysis, without computing the
    message. *)
Ltac close_check H :=
  first [ exfalso; exact (None_Some _ H)
        | apply Some_inj in H; subst; eexists; reflexivity ].

Lemma raw_image_check_ip (img : uhdr_raw_image_t) (intent : uhdr_img_label_t)
    (s : uhdr_error_info_t) :
  raw_image_check env img intent = Some s -> exists msg, s = mk_error UHDR_CODEC_INVALID_PARAM msg.
Proof.
  intros H. unfold raw_image_check in H. cbv zeta in H.
  repeat (destruct_match_in H; cbv beta iota in H); close_check H.
Qed.

Lemma raw_resolution_check_ip (e : uhdr_encoder_private) (img : uhdr_raw_image_t)
    (intent : uhdr_img_label_t) (s : uhdr_error_info_t) :
  raw_resolution_check e img intent = Some s ->
  exists msg, s = mk_error UHDR_CODEC_INVALID_PARAM msg.
Proof.
  intros H. unfold raw_resolution_check in H. cbv zeta in H.
  repeat (destruct_match_in H; cbv beta iota in H); close_check H.
Qed.

Lemma gainmap_metadata_check_ip (md : option uhdr_gainmap_metadata_t) (s : uhdr_error_info_t) :
  gainmap_metadata_check env md = Some s ->
  exists msg, s = mk_error UHDR_CODEC_INVALID_PARAM msg.
Proof.
  intros H. unfold gainmap_metadata_check in H. cbv zeta in H.
  repeat (destruct_match_in H; cbv beta iota in H); close_check H.
Qed.

Lemma raw_resolution_check_sailed (e : uhdr_encoder_private) (b : bool) :
  raw_resolution_check (set_m_sailed e b) = raw_resolution_check e.
Proof. reflexivity. Qed.

Ltac inv_checks :=
  match goal with
  | H : raw_image_check _ _ _ = Some _ |- _ =>
    destruct (raw_image_check_ip _ _ _ H) as [? ->]; clear H
  | H : raw_resolution_check _ _ _ = Some _ |- _ =>
    destruct (raw_resolution_check_ip _ _ _ _ H) as [? ->]; clear H
  | H : gainmap_metadata_check _ _ = Some _ |- _ =>
    destruct (gainmap_metadata_check_ip _ _ H) as [? ->]; clear H
  end.

(** Float comparisons: for values that are not NaN, a failed C float
    comparison is the reverse strict or non-strict one. *)
Lemma flt_false_fle (a b : cfloat) :
  is_nan a = false -> is_nan b = false -> flt a b = false -> fle b a = true.
Proof.
  destruct a as [qa | | |], b as [qb | | |]; simpl; try discriminate; try reflexivity.
  intros _ _. rewrite <- (Qcompare_antisym qa qb).
  destruct (Qcompare qa qb); simpl; congruence.
Qed.

Lemma fle_false_flt (a b : cfloat) :
  is_nan a = false -> is_nan b = false -> fle a b = false -> flt b a = true.
Proof.
  destruct a as [qa | | |], b as [qb | | |]; simpl; try discriminate; try reflexivity.
  intros _ _. rewrite <- (Qcompare_antisym qa qb).
  destruct (Qcompare qa qb); simpl; congruence.
Qed.

Lemma fle_true_flt (a b : cfloat) : fle a b = true -> flt b a = false.
Proof.
  destruct a as [qa | | |], b as [qb | | |]; simpl; try discriminate; try reflexivity.
  rewrite <- (Qcompare_antisym qa qb).
  destruct (Qcompare qa qb); simpl; congruence.
Qed.

Lemma flt_true_fle (a b : cfloat) : flt a b = true -> fle b a = false.
Proof.
  destruct a as [qa | | |], b as [qb | | |]; simpl; try discriminate; try reflexivity.
  rewrite <- (Qcompare_antisym qa qb).
  destruct (Qcompare qa qb); simpl; congruence.
Qed.

Lemma gainmap_metadata_check_none (m : uhdr_gainmap_metadata_t) :
  metadata_has_nan m = false -> gainmap_metadata_check env (Some m) = None ->
  metadata_within_bounds m.
Proof.
  unfold metadata_has_nan. intros Hn Hc.
  rewrite !orb_false_iff in Hn.
  destruct Hn as [[[[[[N1 N2] N3] N4] N5] N6] N7].
  unfold gainmap_metadata_check in Hc. cbv zeta in Hc.
  destruct (flt (max_content_boost m) (min_content_boost m)) eqn:C1; [discriminate |].
  destruct (fle (gamma m) (CFin 0)) eqn:C2; [discriminate |].
  destruct (flt (offset_sdr m) (CFin 0)) eqn:C3; [discriminate |].
  destruct (flt (offset_hdr m) (CFin 0)) eqn:C4; [discriminate |].
  destruct (flt (hdr_capacity_max m) (hdr_capacity_min m)) eqn:C5; [discriminate |].
  destruct (flt (hdr_capacity_min m) (CFin 1)) eqn:C6; [discriminate |].
  unfold metadata_within_bounds.
  repeat split; first [ apply flt_false_fle | apply fle_false_flt ]; auto.
Qed.

(** C1 (amended): on a sealed encoder session, each setter that consults
    the sealed flag ([uhdr_enc_set_raw_image], [_compressed_image],
    [_gainmap_image], [_quality], [_exif_data], [_output_format]) leaves
    the session unchanged; it returns the argument-validation error
    (InvalidParam or UnsupportedFeature) that the same call returns on the
    unsealed session when there is one, and InvalidOperation otherwise. *)
Theorem sealed_encoder_setters_refuse :
  forall (c : uhdr_codec_private_t) (e : uhdr_encoder_private) (k : enc_call),
    m_kind c = Encoder e -> m_sailed e = true -> checks_sealed k = true ->
    fst (run_enc_call env c k) = c /\
    snd (run_enc_call env c k) =
      (let s := snd (run_enc_call env (unseal c) k) in
       if is_validation_error (error_code s) then s else err_enc_sealed).
Proof.
  intros [effs kd] e k Hk Hs Hc. simpl in Hk. subst kd.
  unfold unseal. simpl m_kind. cbv iota.
  destruct k; try discriminate Hc; simpl;
    unfold uhdr_enc_set_raw_image, uhdr_enc_set_compressed_image,
      uhdr_enc_set_gainmap_image, uhdr_enc_validate_and_set_compressed_img,
      uhdr_enc_set_quality, uhdr_enc_set_exif_data, uhdr_enc_set_output_format,
      update_encoder, with_kind; simpl;
    rewrite ?raw_resolution_check_sailed, ?Hs;
    repeat (first [ inv_checks | destruct_goal_match ]; simpl);
    split; reflexivity.
Qed.

(** C5 (amended): for a metadata record with no NaN field, violating any
    of max_content_boost >= min_content_boost, gamma > 0, offset_sdr >= 0,
    offset_hdr >= 0, hdr_capacity_min >= 1, hdr_capacity_max >=
    hdr_capacity_min makes [uhdr_enc_set_gainmap_image] return InvalidParam
    without touching the session; and with hdr_capacity_min = 0.5 and the
    other four bounds met, the detail mentions "hdr capacity min". *)
Theorem gainmap_metadata_bounds_enforced :
  (forall (c : uhdr_codec_private_t) (img : option uhdr_compressed_image_t)
          (m : uhdr_gainmap_metadata_t),
     metadata_has_nan m = false -> ~ metadata_within_bounds m ->
     fst (uhdr_enc_set_gainmap_image env c img (Some m)) = c /\
     error_code (snd (uhdr_enc_set_gainmap_image env c img (Some m))) =
       UHDR_CODEC_INVALID_PARAM) /\
  (forall (c : uhdr_codec_private_t) (img : option uhdr_compressed_image_t)
          (m : uhdr_gainmap_metadata_t),
     fle (min_content_boost m) (max_content_boost m) = true ->
     flt (CFin 0) (gamma m) = true ->
     fle (CFin 0) (offset_sdr m) = true ->
     fle (CFin 0) (offset_hdr m) = true ->
     hdr_capacity_min m = CFin (1 # 2) ->
     fst (uhdr_enc_set_gainmap_image env c img (Some m)) = c /\
     error_code (snd (uhdr_enc_set_gainmap_image env c img (Some m))) =
       UHDR_CODEC_INVALID_PARAM /\
     str_contains (detail (snd (uhdr_enc_set_gainmap_image env c img (Some m))))
       "hdr capacity min" = true).
Proof.
  split.
  - intros c img m Hn Hv. unfold uhdr_enc_set_gainmap_image.
    destruct (gainmap_metadata_check env (Some m)) eqn:Hc.
    + destruct (gainmap_metadata_check_ip _ _ Hc) as [msg ->]. split; reflexivity.
    + exfalso. apply Hv. apply gainmap_metadata_check_none; assumption.
  - intros c img m H1 H2 H3 H4 H5.
    unfold uhdr_enc_set_gainmap_image, gainmap_metadata_check. cbv zeta.
    rewrite (fle_true_flt _ _ H1), (flt_true_fle _ _ H2), (fle_true_flt _ _ H3),
      (fle_true_flt _ _ H4), H5.
    destruct (flt (hdr_capacity_max m) (CFin (1 # 2))); simpl;
      (split; [reflexivity | split; [reflexivity | reflexivity]]).
Qed.

(** C6: with a 16x16 HDR input, the crop (left 2, right INT_MIN, top 0,
    bottom 16) clamps to right = INT_MIN, whose width right - left is
    negative; the source computes it in [int], where it wraps to
    2147483646, positive and even, so the pipeline reports no error and
    hands that width to [apply_crop]. *)
Theorem crop_width_overflow_passes_check :
  Z.min (ri_w ex_p010) INT_MIN - Z.max 0 2 < 0 /\
  apply_effects_enc env [uhdr_crop_effect 2 INT_MIN 0 16] [(UHDR_HDR_IMG, Some ex_p010)] =
    ([(UHDR_HDR_IMG, Some (apply_crop env ex_p010 2 0 2147483646 16))], g_no_error).
Proof. split; reflexivity. Qed.

(** C7: a resize to (-2, 16) passes the destination check of the encoder
    pipeline (it only rejects zero and odd values), so the resize is
    attempted and the status is never InvalidParam. *)
Theorem resize_negative_width_passes_check :
  apply_effects_enc env [uhdr_resize_effect (-2) 16] [(UHDR_HDR_IMG, Some ex_p010)] =
    match apply_resize env ex_p010 (-2) 16 with
    | Some r => ([(UHDR_HDR_IMG, Some r)], g_no_error)
    | None => ([(UHDR_HDR_IMG, Some ex_p010)],
               unknown_effect_error env (uhdr_resize_effect (-2) 16))
    end /\
  error_code (snd (apply_effects_enc env [uhdr_resize_effect (-2) 16]
                     [(UHDR_HDR_IMG, Some ex_p010)])) <> UHDR_CODEC_INVALID_PARAM.
Proof.
  unfold apply_effects_enc, apply_effects_enc_loop, apply_effect_enc. simpl.
  destruct (apply_resize env ex_p010 (-2) 16); simpl; split; try reflexivity; discriminate.
Qed.


(** ** Further properties of the session layer *)

Lemma label_eqb_true (a b : uhdr_img_label_t) : label_eqb a b = true -> a = b.
Proof.
  destruct a, b; simpl; try discriminate; try reflexivity.
  intros H. apply Z.eqb_eq in H. subst. reflexivity.
Qed.

Lemma label_eqb_refl (a : uhdr_img_label_t) : label_eqb a a = true.
Proof. destruct a; simpl; try reflexivity. apply Z.eqb_refl. Qed.

Lemma label_eqb_false (a b : uhdr_img_label_t) : a <> b -> label_eqb a b = false.
Proof.
  intros H. destruct (label_eqb a b) eqn:E; [| reflexivity].
  exfalso. apply H. apply label_eqb_true. exact E.
Qed.

Lemma map_find_insert_same {V} (k : uhdr_img_label_t) (v : V) m :
  map_find k (insert_or_assign k v m) = Some v.
Proof.
  induction m as [| [k' v'] t IH]; simpl.
  - rewrite label_eqb_refl. reflexivity.
  - destruct (label_eqb k k') eqn:E; simpl.
    + rewrite label_eqb_refl. reflexivity.
    + rewrite E. exact IH.
Qed.

Lemma map_find_insert_other {V} (k l : uhdr_img_label_t) (v : V) m :
  l <> k -> map_find l (insert_or_assign k v m) = map_find l m.
Proof.
  intros Hne. induction m as [| [k' v'] t IH]; simpl.
  - rewrite (label_eqb_false l k Hne). reflexivity.
  - destruct (label_eqb k k') eqn:E; simpl.
    + apply label_eqb_true in E. subst k'.
      rewrite (label_eqb_false l k Hne). reflexivity.
    + destruct (label_eqb l k'); [reflexivity | exact IH].
Qed.

Lemma four_intents (l : uhdr_img_label_t) :
  (label_eqb l UHDR_HDR_IMG || label_eqb l UHDR_SDR_IMG ||
   label_eqb l UHDR_BASE_IMG || label_eqb l UHDR_GAIN_MAP_IMG) = true <->
  In l [UHDR_HDR_IMG; UHDR_SDR_IMG; UHDR_BASE_IMG; UHDR_GAIN_MAP_IMG].
Proof.
  destruct l; simpl; split; try tauto; try reflexivity.
  - discriminate.
  - intros [H | [H | [H | [H | []]]]]; discriminate.
Qed.

(** [uhdr_enc_set_quality] on an encoder that is not sealed: a quality in
    [0, 100] for one of the four intents is stored for that intent and the
    qualities of the other intents are kept; a quality out of range or any
    other intent gives InvalidParam and leaves the session unchanged. *)
Theorem enc_set_quality_stores_for_intent :
  forall (c : uhdr_codec_private_t) (e : uhdr_encoder_private) (q : Z)
         (intent : uhdr_img_label_t),
    m_kind c = Encoder e -> m_sailed e = false ->
    (0 <= q <= 100 ->
     In intent [UHDR_HDR_IMG; UHDR_SDR_IMG; UHDR_BASE_IMG; UHDR_GAIN_MAP_IMG] ->
     snd (uhdr_enc_set_quality c q intent) = g_no_error /\
     exists e', m_kind (fst (uhdr_enc_set_quality c q intent)) = Encoder e' /\
                quality_of e' intent = q /\
                (forall l, l <> intent -> quality_of e' l = quality_of e l)) /\
    (q < 0 \/ 100 < q \/
     ~ In intent [UHDR_HDR_IMG; UHDR_SDR_IMG; UHDR_BASE_IMG; UHDR_GAIN_MAP_IMG] ->
     fst (uhdr_enc_set_quality c q intent) = c /\
     error_code (snd (uhdr_enc_set_quality c q intent)) = UHDR_CODEC_INVALID_PARAM).
Proof.
  intros c e q intent Hk Hs. unfold uhdr_enc_set_quality. rewrite Hk. split.
  - intros Hq Hi.
    assert (Hr : (Z.ltb q 0 || Z.ltb 100 q) = false).
    { apply orb_false_iff. split; apply Z.ltb_ge; lia. }
    rewrite Hr. apply four_intents in Hi. rewrite Hi, Hs. simpl.
    split; [reflexivity |].
    eexists. split; [reflexivity |]. unfold quality_of. simpl. split.
    + rewrite map_find_insert_same. reflexivity.
    + intros l Hl. rewrite map_find_insert_other by exact Hl. reflexivity.
  - intros Hbad.
    destruct (Z.ltb q 0 || Z.ltb 100 q) eqn:Hr; [split; reflexivity |].
    apply orb_false_iff in Hr. destruct Hr as [H1 H2].
    apply Z.ltb_ge in H1. apply Z.ltb_ge in H2.
    destruct (label_eqb intent UHDR_HDR_IMG || label_eqb intent UHDR_SDR_IMG ||
              label_eqb intent UHDR_BASE_IMG || label_eqb intent UHDR_GAIN_MAP_IMG) eqn:Hl;
      simpl; [| split; reflexivity].
    exfalso. apply four_intents in Hl. destruct Hbad as [H | [H | H]]; [lia | lia | tauto].
Qed.

(** [uhdr_enc_set_compressed_image] on an encoder that is not sealed, with
    a non-null buffer whose data_sz does not exceed its capacity: whatever
    the intent (the source's intent check does not reach the caller), the
    session stores under that intent a copy of the first data_sz bytes
    whose capacity is data_sz, keeps the entries of the other intents and
    the raw images, and returns success. *)
Theorem enc_set_compressed_image_stores_trimmed_copy :
  forall (c : uhdr_codec_private_t) (e : uhdr_encoder_private)
         (img : uhdr_compressed_image_t) (bytes : list Z) (intent : uhdr_img_label_t),
    m_kind c = Encoder e -> m_sailed e = false ->
    ci_data img = Some bytes -> ci_data_sz img <= ci_capacity img ->
    snd (uhdr_enc_set_compressed_image c (Some img) intent) = g_no_error /\
    exists e', m_kind (fst (uhdr_enc_set_compressed_image c (Some img) intent)) = Encoder e' /\
      map_find intent (m_compressed_images e') =
        Some {| ci_data := Some (firstn (Z.to_nat (ci_data_sz img)) bytes);
                ci_data_sz := ci_data_sz img; ci_capacity := ci_data_sz img;
                ci_cg := ci_cg img; ci_ct := ci_ct img; ci_range := ci_range img |} /\
      (forall l, l <> intent -> map_find l (m_compressed_images e') =
                                map_find l (m_compressed_images e)) /\
      m_raw_images e' = m_raw_images e /\
      m_effects (fst (uhdr_enc_set_compressed_image c (Some img) intent)) = m_effects c.
Proof.
  intros c e img bytes intent Hk Hs Hd Hsz.
  unfold uhdr_enc_set_compressed_image, uhdr_enc_validate_and_set_compressed_img.
  rewrite Hk, Hd. assert (Hc : Z.ltb (ci_capacity img) (ci_data_sz img) = false)
    by (apply Z.ltb_ge; lia).
  rewrite Hc, Hs. simpl. split; [reflexivity |].
  eexists. split; [reflexivity |]. simpl. split; [| split; [| split]].
  - apply map_find_insert_same.
  - intros l Hl. apply map_find_insert_other. exact Hl.
  - reflexivity.
  - reflexivity.
Qed.

(** [uhdr_enc_set_raw_image] with an HDR or SDR image that passes the
    argument checks, while the other of the two intents already holds an
    image of a different width or height: InvalidParam, and the session is
    unchanged, sealed or not. *)
Theorem enc_set_raw_image_rejects_resolution_mismatch :
  forall (c : uhdr_codec_private_t) (e : uhdr_encoder_private)
         (img other : uhdr_raw_image_t) (intent other_intent : uhdr_img_label_t),
    m_kind c = Encoder e ->
    (intent = UHDR_HDR_IMG /\ other_intent = UHDR_SDR_IMG \/
     intent = UHDR_SDR_IMG /\ other_intent = UHDR_HDR_IMG) ->
    map_find other_intent (m_raw_images e) = Some (Some other) ->
    raw_image_check env img intent = None ->
    (ri_w img <> ri_w other \/ ri_h img <> ri_h other) ->
    fst (uhdr_enc_set_raw_image env c (Some img) intent) = c /\
    error_code (snd (uhdr_enc_set_raw_image env c (Some img) intent)) =
      UHDR_CODEC_INVALID_PARAM.
Proof.
  intros c e img other intent oi Hk Hi Hf Hchk Hne.
  assert (Hm : (negb (Z.eqb (ri_w img) (ri_w other)) ||
                negb (Z.eqb (ri_h img) (ri_h other))) = true).
  { destruct Hne as [H | H]; apply Z.eqb_neq in H; rewrite H; simpl;
      [reflexivity | apply orb_true_r]. }
  unfold uhdr_enc_set_raw_image. rewrite Hk, Hchk.
  unfold raw_resolution_check. cbv zeta.
  destruct Hi as [[-> ->] | [-> ->]]; simpl; rewrite Hf, Hm; simpl; split; reflexivity.
Qed.

(** [map_internal_error_status_to_error_info] reports success exactly for
    [JPEGR_NO_ERROR]: every failing status of the codec becomes an error,
    whatever status was stored before. *)
Theorem map_internal_error_status_ok_iff :
  forall (s : status_t) (prev : uhdr_error_info_t),
    error_code (map_internal_error_status_to_error_info s prev) = UHDR_CODEC_OK <->
    s = JPEGR_NO_ERROR.
Proof. intros s prev. destruct s; simpl; split; congruence. Qed.

(** The gamut mappings: translating an internal gamut to the API and back
    is the identity; translating an API gamut to the internal one and back
    is the identity on BT.709, Display-P3 and BT.2100 and yields
    UNSPECIFIED for every other value. *)
Theorem color_gamut_mappings_round_trip :
  (forall cg : ultrahdr_color_gamut, map_cg_to_internal_cg (map_internal_cg_to_cg cg) = cg) /\
  (forall cg : uhdr_color_gamut_t,
     In cg [UHDR_CG_BT_709; UHDR_CG_DISPLAY_P3; UHDR_CG_BT_2100] ->
     map_internal_cg_to_cg (map_cg_to_internal_cg cg) = cg) /\
  (forall cg : uhdr_color_gamut_t,
     ~ In cg [UHDR_CG_BT_709; UHDR_CG_DISPLAY_P3; UHDR_CG_BT_2100] ->
     map_internal_cg_to_cg (map_cg_to_internal_cg cg) = UHDR_CG_UNSPECIFIED).
Proof.
  split; [| split].
  - intros cg. destruct cg; reflexivity.
  - intros cg [H | [H | [H | []]]]; subst; reflexivity.
  - intros cg Hn. destruct cg; simpl in *; try reflexivity; exfalso; tauto.
Qed.

(** [uhdr_reset_encoder] on any encoder session, sealed or not: the
    session is configurable again with no effect, no image and no encoded
    stream, and a [uhdr_encode] that follows makes no codec call and
    returns InvalidOperation for missing resources. *)
Theorem reset_encoder_reopens_session :
  forall (c : uhdr_codec_private_t) (e : uhdr_encoder_private),
    m_kind c = Encoder e ->
    let r := uhdr_reset_encoder env c in
    m_effects r = [] /\ uhdr_get_encoded_stream r = None /\
    (exists e', m_kind r = Encoder e' /\ m_sailed e' = false /\
                m_raw_images e' = [] /\ m_compressed_images e' = []) /\
    error_code (snd (fst (uhdr_encode env r))) = UHDR_CODEC_INVALID_OPERATION /\
    detail (snd (fst (uhdr_encode env r))) =
      "resources required for uhdr_encode() operation are not present" /\
    snd (uhdr_encode env r) = [] /\
    uhdr_get_encoded_stream (fst (fst (uhdr_encode env r))) = None.
Proof.
  intros c e Hk. unfold uhdr_reset_encoder. rewrite Hk. cbv zeta.
  split; [reflexivity |]. split; [reflexivity |].
  split; [eexists; repeat split |].
  repeat split.
Qed.

Lemma dec_probe_result (d : uhdr_decoder_private) :
  m_probed (fst (dec_probe env d)) = true /\
  m_probe_call_status (fst (dec_probe env d)) = snd (dec_probe env d) /\
  m_dec_sailed (fst (dec_probe env d)) = m_dec_sailed d.
Proof.
  unfold dec_probe. destruct (m_probed d) eqn:Hp; [repeat split; assumption |].
  simpl. destruct (m_uhdr_compressed_img d) as [img |]; [| repeat split].
  destruct (getJPEGRInfo env img) as [[ist pri] gm].
  destruct (negb _); [repeat split |].
  destruct (getMetadataFromXMP env (xmpData gm)); repeat split.
Qed.

(** [uhdr_dec_probe] runs once: probing a handle a second time returns the
    status of the first probe and leaves the handle as the first probe
    left it. *)
Theorem dec_probe_idempotent :
  forall c : uhdr_codec_private_t,
    uhdr_dec_probe env (fst (uhdr_dec_probe env c)) = uhdr_dec_probe env c.
Proof.
  intros [effs [e | d]]; [reflexivity |].
  unfold uhdr_dec_probe. simpl.
  pose proof (dec_probe_result d) as [Hp [Hs _]].
  destruct (dec_probe env d) as [d' st]. simpl in *.
  unfold dec_probe at 1. rewrite Hp, Hs. reflexivity.
Qed.

(** Once [uhdr_dec_probe] has run on a decoder, the four configuration
    setters ([uhdr_dec_set_image], [_out_img_format],
    [_out_color_transfer], [_out_max_display_boost]) leave the handle
    unchanged, and for an argument they would accept they return the
    InvalidOperation "no longer configurable" status. *)
Theorem decoder_configuration_locked_after_probe :
  forall (c : uhdr_codec_private_t) (d : uhdr_decoder_private),
    m_kind c = Decoder d ->
    let p := fst (uhdr_dec_probe env c) in
    (forall img, fst (uhdr_dec_set_image p img) = p) /\
    (forall img bytes, ci_data img = Some bytes -> ci_data_sz img <= ci_capacity img ->
       snd (uhdr_dec_set_image p (Some img)) = err_dec_sealed) /\
    (forall fmt, fst (uhdr_dec_set_out_img_format p fmt) = p) /\
    (forall fmt, In fmt [UHDR_IMG_FMT_32bppRGBA8888; UHDR_IMG_FMT_64bppRGBAHalfFloat;
                         UHDR_IMG_FMT_32bppRGBA1010102] ->
       snd (uhdr_dec_set_out_img_format p fmt) = err_dec_sealed) /\
    (forall ct, fst (uhdr_dec_set_out_color_transfer p ct) = p) /\
    (forall ct, In ct [UHDR_CT_HLG; UHDR_CT_PQ; UHDR_CT_LINEAR; UHDR_CT_SRGB] ->
       snd (uhdr_dec_set_out_color_transfer p ct) = err_dec_sealed) /\
    (forall b, fst (uhdr_dec_set_out_max_display_boost env p b) = p) /\
    (forall b, fle (CFin 1) b = true ->
       snd (uhdr_dec_set_out_max_display_boost env p b) = err_dec_sealed).
Proof.
  intros c d Hk. cbv zeta. unfold uhdr_dec_probe. rewrite Hk.
  pose proof (dec_probe_result d) as [Hp _].
  destruct (dec_probe env d) as [d' st]. simpl in Hp.
  unfold uhdr_dec_set_image, uhdr_dec_set_out_img_format, uhdr_dec_set_out_color_transfer,
    uhdr_dec_set_out_max_display_boost, update_decoder, with_kind. simpl. rewrite Hp.
  split; [| split; [| split; [| split; [| split; [| split; [| split]]]]]].
  - intros [img |]; [| reflexivity].
    destruct (ci_data img); [| reflexivity].
    destruct (Z.ltb _ _); reflexivity.
  - intros img bytes Hd Hsz. rewrite Hd.
    assert (Hc : Z.ltb (ci_capacity img) (ci_data_sz img) = false) by (apply Z.ltb_ge; lia).
    rewrite Hc. reflexivity.
  - intros fmt. destruct (negb _); reflexivity.
  - intros fmt [H | [H | [H | []]]]; subst; reflexivity.
  - intros ct. destruct (negb _); reflexivity.
  - intros ct [H | [H | [H | [H | []]]]]; subst; reflexivity.
  - intros b. destruct (flt b (CFin 1)); reflexivity.
  - intros b Hb. assert (Hf : flt b (CFin 1) = false) by (apply fle_true_flt; exact Hb).
    simpl in Hf. rewrite Hf. reflexivity.
Qed.

Lemma dec_probe_keeps_input (d : uhdr_decoder_private) :
  m_uhdr_compressed_img (fst (dec_probe env d)) = m_uhdr_compressed_img d.
Proof.
  unfold dec_probe. destruct (m_probed d); [reflexivity |].
  simpl. repeat (destruct_goal_match; simpl); congruence.
Qed.

(** A successful first probe of a decoder holding an input: the status is
    success, the four dimension queries answer the primary and gain-map
    dimensions read by [getJPEGRInfo], the EXIF and ICC blocks hold the
    primary image's EXIF and ICC bytes, and the gain-map metadata is the
    one parsed from the gain map's XMP. *)
Theorem probe_reports_parsed_stream_info :
  forall (c : uhdr_codec_private_t) (d : uhdr_decoder_private)
         (img : uhdr_compressed_image_t) (pri gm : jpeg_info_struct)
         (md : ultrahdr_metadata_struct),
    m_kind c = Decoder d -> m_probed d = false -> m_uhdr_compressed_img d = Some img ->
    getJPEGRInfo env img = (JPEGR_NO_ERROR, pri, gm) ->
    getMetadataFromXMP env (xmpData gm) = Some md ->
    let p := fst (uhdr_dec_probe env c) in
    snd (uhdr_dec_probe env c) = g_no_error /\
    uhdr_dec_get_image_width p = ji_width pri /\
    uhdr_dec_get_image_height p = ji_height pri /\
    uhdr_dec_get_gainmap_width p = ji_width gm /\
    uhdr_dec_get_gainmap_height p = ji_height gm /\
    uhdr_dec_get_exif p = Some (mem_block_of (exifData pri)) /\
    uhdr_dec_get_icc p = Some (mem_block_of (iccData pri)) /\
    uhdr_dec_get_gain_map_metadata p =
      Some {| max_content_boost := maxContentBoost md; min_content_boost := minContentBoost md;
              gamma := gammaM md; offset_sdr := offsetSdr md; offset_hdr := offsetHdr md;
              hdr_capacity_min := hdrCapacityMin md;
              hdr_capacity_max := hdrCapacityMax md |}.
Proof.
  intros c d img pri gm md Hk Hp Hi Hj Hx. cbv zeta.
  unfold uhdr_dec_probe, dec_probe. rewrite Hk, Hp. simpl. rewrite Hi, Hj. simpl.
  rewrite Hx. repeat split.
Qed.

(** Whenever [uhdr_dec_probe] returns an error, none of the seven
    retrievers of the probed handle answers: the four dimension queries
    return -1 and [uhdr_dec_get_exif], [uhdr_dec_get_icc] and
    [uhdr_dec_get_gain_map_metadata] return null. *)
Theorem failed_probe_hides_stream_info :
  forall c : uhdr_codec_private_t,
    error_code (snd (uhdr_dec_probe env c)) <> UHDR_CODEC_OK ->
    let p := fst (uhdr_dec_probe env c) in
    uhdr_dec_get_image_width p = -1 /\ uhdr_dec_get_image_height p = -1 /\
    uhdr_dec_get_gainmap_width p = -1 /\ uhdr_dec_get_gainmap_height p = -1 /\
    uhdr_dec_get_exif p = None /\ uhdr_dec_get_icc p = None /\
    uhdr_dec_get_gain_map_metadata p = None.
Proof.
  intros [effs [e | d]] Hn; cbv zeta; unfold uhdr_dec_probe in *; simpl in *;
    [repeat split |].
  pose proof (dec_probe_result d) as [Hp [Hs _]].
  destruct (dec_probe env d) as [d' st]. simpl in *.
  unfold uhdr_dec_get_image_width, uhdr_dec_get_image_height, uhdr_dec_get_gainmap_width,
    uhdr_dec_get_gainmap_height, dec_query, uhdr_dec_get_exif, uhdr_dec_get_icc,
    uhdr_dec_get_gain_map_metadata. simpl. rewrite Hp, Hs.
  destruct (err_eqb (error_code st) UHDR_CODEC_OK) eqn:E.
  - exfalso. apply Hn. apply err_eqb_true. exact E.
  - repeat split.
Qed.

Lemma frozen_decode (r : uhdr_error_info_t) (c : uhdr_codec_private_t) :
  dec_frozen r c -> uhdr_decode env c = (c, r).
Proof.
  destruct c as [effs [e | d]]; unfold dec_frozen, uhdr_decode; simpl.
  - intros ->. reflexivity.
  - intros [[Hs Hr] | [Hs [Hp [Hps [Hds Hne]]]]].
    + rewrite Hs, Hr. reflexivity.
    + rewrite Hs. unfold dec_probe. rewrite Hp, Hps.
      destruct (err_eqb (error_code r) UHDR_CODEC_OK) eqn:E.
      * exfalso. apply Hne. apply err_eqb_true. exact E.
      * simpl. destruct d; simpl in *; subst; reflexivity.
Qed.

Lemma frozen_after_decode (c : uhdr_codec_private_t) :
  let (c1, r1) := uhdr_decode env c in dec_frozen r1 c1.
Proof.
  destruct c as [effs [e | d]]; unfold uhdr_decode; simpl; [reflexivity |].
  destruct (m_dec_sailed d) eqn:Hs.
  - unfold dec_frozen. simpl. left. split; [exact Hs | reflexivity].
  - pose proof (dec_probe_result d) as [Hp [Hst Hsl]].
    destruct (dec_probe env d) as [d1 pst]. simpl in *.
    destruct (err_eqb (error_code pst) UHDR_CODEC_OK) eqn:E; simpl.
    + repeat (destruct_goal_match; simpl);
        unfold dec_frozen; simpl; left; split; reflexivity.
    + unfold dec_frozen. simpl. right.
      split; [congruence |]. split; [exact Hp |]. split; [exact Hst |].
      split; [reflexivity |].
      intros H. rewrite H in E. discriminate.
Qed.

(** [uhdr_decode] decodes once: calling it again returns the status of the
    first call and leaves the handle as the first call left it, also when
    the first call failed in the probe. *)
Theorem decode_idempotent :
  forall c : uhdr_codec_private_t,
    uhdr_decode env (fst (uhdr_decode env c)) = uhdr_decode env c.
Proof.
  intros c. pose proof (frozen_after_decode c) as H.
  destruct (uhdr_decode env c) as [c1 r1]. apply frozen_decode. exact H.
Qed.

(** Whenever [uhdr_decode] returns an error, [uhdr_get_decoded_image] and
    [uhdr_get_gain_map_image] return null on the resulting handle. *)
Theorem failed_decode_exposes_no_image :
  forall c : uhdr_codec_private_t,
    error_code (snd (uhdr_decode env c)) <> UHDR_CODEC_OK ->
    uhdr_get_decoded_image (fst (uhdr_decode env c)) = None /\
    uhdr_get_gain_map_image (fst (uhdr_decode env c)) = None.
Proof.
  intros c Hn. pose proof (frozen_after_decode c) as H.
  destruct (uhdr_decode env c) as [c1 r1]. simpl in *.
  unfold dec_frozen, uhdr_get_decoded_image, uhdr_get_gain_map_image in *.
  destruct (m_kind c1) as [e | d]; [split; reflexivity |].
  assert (E : err_eqb (error_code r1) UHDR_CODEC_OK = false).
  { destruct (err_eqb (error_code r1) UHDR_CODEC_OK) eqn:E; [| reflexivity].
    exfalso. apply Hn. apply err_eqb_true. exact E. }
  destruct H as [[Hs Hr] | [Hs _]]; rewrite Hs; simpl; [rewrite Hr, E |]; split; reflexivity.
Qed.

(** [uhdr_reset_decoder] on any decoder session: no effect is left, the
    retrievers do not answer, and a following [uhdr_dec_probe] or
    [uhdr_decode] returns InvalidOperation "did not receive any image for
    decoding" and yields no decoded image. *)
Theorem reset_decoder_forgets_input :
  forall (c : uhdr_codec_private_t) (d : uhdr_decoder_private),
    m_kind c = Decoder d ->
    let r := uhdr_reset_decoder c in
    m_effects r = [] /\ uhdr_dec_get_image_width r = -1 /\ uhdr_dec_get_exif r = None /\
    uhdr_get_decoded_image r = None /\
    error_code (snd (uhdr_dec_probe env r)) = UHDR_CODEC_INVALID_OPERATION /\
    error_code (snd (uhdr_decode env r)) = UHDR_CODEC_INVALID_OPERATION /\
    detail (snd (uhdr_decode env r)) = "did not receive any image for decoding" /\
    uhdr_get_decoded_image (fst (uhdr_decode env r)) = None.
Proof.
  intros c d Hk. unfold uhdr_reset_decoder. rewrite Hk. cbv zeta. repeat split.
Qed.

(** A [uhdr_decode] that succeeds on an unsealed decoder with no effect
    exposes a decoded image and a gain-map image: the decoded image has
    the dimensions the probe reports, the requested output format and
    transfer; the gain-map image has the probed gain-map dimensions and
    the 8bpp single-plane format. *)
Theorem decode_allocates_output_buffers :
  forall (c : uhdr_codec_private_t) (d : uhdr_decoder_private),
    m_kind c = Decoder d -> m_dec_sailed d = false -> m_effects c = [] ->
    m_uhdr_compressed_img d <> None ->
    error_code (snd (uhdr_decode env c)) = UHDR_CODEC_OK ->
    let c' := fst (uhdr_decode env c) in
    let p := fst (uhdr_dec_probe env c) in
    exists disp gmb,
      uhdr_get_decoded_image c' = Some disp /\ uhdr_get_gain_map_image c' = Some gmb /\
      ri_w disp = uhdr_dec_get_image_width p /\ ri_h disp = uhdr_dec_get_image_height p /\
      ri_fmt disp = m_output_fmt d /\ ri_ct disp = m_output_ct d /\
      ri_w gmb = uhdr_dec_get_gainmap_width p /\ ri_h gmb = uhdr_dec_get_gainmap_height p /\
      ri_fmt gmb = UHDR_IMG_FMT_8bppYCbCr400.
Proof.
  intros c d Hk Hs Hfx Hin Hok. cbv zeta.
  unfold uhdr_decode, uhdr_dec_probe in *. rewrite Hk, Hs, Hfx in *.
  pose proof (dec_probe_result d) as [Hp [Hst _]].
  pose proof (dec_probe_keeps_output d) as [Hct Hfmt].
  pose proof (dec_probe_keeps_input d) as Hi.
  destruct (dec_probe env d) as [d1 pst]. simpl in *.
  unfold uhdr_dec_get_image_width, uhdr_dec_get_image_height, uhdr_dec_get_gainmap_width,
    uhdr_dec_get_gainmap_height, dec_query. simpl. rewrite Hp, Hst.
  destruct (err_eqb (error_code pst) UHDR_CODEC_OK) eqn:E; simpl in *;
    [| rewrite Hok in E; discriminate].
  destruct (map_ct_fmt_to_internal_output_fmt (m_output_ct d1) (m_output_fmt d1));
    simpl in *; try discriminate;
  (destruct (m_uhdr_compressed_img d1) as [img |]; [| congruence]);
  (destruct (decodeJPEGR env img (m_output_max_disp_boost d1) _) as [ist cg]);
  (destruct (err_eqb (error_code (map_internal_error_status_to_error_info ist pst))
              UHDR_CODEC_OK) eqn:E2);
  simpl in Hok; try (rewrite Hok in E2; discriminate);
  unfold uhdr_get_decoded_image, uhdr_get_gain_map_image; simpl; rewrite E2; simpl;
  (eexists; eexists; repeat split; simpl; unfold uhdr_raw_image_ext;
   destruct (m_output_fmt d1) eqn:Hf; simpl; congruence).
Qed.

(** In the decoder's effect pipeline, a crop whose clamped right edge is
    not past its clamped left edge stops the pipeline: InvalidParam is
    returned, both buffers are left as they were and the effects after it
    are not applied. *)
Theorem decode_crop_empty_width_stops_pipeline :
  forall (dsp g : uhdr_raw_image_t) (l r t b : Z) (rest : list uhdr_effect_desc_t),
    Z.min (ri_w dsp) r <= Z.max 0 l ->
    apply_effects_dec env (uhdr_crop_effect l r t b :: rest) (Some dsp) (Some g) =
      (Some dsp, Some g,
       dec_crop_error "crop right is <= crop left, after crop image width is "
         (wrap32 (Z.min (ri_w dsp) r - Z.max 0 l))) /\
    error_code (snd (apply_effects_dec env (uhdr_crop_effect l r t b :: rest)
                       (Some dsp) (Some g))) = UHDR_CODEC_INVALID_PARAM.
Proof.
  intros dsp g l r t b rest H. simpl.
  assert (Hl : Z.leb (Z.min (ri_w dsp) r) (Z.max 0 l) = true) by (apply Z.leb_le; exact H).
  rewrite Hl. split; reflexivity.
Qed.

(** [is_uhdr_image]: a null buffer is never an UltraHDR image; for a
    buffer of [size] bytes (0 <= size <= INT_MAX) the answer is 1 exactly
    when [getJPEGRInfo] succeeds on the first [size] bytes and the gain
    map's XMP parses as metadata, and 0 otherwise. *)
Theorem is_uhdr_image_probes_buffer :
  (forall size : Z, is_uhdr_image env None size = 0) /\
  (forall (bytes : list Z) (size : Z),
     0 <= size <= INT_MAX ->
     is_uhdr_image env (Some bytes) size =
       (let img := {| ci_data := Some (firstn (Z.to_nat size) bytes); ci_data_sz := size;
                      ci_capacity := size; ci_cg := UHDR_CG_UNSPECIFIED;
                      ci_ct := UHDR_CT_UNSPECIFIED; ci_range := UHDR_CR_UNSPECIFIED |} in
        match getJPEGRInfo env img with
        | (JPEGR_NO_ERROR, _, gm) =>
          match getMetadataFromXMP env (xmpData gm) with Some _ => 1 | None => 0 end
        | _ => 0
        end)).
Proof.
  split; [intros size; reflexivity |].
  intros bytes size Hsz. unfold is_uhdr_image, wrapu64.
  rewrite Z.mod_small by (unfold INT_MAX in Hsz; lia).
  unfold uhdr_dec_set_image. simpl. rewrite Z.ltb_irrefl. simpl.
  unfold uhdr_dec_probe, dec_probe. simpl.
  destruct (getJPEGRInfo env _) as [[ist pri] gm].
  destruct ist; simpl; try reflexivity.
  destruct (getMetadataFromXMP env (xmpData gm)); reflexivity.
Qed.

(** On the first [uhdr_encode] call of a session holding a raw HDR image
    and a compressed SDR image (the shapes routed to the "api - 2" and
    "api - 3" paths), any attached effect makes the call return
    InvalidOperation "image effects are not enabled for inputs with
    compressed intent" without calling the codec; the session is only
    sealed with that status stored. *)
Theorem encode_rejects_effects_with_compressed_sdr :
  forall (c : uhdr_codec_private_t) (e : uhdr_encoder_private),
    m_kind c = Encoder e -> m_sailed e = false -> m_effects c <> [] ->
    map_mem UHDR_HDR_IMG (m_raw_images e) = true ->
    map_mem UHDR_SDR_IMG (m_compressed_images e) = true ->
    uhdr_encode env c =
      (update_encoder c (set_m_encode_call_status (set_m_sailed e true) err_effects_not_enabled),
       err_effects_not_enabled, []).
Proof.
  intros c e Hk Hs Hfx Hh Hsdr. unfold uhdr_encode. rewrite Hk, Hs.
  unfold encode_effects_stage. simpl m_compressed_images. simpl m_raw_images.
  rewrite Hh, Hsdr.
  destruct (m_effects c) as [| it rest]; [congruence |]. simpl.
  destruct (map_mem UHDR_BASE_IMG (m_compressed_images e) &&
            map_mem UHDR_GAIN_MAP_IMG (m_compressed_images e)); [reflexivity |].
  destruct (map_mem UHDR_SDR_IMG (m_raw_images e)); reflexivity.
Qed.

(** The "api - 4" path carries the gain-map metadata: on an unsealed JPEG
    session with no effect and a compressed base image, a successful
    [uhdr_enc_set_gainmap_image] followed by [uhdr_encode] makes exactly
    one codec call, with the stored base image, a gain map of the given
    data size, and the seven metadata fields that were set under the
    library's version string. *)
Theorem encode_api4_carries_gainmap_metadata :
  forall (c : uhdr_codec_private_t) (e : uhdr_encoder_private)
         (img base : uhdr_compressed_image_t) (m : uhdr_gainmap_metadata_t),
    m_kind c = Encoder e -> m_sailed e = false -> m_effects c = [] ->
    m_output_format e = UHDR_CODEC_JPG ->
    map_find UHDR_BASE_IMG (m_compressed_images e) = Some base ->
    snd (uhdr_enc_set_gainmap_image env c (Some img) (Some m)) = g_no_error ->
    exists gm,
      ci_data_sz gm = ci_data_sz img /\
      snd (uhdr_encode env (fst (uhdr_enc_set_gainmap_image env c (Some img) (Some m)))) =
        [encodeJPEGR_api4 base gm
           {| version := kJpegrVersion env; maxContentBoost := max_content_boost m;
              minContentBoost := min_content_boost m; gammaM := gamma m;
              offsetSdr := offset_sdr m; offsetHdr := offset_hdr m;
              hdrCapacityMin := hdr_capacity_min m; hdrCapacityMax := hdr_capacity_max m |}].
Proof.
  intros c e img base m Hk Hs Hfx Hf Hb Hok.
  unfold uhdr_enc_set_gainmap_image in *.
  destruct (gainmap_metadata_check env (Some m)) eqn:Hc.
  { destruct (gainmap_metadata_check_ip _ _ Hc) as [msg ->].
    apply (f_equal error_code) in Hok. discriminate. }
  unfold uhdr_enc_validate_and_set_compressed_img in *. rewrite Hk in *.
  destruct (ci_data img) as [bytes |] eqn:Hd;
    [| apply (f_equal error_code) in Hok; discriminate].
  destruct (Z.ltb (ci_capacity img) (ci_data_sz img));
    [apply (f_equal error_code) in Hok; discriminate |].
  rewrite Hs in *. simpl.
  eexists. split; [| unfold uhdr_encode; simpl; rewrite Hs, Hfx; simpl].
  2:{ unfold encode_effects_stage, map_mem. simpl.
      rewrite (map_find_insert_other UHDR_GAIN_MAP_IMG UHDR_BASE_IMG) by discriminate.
      rewrite Hb, map_find_insert_same. simpl.
      unfold encode_codec_stage. simpl. rewrite Hf.
      rewrite (map_find_insert_other UHDR_GAIN_MAP_IMG UHDR_BASE_IMG) by discriminate.
      rewrite Hb, map_find_insert_same.
      destruct (encodeJPEGR env _ _ _) as [[ist out] cg]. reflexivity. }
  reflexivity.
Qed.

(** The "api - 0" path uses the configured base quality and EXIF: on an
    unsealed JPEG session with no effect, a raw HDR image and neither an
    SDR image nor a compressed base image, [uhdr_enc_set_exif_data] with a
    block of [n] valid bytes, then [uhdr_enc_set_quality] of [q] for the
    base intent, then [uhdr_encode] makes one codec call, with the HDR
    image, its transfer function, quality [q], and the first [n] bytes of
    the block as EXIF (null when there are none). *)
Theorem encode_api0_uses_configured_quality_and_exif :
  forall (c : uhdr_codec_private_t) (e : uhdr_encoder_private) (hdr : uhdr_raw_image_t)
         (q : Z) (x : uhdr_mem_block_t) (bytes : list Z),
    m_kind c = Encoder e -> m_sailed e = false -> m_effects c = [] ->
    m_output_format e = UHDR_CODEC_JPG ->
    map_find UHDR_HDR_IMG (m_raw_images e) = Some (Some hdr) ->
    map_find UHDR_SDR_IMG (m_raw_images e) = None ->
    map_find UHDR_SDR_IMG (m_compressed_images e) = None ->
    map_find UHDR_BASE_IMG (m_compressed_images e) = None ->
    0 <= q <= 100 -> mb_data x = Some bytes -> mb_data_sz x <= mb_capacity x ->
    let c1 := fst (uhdr_enc_set_exif_data c (Some x)) in
    let c2 := fst (uhdr_enc_set_quality c1 q UHDR_BASE_IMG) in
    snd (uhdr_encode env c2) =
      [encodeJPEGR_api0 hdr (map_ct_to_internal_ct (ri_ct hdr)) q
         (match firstn (Z.to_nat (mb_data_sz x)) bytes with
          | [] => None
          | exif => Some exif
          end)].
Proof.
  intros c e hdr q x bytes Hk Hs Hfx Hf Hh Hsr Hsc Hbc Hq Hd Hsz. cbv zeta.
  unfold uhdr_enc_set_exif_data. rewrite Hk, Hd.
  assert (Hc : Z.ltb (mb_capacity x) (mb_data_sz x) = false) by (apply Z.ltb_ge; lia).
  rewrite Hc, Hs. simpl.
  unfold uhdr_enc_set_quality. simpl. rewrite Hs.
  assert (Hr : (Z.ltb q 0 || Z.ltb 100 q) = false).
  { apply orb_false_iff. split; apply Z.ltb_ge; lia. }
  rewrite Hr. simpl.
  unfold uhdr_encode. simpl. rewrite Hs, Hfx. simpl.
  unfold encode_effects_stage, map_mem. simpl. rewrite Hbc, Hh, Hsr, Hsc. simpl.
  unfold encode_codec_stage. simpl. rewrite Hf, Hbc.
  unfold raw_entry. rewrite Hh, Hsr, Hsc.
  unfold quality_of. simpl. rewrite map_find_insert_same.
  destruct (encodeJPEGR env _ _ _) as [[ist out] cg]. simpl.
  destruct (firstn (Z.to_nat (mb_data_sz x)) bytes); reflexivity.
Qed.

Lemma finish_encode_stream (c : uhdr_codec_private_t) (e : uhdr_encoder_private)
    (buf : uhdr_compressed_image_t) (st : uhdr_error_info_t) (out : list Z)
    (cg : ultrahdr_color_gamut) :
  m_sailed e = true -> error_code st = UHDR_CODEC_OK ->
  uhdr_get_encoded_stream (update_encoder c (finish_encode e buf st out cg)) =
    Some {| ci_data := Some out; ci_data_sz := Z.of_nat (List.length out);
            ci_capacity := ci_capacity buf; ci_cg := map_internal_cg_to_cg cg;
            ci_ct := ci_ct buf; ci_range := ci_range buf |}.
Proof.
  intros Hs Hok. unfold uhdr_get_encoded_stream, finish_encode. simpl.
  rewrite Hs, Hok. reflexivity.
Qed.

(** A [uhdr_encode] call that calls the codec and returns success leaves
    the encoded stream available: [uhdr_get_encoded_stream] returns a
    buffer holding the codec's output, whose data size is the output's
    length and whose gamut is the one the codec reports, mapped back. *)
Theorem encode_success_exposes_stream :
  forall c : uhdr_codec_private_t,
    let '(c', st, calls) := uhdr_encode env c in
    calls <> [] -> error_code st = UHDR_CODEC_OK ->
    exists buf out,
      uhdr_get_encoded_stream c' = Some buf /\ ci_data buf = Some out /\
      ci_data_sz buf = Z.of_nat (List.length out).
Proof.
  intros [effs [e0 | d]]; unfold uhdr_encode; simpl; [| congruence].
  destruct (m_sailed e0); [congruence |].
  pose proof (encode_effects_stage_sailed effs (set_m_sailed e0 true)) as He.
  destruct (encode_effects_stage env effs (set_m_sailed e0 true)) as [e1 stop].
  simpl in He. destruct stop; [congruence |].
  unfold encode_codec_stage.
  repeat (destruct_goal_match; simpl); try congruence;
    intros _ Hok;
    (eexists; eexists; split; [apply finish_encode_stream; assumption |
                               split; reflexivity]).
Qed.



(** On the first [uhdr_encode] call of a session with a raw HDR image, no
    compressed base image and no compressed SDR image (the shapes whose
    effects are applied), an effect list starting with a resize to a zero
    or odd width or height makes the call return InvalidParam without
    calling the codec; the raw images are kept and the session is sealed
    with that status stored. *)
Theorem encode_invalid_resize_stops_before_codec :
  forall (c : uhdr_codec_private_t) (e : uhdr_encoder_private) (w h : Z)
         (rest : list uhdr_effect_desc_t),
    m_kind c = Encoder e -> m_sailed e = false ->
    m_effects c = uhdr_resize_effect w h :: rest ->
    map_find UHDR_BASE_IMG (m_compressed_images e) = None ->
    map_find UHDR_SDR_IMG (m_compressed_images e) = None ->
    map_mem UHDR_HDR_IMG (m_raw_images e) = true ->
    (w = 0 \/ h = 0 \/ Z.rem w 2 <> 0 \/ Z.rem h 2 <> 0) ->
    let '(c', st, calls) := uhdr_encode env c in
    error_code st = UHDR_CODEC_INVALID_PARAM /\ calls = [] /\
    exists e', m_kind c' = Encoder e' /\ m_sailed e' = true /\
               m_encode_call_status e' = st /\ m_raw_images e' = m_raw_images e.
Proof.
  intros c e w h rest Hk Hs Hfx Hb Hsc Hh Hbad.
  assert (Hchk : (Z.eqb w 0 || Z.eqb h 0 || negb (Z.eqb (Z.rem w 2) 0) ||
                  negb (Z.eqb (Z.rem h 2) 0)) = true).
  { destruct Hbad as [H | [H | [H | H]]].
    - subst w. reflexivity.
    - subst h. rewrite orb_true_r. reflexivity.
    - apply Z.eqb_neq in H. rewrite H. simpl. rewrite orb_true_r. reflexivity.
    - apply Z.eqb_neq in H. rewrite H. simpl. apply orb_true_r. }
  unfold uhdr_encode. rewrite Hk, Hs, Hfx.
  unfold encode_effects_stage. simpl m_compressed_images. simpl m_raw_images.
  unfold map_mem in *. rewrite Hb, Hsc.
  destruct (map_find UHDR_HDR_IMG (m_raw_images e)); [| discriminate Hh]. simpl.
  unfold apply_effects_enc. simpl. rewrite Hchk. simpl.
  destruct (map_find UHDR_SDR_IMG (m_raw_images e)); simpl;
    (split; [reflexivity | split; [reflexivity |]]);
    eexists; repeat split.
Qed.
End Claims.

(** ** Instances of the properties on the example collaborators *)

Lemma sealed_encoder_setters_refuse_witness :
  snd (run_enc_call ex_env ex_sealed_encoder (call_set_quality 200 UHDR_BASE_IMG)) =
    snd (run_enc_call ex_env (unseal ex_sealed_encoder) (call_set_quality 200 UHDR_BASE_IMG)) /\
  snd (run_enc_call ex_env ex_sealed_encoder (call_set_quality 50 UHDR_BASE_IMG)) =
    err_enc_sealed.
Proof.
  split.
  - refine (proj2 (sealed_encoder_setters_refuse ex_env ex_sealed_encoder
                     (encoder_of ex_sealed_encoder) (call_set_quality 200 UHDR_BASE_IMG)
                     _ _ _)); vm_compute; reflexivity.
  - refine (proj2 (sealed_encoder_setters_refuse ex_env ex_sealed_encoder
                     (encoder_of ex_sealed_encoder) (call_set_quality 50 UHDR_BASE_IMG)
                     _ _ _)); vm_compute; reflexivity.
Defined.

(** On the sealed example session, the gain-map scale factor setter and
    [uhdr_add_effect_crop] return OK and change the session, and a
    quality of 200 is answered with InvalidParam. *)
Lemma sealed_encoder_setters_counterexample :
  m_sailed (encoder_of ex_sealed_encoder) = true /\
  snd (uhdr_enc_set_gainmap_scale_factor ex_sealed_encoder 4) = g_no_error /\
  m_gainmap_scale_factor (encoder_of ex_sealed_encoder) = 1 /\
  m_gainmap_scale_factor (encoder_of (fst (uhdr_enc_set_gainmap_scale_factor ex_sealed_encoder 4)))
    = 4 /\
  snd (uhdr_add_effect_crop ex_sealed_encoder 0 8 0 8) = g_no_error /\
  List.length (m_effects (fst (uhdr_add_effect_crop ex_sealed_encoder 0 8 0 8))) = 1%nat /\
  List.length (m_effects ex_sealed_encoder) = 0%nat /\
  error_code (snd (uhdr_enc_set_quality ex_sealed_encoder 200 UHDR_BASE_IMG)) =
    UHDR_CODEC_INVALID_PARAM.
Proof. vm_compute. repeat split. Defined.

Lemma encode_rejects_effects_on_compressed_inputs_witness :
  let '(c', st, calls) := uhdr_encode ex_env ex_api4_encoder in
  error_code st = UHDR_CODEC_INVALID_OPERATION /\
  str_contains (detail st) "image effects are not enabled" = true /\
  calls = [] /\
  c' = update_encoder ex_api4_encoder
         (set_m_encode_call_status (set_m_sailed (encoder_of ex_api4_encoder) true) st).
Proof.
  apply (encode_rejects_effects_on_compressed_inputs ex_env ex_api4_encoder
           (encoder_of ex_api4_encoder)).
  - vm_compute. reflexivity.
  - vm_compute. reflexivity.
  - vm_compute. reflexivity.
  - vm_compute. reflexivity.
  - vm_compute. discriminate.
Defined.

Lemma decode_rejects_unlisted_output_pair_witness :
  error_code (snd (uhdr_decode ex_env
                     (ex_decoder UHDR_IMG_FMT_32bppRGBA8888 UHDR_CT_HLG []))) =
    UHDR_CODEC_INVALID_PARAM.
Proof.
  apply (decode_rejects_unlisted_output_pair ex_env
           (ex_decoder UHDR_IMG_FMT_32bppRGBA8888 UHDR_CT_HLG [])
           (decoder_of (ex_decoder UHDR_IMG_FMT_32bppRGBA8888 UHDR_CT_HLG []))).
  - vm_compute. reflexivity.
  - vm_compute. reflexivity.
  - vm_compute. reflexivity.
  - vm_compute. intros [H | [H | [H | [H | []]]]]; discriminate.
Defined.

Lemma gainmap_metadata_bounds_enforced_witness :
  error_code (snd (uhdr_enc_set_gainmap_image ex_env (uhdr_create_encoder ex_env)
                     (Some ex_jpeg) (Some ex_metadata_low_capacity))) =
    UHDR_CODEC_INVALID_PARAM /\
  str_contains (detail (snd (uhdr_enc_set_gainmap_image ex_env (uhdr_create_encoder ex_env)
                               (Some ex_jpeg) (Some ex_metadata_low_capacity))))
    "hdr capacity min" = true.
Proof.
  split.
  - refine (proj2 (proj1 (gainmap_metadata_bounds_enforced ex_env)
                     (uhdr_create_encoder ex_env) (Some ex_jpeg) ex_metadata_low_capacity
                     _ _)).
    + vm_compute. reflexivity.
    + unfold metadata_within_bounds. intros [_ [_ [_ [_ [H _]]]]].
      vm_compute in H. discriminate.
  - refine (proj2 (proj2 (proj2 (gainmap_metadata_bounds_enforced ex_env)
                            (uhdr_create_encoder ex_env) (Some ex_jpeg)
                            ex_metadata_low_capacity _ _ _ _ _)));
      vm_compute; reflexivity.
Defined.

(** A NaN gamma violates gamma > 0, yet a fresh encoder accepts it. *)
Lemma gainmap_metadata_nan_counterexample :
  flt (CFin 0) (gamma ex_metadata_nan_gamma) = false /\
  error_code (snd (uhdr_enc_set_gainmap_image ex_env (uhdr_create_encoder ex_env)
                     (Some ex_jpeg) (Some ex_metadata_nan_gamma))) = UHDR_CODEC_OK.
Proof. vm_compute. split; reflexivity. Defined.

Lemma retrievers_return_sentinels_witness :
  uhdr_dec_get_image_width uhdr_create_decoder = -1 /\
  uhdr_dec_get_gainmap_height uhdr_create_decoder = -1 /\
  uhdr_get_encoded_stream (uhdr_create_encoder ex_env) = None.
Proof.
  split; [| split].
  - refine (proj1 (proj1 retrievers_return_sentinels uhdr_create_decoder _)).
    vm_compute. intros [H _]. discriminate.
  - refine (proj2 (proj2 (proj2 (proj1 retrievers_return_sentinels uhdr_create_decoder _)))).
    vm_compute. intros [H _]. discriminate.
  - refine (proj2 retrievers_return_sentinels (uhdr_create_encoder ex_env) _).
    vm_compute. intros [H _]. discriminate.
Defined.

(** After a decode that rotates by 90 degrees, the queries still answer
    the probe-time 32x16 while the decoded buffer is 16 wide. *)
Lemma decode_keeps_probe_dimensions_witness :
  (let c := ex_decoder UHDR_IMG_FMT_32bppRGBA1010102 UHDR_CT_HLG [uhdr_rotate_effect 90] in
   let c' := fst (uhdr_decode ex_env c) in
   let p := fst (uhdr_dec_probe ex_env c) in
   uhdr_dec_get_image_width c' = uhdr_dec_get_image_width p /\
   uhdr_dec_get_image_height c' = uhdr_dec_get_image_height p /\
   uhdr_dec_get_gainmap_width c' = uhdr_dec_get_gainmap_width p /\
   uhdr_dec_get_gainmap_height c' = uhdr_dec_get_gainmap_height p) /\
  (let c := ex_decoder UHDR_IMG_FMT_32bppRGBA1010102 UHDR_CT_HLG [uhdr_rotate_effect 90] in
   let c' := fst (uhdr_decode ex_env c) in
   error_code (snd (uhdr_decode ex_env c)) = UHDR_CODEC_OK /\
   uhdr_dec_get_image_width c' = 32 /\
   option_map ri_w (uhdr_get_decoded_image c') = Some 16).
Proof.
  split.
  - refine (decode_keeps_probe_dimensions ex_env
              (ex_decoder UHDR_IMG_FMT_32bppRGBA1010102 UHDR_CT_HLG [uhdr_rotate_effect 90])
              (decoder_of (ex_decoder UHDR_IMG_FMT_32bppRGBA1010102 UHDR_CT_HLG
                             [uhdr_rotate_effect 90])) _ _); vm_compute; reflexivity.
  - vm_compute. repeat split.
Defined.

(** ** Instances of the further properties *)

Lemma enc_set_quality_stores_for_intent_witness :
  quality_of (encoder_of (fst (uhdr_enc_set_quality (uhdr_create_encoder ex_env) 80
                                 UHDR_BASE_IMG))) UHDR_BASE_IMG = 80 /\
  error_code (snd (uhdr_enc_set_quality (uhdr_create_encoder ex_env) 101 UHDR_BASE_IMG)) =
    UHDR_CODEC_INVALID_PARAM.
Proof.
  split.
  - destruct (proj1 (enc_set_quality_stores_for_intent (uhdr_create_encoder ex_env)
                       (encoder_of (uhdr_create_encoder ex_env)) 80 UHDR_BASE_IMG
                       ltac:(vm_compute; reflexivity) ltac:(vm_compute; reflexivity))
                    ltac:(lia) ltac:(simpl; tauto)) as [_ [e' [He [Hq _]]]].
    unfold encoder_of at 1. rewrite He. exact Hq.
  - exact (proj2 (proj2 (enc_set_quality_stores_for_intent (uhdr_create_encoder ex_env)
                           (encoder_of (uhdr_create_encoder ex_env)) 101 UHDR_BASE_IMG
                           ltac:(vm_compute; reflexivity) ltac:(vm_compute; reflexivity))
                    ltac:(lia))).
Defined.

(** A 4-byte buffer declaring 2 valid bytes, stored under the HDR intent. *)
Lemma enc_set_compressed_image_stores_trimmed_copy_witness :
  let img := {| ci_data := Some [255; 216; 255; 217]; ci_data_sz := 2; ci_capacity := 4;
                ci_cg := UHDR_CG_BT_709; ci_ct := UHDR_CT_SRGB;
                ci_range := UHDR_CR_FULL_RANGE |} in
  snd (uhdr_enc_set_compressed_image (uhdr_create_encoder ex_env) (Some img) UHDR_HDR_IMG) =
    g_no_error /\
  map_find UHDR_HDR_IMG
    (m_compressed_images (encoder_of (fst (uhdr_enc_set_compressed_image
                                             (uhdr_create_encoder ex_env) (Some img)
                                             UHDR_HDR_IMG)))) =
    Some {| ci_data := Some [255; 216]; ci_data_sz := 2; ci_capacity := 2;
            ci_cg := UHDR_CG_BT_709; ci_ct := UHDR_CT_SRGB; ci_range := UHDR_CR_FULL_RANGE |}.
Proof.
  cbv zeta.
  destruct (enc_set_compressed_image_stores_trimmed_copy (uhdr_create_encoder ex_env)
              (encoder_of (uhdr_create_encoder ex_env))
              {| ci_data := Some [255; 216; 255; 217]; ci_data_sz := 2; ci_capacity := 4;
                 ci_cg := UHDR_CG_BT_709; ci_ct := UHDR_CT_SRGB;
                 ci_range := UHDR_CR_FULL_RANGE |} [255; 216; 255; 217] UHDR_HDR_IMG
              ltac:(vm_compute; reflexivity) ltac:(vm_compute; reflexivity) eq_refl
              ltac:(simpl; lia)) as [Hok [e' [He [Hf _]]]].
  split; [exact Hok |]. unfold encoder_of at 1. rewrite He, Hf. reflexivity.
Defined.

Lemma enc_set_raw_image_rejects_resolution_mismatch_witness :
  fst (uhdr_enc_set_raw_image ex_env ex_hdr_encoder (Some ex_yuv420) UHDR_SDR_IMG) =
    ex_hdr_encoder /\
  error_code (snd (uhdr_enc_set_raw_image ex_env ex_hdr_encoder (Some ex_yuv420)
                     UHDR_SDR_IMG)) = UHDR_CODEC_INVALID_PARAM.
Proof.
  apply (enc_set_raw_image_rejects_resolution_mismatch ex_env ex_hdr_encoder
           (encoder_of ex_hdr_encoder) ex_yuv420 ex_p010 UHDR_SDR_IMG UHDR_HDR_IMG).
  - vm_compute. reflexivity.
  - right. split; reflexivity.
  - vm_compute. reflexivity.
  - vm_compute. reflexivity.
  - left. simpl. lia.
Defined.

Lemma color_gamut_mappings_round_trip_witness :
  map_internal_cg_to_cg (map_cg_to_internal_cg UHDR_CG_DISPLAY_P3) = UHDR_CG_DISPLAY_P3 /\
  map_internal_cg_to_cg (map_cg_to_internal_cg (UHDR_CG_OTHER 7)) = UHDR_CG_UNSPECIFIED.
Proof.
  split.
  - apply (proj1 (proj2 color_gamut_mappings_round_trip)). simpl. tauto.
  - apply (proj2 (proj2 color_gamut_mappings_round_trip)).
    simpl. intros [H | [H | [H | []]]]; discriminate.
Defined.

(** Resetting the sealed example encoder. *)
Lemma reset_encoder_reopens_session_witness :
  error_code (snd (fst (uhdr_encode ex_env (uhdr_reset_encoder ex_env ex_sealed_encoder)))) =
    UHDR_CODEC_INVALID_OPERATION /\
  uhdr_get_encoded_stream (uhdr_reset_encoder ex_env ex_sealed_encoder) = None.
Proof.
  pose proof (reset_encoder_reopens_session ex_env ex_sealed_encoder
                (encoder_of ex_sealed_encoder) ltac:(vm_compute; reflexivity)) as H.
  cbv zeta in H. destruct H as [_ [Hs [_ [He _]]]]. split; assumption.
Defined.

Lemma decoder_configuration_locked_after_probe_witness :
  let c := ex_decoder UHDR_IMG_FMT_32bppRGBA1010102 UHDR_CT_HLG [] in
  let p := fst (uhdr_dec_probe ex_env c) in
  fst (uhdr_dec_set_out_img_format p UHDR_IMG_FMT_32bppRGBA8888) = p /\
  snd (uhdr_dec_set_out_img_format p UHDR_IMG_FMT_32bppRGBA8888) = err_dec_sealed.
Proof.
  cbv zeta.
  pose proof (decoder_configuration_locked_after_probe ex_env
                (ex_decoder UHDR_IMG_FMT_32bppRGBA1010102 UHDR_CT_HLG [])
                (decoder_of (ex_decoder UHDR_IMG_FMT_32bppRGBA1010102 UHDR_CT_HLG []))
                ltac:(vm_compute; reflexivity)) as H.
  cbv zeta in H. destruct H as [_ [_ [H1 [H2 _]]]].
  split; [apply H1 | apply H2; simpl; tauto].
Defined.

Lemma probe_reports_parsed_stream_info_witness :
  let c := ex_decoder UHDR_IMG_FMT_32bppRGBA1010102 UHDR_CT_HLG [] in
  uhdr_dec_get_image_width (fst (uhdr_dec_probe ex_env c)) = 32 /\
  uhdr_dec_get_gainmap_height (fst (uhdr_dec_probe ex_env c)) = 4.
Proof.
  cbv zeta.
  pose proof (probe_reports_parsed_stream_info ex_env
                (ex_decoder UHDR_IMG_FMT_32bppRGBA1010102 UHDR_CT_HLG [])
                (decoder_of (ex_decoder UHDR_IMG_FMT_32bppRGBA1010102 UHDR_CT_HLG []))
                _ _ _ _ ltac:(vm_compute; reflexivity) ltac:(vm_compute; reflexivity)
                ltac:(vm_compute; reflexivity) ltac:(vm_compute; reflexivity)
                ltac:(vm_compute; reflexivity)) as H.
  cbv zeta in H. destruct H as [_ [Hw [_ [_ [Hh _]]]]].
  rewrite Hw, Hh. split; reflexivity.
Defined.

(** A fresh decoder has no input: its probe fails. *)
Lemma failed_probe_hides_stream_info_witness :
  uhdr_dec_get_exif (fst (uhdr_dec_probe ex_env uhdr_create_decoder)) = None /\
  uhdr_dec_get_image_width (fst (uhdr_dec_probe ex_env uhdr_create_decoder)) = -1.
Proof.
  pose proof (failed_probe_hides_stream_info ex_env uhdr_create_decoder
                ltac:(vm_compute; discriminate)) as H.
  cbv zeta in H. destruct H as [Hw [_ [_ [_ [He _]]]]]. split; assumption.
Defined.

(** Decoding to RGBA8888 with the HLG transfer fails. *)
Lemma failed_decode_exposes_no_image_witness :
  uhdr_get_decoded_image
    (fst (uhdr_decode ex_env (ex_decoder UHDR_IMG_FMT_32bppRGBA8888 UHDR_CT_HLG []))) = None.
Proof.
  exact (proj1 (failed_decode_exposes_no_image ex_env
                  (ex_decoder UHDR_IMG_FMT_32bppRGBA8888 UHDR_CT_HLG [])
                  ltac:(vm_compute; discriminate))).
Defined.

(** Resetting a decoder after a successful decode. *)
Lemma reset_decoder_forgets_input_witness :
  let c := fst (uhdr_decode ex_env (ex_decoder UHDR_IMG_FMT_32bppRGBA1010102 UHDR_CT_HLG [])) in
  error_code (snd (uhdr_decode ex_env (uhdr_reset_decoder c))) =
    UHDR_CODEC_INVALID_OPERATION.
Proof.
  cbv zeta.
  pose proof (reset_decoder_forgets_input ex_env
                (fst (uhdr_decode ex_env (ex_decoder UHDR_IMG_FMT_32bppRGBA1010102
                                            UHDR_CT_HLG [])))
                (decoder_of (fst (uhdr_decode ex_env (ex_decoder UHDR_IMG_FMT_32bppRGBA1010102
                                                        UHDR_CT_HLG []))))
                ltac:(vm_compute; reflexivity)) as H.
  cbv zeta in H. destruct H as [_ [_ [_ [_ [_ [H _]]]]]]. exact H.
Defined.

Lemma decode_allocates_output_buffers_witness :
  exists disp,
    uhdr_get_decoded_image
      (fst (uhdr_decode ex_env (ex_decoder UHDR_IMG_FMT_32bppRGBA1010102 UHDR_CT_HLG []))) =
      Some disp /\ ri_w disp = 32.
Proof.
  destruct (decode_allocates_output_buffers ex_env
              (ex_decoder UHDR_IMG_FMT_32bppRGBA1010102 UHDR_CT_HLG [])
              (decoder_of (ex_decoder UHDR_IMG_FMT_32bppRGBA1010102 UHDR_CT_HLG []))
              ltac:(vm_compute; reflexivity) ltac:(vm_compute; reflexivity)
              ltac:(vm_compute; reflexivity) ltac:(vm_compute; intros H; discriminate H)
              ltac:(vm_compute; reflexivity))
    as [disp [gmb [H1 [_ [H3 _]]]]].
  exists disp. split; [exact H1 |]. rewrite H3. vm_compute. reflexivity.
Defined.

Lemma decode_crop_empty_width_stops_pipeline_witness :
  error_code (snd (apply_effects_dec ex_env [uhdr_crop_effect 10 4 0 16; uhdr_rotate_effect 90]
                     (Some ex_p010) (Some ex_p010))) = UHDR_CODEC_INVALID_PARAM.
Proof.
  exact (proj2 (decode_crop_empty_width_stops_pipeline ex_env ex_p010 ex_p010 10 4 0 16
                  [uhdr_rotate_effect 90] ltac:(simpl; lia))).
Defined.

Lemma is_uhdr_image_probes_buffer_witness :
  is_uhdr_image ex_env (Some [255; 216; 255; 217]) 4 = 1 /\ is_uhdr_image ex_env None 4 = 0.
Proof.
  split.
  - rewrite (proj2 (is_uhdr_image_probes_buffer ex_env) [255; 216; 255; 217] 4
               ltac:(unfold INT_MAX; lia)).
    vm_compute. reflexivity.
  - exact (proj1 (is_uhdr_image_probes_buffer ex_env) 4).
Defined.

Lemma encode_rejects_effects_with_compressed_sdr_witness :
  snd (fst (uhdr_encode ex_env ex_api3_encoder)) = err_effects_not_enabled.
Proof.
  rewrite (encode_rejects_effects_with_compressed_sdr ex_env ex_api3_encoder
             (encoder_of ex_api3_encoder)).
  - reflexivity.
  - vm_compute. reflexivity.
  - vm_compute. reflexivity.
  - vm_compute. discriminate.
  - vm_compute. reflexivity.
  - vm_compute. reflexivity.
Defined.

(** The example gain map and metadata set on an encoder holding the
    example base image. *)
Lemma encode_api4_carries_gainmap_metadata_witness :
  let c := fst (uhdr_enc_set_compressed_image (uhdr_create_encoder ex_env) (Some ex_jpeg)
                  UHDR_BASE_IMG) in
  exists gm,
    snd (uhdr_encode ex_env (fst (uhdr_enc_set_gainmap_image ex_env c (Some ex_jpeg)
                                    (Some ex_metadata)))) =
      [encodeJPEGR_api4 ex_jpeg gm
         {| version := "1.0"; maxContentBoost := CFin 4; minContentBoost := CFin 1;
            gammaM := CFin 1; offsetSdr := CFin (1 # 64); offsetHdr := CFin (1 # 64);
            hdrCapacityMin := CFin 1; hdrCapacityMax := CFin 4 |}].
Proof.
  cbv zeta.
  destruct (encode_api4_carries_gainmap_metadata ex_env
              (fst (uhdr_enc_set_compressed_image (uhdr_create_encoder ex_env) (Some ex_jpeg)
                      UHDR_BASE_IMG))
              (encoder_of (fst (uhdr_enc_set_compressed_image (uhdr_create_encoder ex_env)
                                  (Some ex_jpeg) UHDR_BASE_IMG)))
              ex_jpeg ex_jpeg ex_metadata
              ltac:(vm_compute; reflexivity) ltac:(vm_compute; reflexivity)
              ltac:(vm_compute; reflexivity) ltac:(vm_compute; reflexivity)
              ltac:(vm_compute; reflexivity) ltac:(vm_compute; reflexivity))
    as [gm [_ H]].
  exists gm. exact H.
Defined.

(** Two of three EXIF bytes and quality 70 on the HDR example encoder. *)
Lemma encode_api0_uses_configured_quality_and_exif_witness :
  let x := {| mb_data := Some [1; 2; 3]; mb_data_sz := 2; mb_capacity := 3 |} in
  let c1 := fst (uhdr_enc_set_exif_data ex_hdr_encoder (Some x)) in
  let c2 := fst (uhdr_enc_set_quality c1 70 UHDR_BASE_IMG) in
  snd (uhdr_encode ex_env c2) = [encodeJPEGR_api0 ex_p010 ULTRAHDR_TF_HLG 70 (Some [1; 2])].
Proof.
  cbv zeta.
  pose proof (encode_api0_uses_configured_quality_and_exif ex_env ex_hdr_encoder
                (encoder_of ex_hdr_encoder) ex_p010 70
                {| mb_data := Some [1; 2; 3]; mb_data_sz := 2; mb_capacity := 3 |} [1; 2; 3]
                ltac:(vm_compute; reflexivity) ltac:(vm_compute; reflexivity)
                ltac:(vm_compute; reflexivity) ltac:(vm_compute; reflexivity)
                ltac:(vm_compute; reflexivity) ltac:(vm_compute; reflexivity)
                ltac:(vm_compute; reflexivity) ltac:(vm_compute; reflexivity)
                ltac:(lia) eq_refl ltac:(simpl; lia)) as H.
  cbv zeta in H. rewrite H. reflexivity.
Defined.

Lemma encode_success_exposes_stream_witness :
  exists buf out,
    uhdr_get_encoded_stream (fst (fst (uhdr_encode ex_env ex_hdr_encoder))) = Some buf /\
    ci_data buf = Some out /\ ci_data_sz buf = Z.of_nat (List.length out).
Proof.
  generalize (encode_success_exposes_stream ex_env ex_hdr_encoder).
  destruct (uhdr_encode ex_env ex_hdr_encoder) as [[c' st] calls] eqn:E.
  pose proof (f_equal snd E) as Ec. pose proof (f_equal (fun r => snd (fst r)) E) as Es.
  vm_compute in Ec, Es. simpl. intros H. apply H.
  - rewrite <- Ec. discriminate.
  - rewrite <- Es. reflexivity.
Defined.


(** A resize to 15x16 attached to the HDR example encoder. *)
Lemma encode_invalid_resize_stops_before_codec_witness :
  let c := fst (uhdr_add_effect_resize ex_hdr_encoder 15 16) in
  error_code (snd (fst (uhdr_encode ex_env c))) = UHDR_CODEC_INVALID_PARAM /\
  snd (uhdr_encode ex_env c) = [].
Proof.
  cbv zeta.
  pose proof (encode_invalid_resize_stops_before_codec ex_env
                (fst (uhdr_add_effect_resize ex_hdr_encoder 15 16))
                (encoder_of (fst (uhdr_add_effect_resize ex_hdr_encoder 15 16))) 15 16 []
                ltac:(vm_compute; reflexivity) ltac:(vm_compute; reflexivity)
                ltac:(vm_compute; reflexivity) ltac:(vm_compute; reflexivity)
                ltac:(vm_compute; reflexivity) ltac:(vm_compute; reflexivity)
                ltac:(right; right; left; vm_compute; discriminate)) as H.
  destruct (uhdr_encode ex_env (fst (uhdr_add_effect_resize ex_hdr_encoder 15 16)))
    as [[c' st] calls].
  destruct H as [H1 [H2 _]]. split; assumption.
Defined.
